(** * CodeAnalysis: the multi-language analysis engine and its scoring rules

    A shallow embedding of [app/analysis/multi_language_analyzer.py] and
    [app/analysis/scanner.py], with the rows of [app.py] and
    [app/models/__init__.py].

    Conventions of the embedding.
    - A Python [str] is a [string]; source text is taken to be ASCII.
    - A Python [int] is a [Z]; a Python [float] is the rational [Q] that it
      denotes.  Where a value is rounded with [round], the quotient and the
      product that lead to it are the doubles that Python computes ([fdiv],
      [fmul]).
    - A [dict] read through [.get] is a [gmap]; a [set] of hashes is a [gset].
    - A [try]/[except] that skips a unit is an [option] on the input: [None]
      stands for the call that raises ([open], [cc_visit], [ast.parse]).
    - Results of the external libraries (radon, ast) are part of the input. *)

From Stdlib Require Import ZArith QArith Qround Lqa Lia Bool Ascii String List.
From stdpp Require Import base option list gmap strings sorting.

Local Open Scope Z_scope.

(** ** Python string primitives *)

Module Py.

(** [str.isspace] on the ASCII range: TAB..CR, FS..US and SPACE. *)
Definition is_space (c : ascii) : bool :=
  let n := nat_of_ascii c in
  ((9 <=? n)%nat && (n <=? 13)%nat) || ((28 <=? n)%nat && (n <=? 32)%nat).

Definition is_upper (c : ascii) : bool :=
  let n := nat_of_ascii c in (65 <=? n)%nat && (n <=? 90)%nat.

Definition is_lower (c : ascii) : bool :=
  let n := nat_of_ascii c in (97 <=? n)%nat && (n <=? 122)%nat.

Definition is_digit (c : ascii) : bool :=
  let n := nat_of_ascii c in (48 <=? n)%nat && (n <=? 57)%nat.

(** The class [\w] of [re] on ASCII text. *)
Definition is_word (c : ascii) : bool :=
  is_upper c || is_lower c || is_digit c || Ascii.eqb c "_".

Definition lower_char (c : ascii) : ascii :=
  if is_upper c then ascii_of_nat (nat_of_ascii c + 32) else c.

Fixpoint lower (s : string) : string :=
  match s with
  | EmptyString => EmptyString
  | String c s' => String (lower_char c) (lower s')
  end.

Fixpoint lstrip (s : string) : string :=
  match s with
  | EmptyString => EmptyString
  | String c s' => if is_space c then lstrip s' else s
  end.

Fixpoint rstrip (s : string) : string :=
  match s with
  | EmptyString => EmptyString
  | String c s' =>
      let r := rstrip s' in
      if is_space c && String.eqb r EmptyString then EmptyString else String c r
  end.

(** [s.strip()] *)
Definition strip (s : string) : string := rstrip (lstrip s).

(** [s.startswith(p)] *)
Definition startswith (s p : string) : bool := String.prefix p s.

(** [s.endswith(p)] *)
Definition endswith (s p : string) : bool :=
  let n := String.length s in
  let m := String.length p in
  (m <=? n)%nat && String.eqb (String.substring (n - m) m s) p.

(** [sub in s] *)
Fixpoint contains (sub s : string) : bool :=
  String.prefix sub s ||
  match s with
  | EmptyString => false
  | String _ s' => contains sub s'
  end.

(** [s.count(sub)]: occurrences that do not overlap, leftmost first.  [skip]
    is the number of characters still covered by the last occurrence. *)
Fixpoint count_from (sub s : string) (skip : nat) : nat :=
  match s with
  | EmptyString => 0%nat
  | String _ s' =>
      match skip with
      | S k => count_from sub s' k
      | O =>
          if String.prefix sub s
          then S (count_from sub s' (String.length sub - 1))
          else count_from sub s' 0
      end
  end.

Definition count (s sub : string) : nat :=
  match sub with
  | EmptyString => S (String.length s)
  | _ => count_from sub s 0
  end.

Definition newline : ascii := ascii_of_nat 10.

(** [f.readlines()]: the lines of a text, each keeping its newline. *)
Fixpoint readlines (s : string) : list string :=
  match s with
  | EmptyString => []
  | String c s' =>
      if Ascii.eqb c newline then String c EmptyString :: readlines s'
      else match readlines s' with
           | [] => [String c EmptyString]
           | l :: ls => String c l :: ls
           end
  end.

(** [s.split('\n')] *)
Fixpoint split_lines (s : string) : list string :=
  match s with
  | EmptyString => [EmptyString]
  | String c s' =>
      if Ascii.eqb c newline then EmptyString :: split_lines s'
      else match split_lines s' with
           | [] => [String c EmptyString]
           | l :: ls => String c l :: ls
           end
  end.

(** [os.path.basename] for POSIX paths. *)
Fixpoint basename (p : string) : string :=
  match p with
  | EmptyString => EmptyString
  | String _ p' => if contains "/" p then basename p' else p
  end.

(** The extension of a base name: from its last dot, when some character
    other than a dot comes before that dot. *)
Fixpoint last_ext (s : string) (seen : bool) : option string :=
  match s with
  | EmptyString => None
  | String c s' =>
      match last_ext s' (seen || negb (Ascii.eqb c ".")) with
      | Some e => Some e
      | None => if Ascii.eqb c "." && seen then Some s else None
      end
  end.

(** [os.path.splitext(p)[1]] *)
Definition splitext_ext (p : string) : string :=
  default EmptyString (last_ext (basename p) false).

(** [s.split(sep)] for a separator of one character. *)
Fixpoint split (sep : ascii) (s : string) : list string :=
  match s with
  | EmptyString => [EmptyString]
  | String c s' =>
      if Ascii.eqb c sep then EmptyString :: split sep s'
      else match split sep s' with
           | [] => [String c EmptyString]
           | word :: words => String c word :: words
           end
  end.

(** [s.rstrip(chars)] *)
Fixpoint rstrip_chars (s chars : string) : string :=
  match s with
  | EmptyString => EmptyString
  | String c s' =>
      let r := rstrip_chars s' chars in
      if existsb (Ascii.eqb c) (list_ascii_of_string chars)
         && String.eqb r EmptyString
      then EmptyString else String c r
  end.

(** [s.replace(old, new)]: the occurrences that do not overlap, leftmost
    first.  [skip] is the number of characters still covered by the
    occurrence being replaced. *)
Fixpoint replace_from (old new s : string) (skip : nat) : string :=
  match s with
  | EmptyString => EmptyString
  | String c s' =>
      match skip with
      | S k => replace_from old new s' k
      | O =>
          if String.prefix old s
          then (new ++ replace_from old new s' (String.length old - 1))%string
          else String c (replace_from old new s' 0)
      end
  end.

Fixpoint replace_between (new s : string) : string :=
  match s with
  | EmptyString => new
  | String c s' => (new ++ String c (replace_between new s'))%string
  end.

Definition replace (s old new : string) : string :=
  match old with
  | EmptyString => replace_between new s
  | _ => replace_from old new s 0
  end.

End Py.

(** ** The fragment of Python's [re] that the analyzers use

    Backtracking matching with greedy quantifiers and ordered alternation,
    under [re.IGNORECASE]: a literal matches either case of its letter. *)

Module Re.

(** Character classes: [\w], [\s] and [[^c]]. *)
Inductive cls : Type :=
| CWord
| CSpace
| CNot (c : ascii).

Definition in_cls (c : cls) (x : ascii) : bool :=
  match c with
  | CWord => Py.is_word x
  | CSpace => Py.is_space x
  | CNot y => negb (Ascii.eqb x y)
  end.

Inductive regex : Type :=
| Eps
| Chr (c : ascii)
| Class (c : cls)
| WordB
| Seq (r1 r2 : regex)
| Alt (r1 r2 : regex)
| Opt (r : regex)
| Star (r : regex).

Definition Plus (r : regex) : regex := Seq r (Star r).

Fixpoint Lit (s : string) : regex :=
  match s with
  | EmptyString => Eps
  | String c s' => Seq (Chr c) (Lit s')
  end.

(** [\bword\b] *)
Definition Word (s : string) : regex := Seq WordB (Seq (Lit s) WordB).

Definition w : regex := Class CWord.
Definition ws : regex := Class CSpace.
Definition not_chr (c : ascii) : regex := Class (CNot c).

Fixpoint seqs (rs : list regex) : regex :=
  match rs with
  | [] => Eps
  | r :: rs' => Seq r (seqs rs')
  end.

(** A matching position: the character just before it, the text from it on,
    and its index. *)
Definition cont : Type := option ascii -> string -> nat -> option nat.

Definition word_before (prev : option ascii) : bool :=
  match prev with Some c => Py.is_word c | None => false end.

Definition word_after (s : string) : bool :=
  match s with String c _ => Py.is_word c | EmptyString => false end.

(** Greedy iteration of the matcher [m]; an iteration that consumes nothing
    is abandoned, so [fuel] above the length of the text is enough. *)
Fixpoint star (m : cont -> cont) (k : cont) (fuel : nat) : cont :=
  fun prev s pos =>
    match fuel with
    | O => k prev s pos
    | S fuel' =>
        match m (fun prev' s' pos' =>
                   if (pos <? pos')%nat then star m k fuel' prev' s' pos'
                   else None) prev s pos with
        | Some e => Some e
        | None => k prev s pos
        end
    end.

Fixpoint rmatch (r : regex) (k : cont) (prev : option ascii) (s : string)
    (pos : nat) : option nat :=
  match r with
  | Eps => k prev s pos
  | Chr c =>
      match s with
      | String x s' =>
          if Ascii.eqb (Py.lower_char x) (Py.lower_char c)
          then k (Some x) s' (S pos) else None
      | EmptyString => None
      end
  | Class c =>
      match s with
      | String x s' => if in_cls c x then k (Some x) s' (S pos) else None
      | EmptyString => None
      end
  | WordB =>
      if xorb (word_before prev) (word_after s) then k prev s pos else None
  | Seq r1 r2 => rmatch r1 (rmatch r2 k) prev s pos
  | Alt r1 r2 =>
      match rmatch r1 k prev s pos with
      | Some e => Some e
      | None => rmatch r2 k prev s pos
      end
  | Opt r1 =>
      match rmatch r1 k prev s pos with
      | Some e => Some e
      | None => k prev s pos
      end
  | Star r1 => star (rmatch r1) k (S (String.length s)) prev s pos
  end.

(** The end of the match of [r] that starts at this position, if any. *)
Definition match_at (r : regex) (prev : option ascii) (s : string) (pos : nat)
    : option nat :=
  rmatch r (fun _ _ e => Some e) prev s pos.

(** [re.finditer]: the matches from left to right as (start, end) pairs; the
    search resumes where the last match ended.  [skip] is the number of
    characters still covered by it. *)
Fixpoint scan (r : regex) (prev : option ascii) (s : string) (pos skip : nat)
    : list (nat * nat) :=
  match s with
  | EmptyString =>
      match skip, match_at r prev s pos with
      | O, Some e => [(pos, e)]
      | _, _ => []
      end
  | String c s' =>
      match skip with
      | S k => scan r (Some c) s' (S pos) k
      | O =>
          match match_at r prev s pos with
          | Some e => (pos, e) :: scan r (Some c) s' (S pos) (e - pos - 1)
          | None => scan r (Some c) s' (S pos) 0
          end
      end
  end.

Definition finditer (r : regex) (s : string) : list (nat * nat) :=
  scan r None s 0 0.

(** [len(re.findall(r, s))] *)
Definition findall_count (r : regex) (s : string) : nat :=
  List.length (finditer r s).

End Re.


(** ** Input of an analysis *)

(** A block reported by radon's [cc_visit]. *)
Record cc_block : Type := {
  cc_name : string;
  cc_complexity : Z;
  cc_lineno : Z
}.

(** A [FunctionDef] or [AsyncFunctionDef] node met by [ast.walk]. *)
Record ast_func : Type := {
  fn_name : string;
  fn_lineno : Z;
  fn_end_lineno : Z;
  fn_param_count : Z;
  fn_has_docstring : bool
}.

(** A file of the checked-out tree, with what the external libraries answer
    on its text. *)
Record source_file : Type := {
  file_path : string;
  file_text : option string;          (* [open(..).read()]; [None]: it raises *)
  file_cc : option (list cc_block);   (* [cc_visit(text)]; [None]: it raises *)
  file_mi : option Q;                 (* [mi_visit(text, multi=True)] *)
  file_ast : option (list ast_func)   (* [ast.parse] and [ast.walk]; [None]: SyntaxError *)
}.

(** The three-bucket distribution. *)
Record distribution : Type := {
  simple : Z;
  moderate : Z;
  complex : Z
}.

Definition empty_distribution : distribution :=
  {| simple := 0; moderate := 0; complex := 0 |}.

(** The branch [if c <= 5 / elif c <= 10 / else] that bumps one bucket. *)
Definition bump (d : distribution) (score : Z) : distribution :=
  if score <=? 5 then
    {| simple := simple d + 1; moderate := moderate d; complex := complex d |}
  else if score <=? 10 then
    {| simple := simple d; moderate := moderate d + 1; complex := complex d |}
  else
    {| simple := simple d; moderate := moderate d; complex := complex d + 1 |}.

Definition sum_Z (l : list Z) : Z := fold_left Z.add l 0.

(** [min(l)] and [max(l)] of a list known to be non-empty. *)
Definition min_list (x : Z) (l : list Z) : Z := fold_left Z.min l x.
Definition max_list (x : Z) (l : list Z) : Z := fold_left Z.max l x.

Definition len {A} (l : list A) : Z := Z.of_nat (List.length l).

(** [round(x, 1)], ties to even. *)
Definition round_half_even (q : Q) : Z :=
  let n := Qnum q in
  let d := Zpos (Qden q) in
  let fl := n / d in
  let r2 := 2 * (n mod d) in
  if r2 <? d then fl
  else if d <? r2 then fl + 1
  else if Z.even fl then fl else fl + 1.

Definition round1 (q : Q) : Q := (round_half_even (q * 10) # 10)%Q.

(** Double-precision arithmetic.  A float is held as the rational it
    denotes, and [round1] is applied to that rational, as [round] works on
    the value of the double; the decimal it returns names the double nearest
    to it.  [scale2 q e] is [q * 2**e].  [binary64 q] is the double nearest
    to [q], ties to even: the significand has 53 bits, the exponent of its
    last bit is at least -1074.  The quantities of the analyses stay far
    below the largest double, so no overflow is modelled. *)
Definition scale2 (q : Q) (e : Z) : Q :=
  if 0 <=? e then (Qnum q * 2 ^ e) # (Qden q)
  else Qnum q # (Qden q * Z.to_pos (2 ^ (- e))).

Definition exponent64 (q : Q) : Z :=
  let t := (Z.abs (Qnum q) * 2 ^ 1074) / Zpos (Qden q) in
  Z.max (Z.log2 t - 1126) (-1074).

Definition binary64 (q : Q) : Q :=
  let e := exponent64 q in
  scale2 (inject_Z (round_half_even (scale2 q (- e)))) e.

(** [a / b] on integers and [x * y] on floats: the exact result, rounded. *)
Definition fdiv (a b : Z) : Q := binary64 (inject_Z a / inject_Z b).
Definition fmul (x y : Q) : Q := binary64 (x * y).

Definition Qltb (a b : Q) : bool :=
  match (a ?= b)%Q with Lt => true | _ => false end.

Definition Qgtb (a b : Q) : bool := Qltb b a.

Definition Qclamp (lo hi x : Q) : Q :=
  if Qltb x lo then lo else if Qltb hi x then hi else x.

(** ** [multi_language_analyzer.py] *)

Module MultiLanguageAnalyzer.
Import Re.

(** What the external tools answer on the tree. *)
Record tools : Type := {
  radon_installed : bool;
  (* the numbers read from ESLint's [complexity] messages, message by
     message; [None]: the subprocess fails or prints nothing *)
  eslint_scores : option (list Z)
}.

(** A result as the language analyzers build it. *)
Record raw_result : Type := {
  r_average_complexity : Q;
  r_maintainability_index : option Q;
  r_distribution : distribution;
  r_total_functions : Z;
  r_complexity_min : Z;
  r_complexity_max : Z;
  r_analysis_method : string
}.

(** The standardized result. *)
Record result : Type := {
  average_complexity : Q;
  maintainability_index : Q;
  complexity_distribution : distribution;
  total_functions : Z;
  analysis_method : string;
  complexity_min : Z;
  complexity_max : Z;
  simple_functions : Z;
  moderate_functions : Z;
  complex_functions : Z
}.

Definition _standardize_result (r : raw_result) (language : string) : result :=
  {| average_complexity := r_average_complexity r;
     maintainability_index := default 0%Q (r_maintainability_index r);
     complexity_distribution := r_distribution r;
     total_functions := r_total_functions r;
     analysis_method := r_analysis_method r;
     complexity_min := r_complexity_min r;
     complexity_max := r_complexity_max r;
     simple_functions := simple (r_distribution r);
     moderate_functions := moderate (r_distribution r);
     complex_functions := complex (r_distribution r) |}.

Definition get_default_result (language : string) : result :=
  {| average_complexity := 0;
     maintainability_index := 0;
     complexity_distribution := empty_distribution;
     total_functions := 0;
     analysis_method := "Default " ++ language ++ " analysis (failed)";
     complexity_min := 0;
     complexity_max := 0;
     simple_functions := 0;
     moderate_functions := 0;
     complex_functions := 0 |}.

Definition ignore_patterns : list string :=
  ["node_modules"; ".git"; "__pycache__"; ".venv"; "venv";
   "build"; "dist"; "target"; ".pytest_cache"; "vendor"].

Definition _should_ignore_file (file_path : string) : bool :=
  existsb (fun pattern => Py.contains pattern file_path) ignore_patterns.

(** [repo] lists the regular files under the root; [rglob('*' + ext)] keeps
    those whose name ends with [ext]. *)
Definition _get_files_by_extension (repo : list source_file)
    (extensions : list string) : list source_file :=
  let files :=
    flat_map (fun ext =>
      List.filter (fun f => Py.endswith (file_path f) ext) repo) extensions in
  List.filter (fun f => negb (_should_ignore_file (file_path f))) files.

(** The loop of [_extract_function_content] over [content[start_pos:]];
    [n] is [len(func_content)] before the character is added. *)
Fixpoint extract_loop (s : string) (brace_count : Z) (in_function : bool)
    (n : nat) : string :=
  match s with
  | EmptyString => EmptyString
  | String char s' =>
      if Ascii.eqb char "{" then
        String char (extract_loop s' (brace_count + 1) true (S n))
      else if Ascii.eqb char "}" && in_function then
        if brace_count - 1 =? 0 then String char EmptyString
        else String char (extract_loop s' (brace_count - 1) in_function (S n))
      else if negb in_function && (Ascii.eqb char Py.newline && (200 <? S n)%nat) then
        String char EmptyString
      else String char (extract_loop s' brace_count in_function (S n))
  end.

Definition _extract_function_content (content : string) (start_pos : nat)
    : string :=
  extract_loop
    (String.substring start_pos (String.length content - start_pos) content)
    0 false 0.

(** [complexity = 1], then [complexity += len(re.findall(keyword, ..))] for
    each keyword. *)
Definition function_complexity (complexity_keywords : list regex)
    (func_content : string) : Z :=
  fold_left
    (fun complexity keyword =>
       complexity + Z.of_nat (findall_count keyword func_content))
    complexity_keywords 1.

(** The matches of the function patterns, pattern by pattern. *)
Definition find_functions (function_patterns : list regex) (content : string)
    : list (nat * nat) :=
  flat_map (fun pattern => finditer pattern content) function_patterns.

Definition analyze_content (complexity_keywords function_patterns : list regex)
    (content : string) : list Z :=
  List.map
    (fun func_match =>
       function_complexity complexity_keywords
         (_extract_function_content content (fst func_match)))
    (find_functions function_patterns content).

Definition _analyze_files_with_patterns (files : list source_file)
    (complexity_keywords function_patterns : list regex) : list Z :=
  flat_map
    (fun f =>
       match file_text f with
       | Some content =>
           analyze_content complexity_keywords function_patterns content
       | None => []
       end)
    files.

Definition _calculate_complexity_metrics (complexity_scores : list Z)
    (analysis_method : string) : raw_result :=
  match complexity_scores with
  | [] =>
      {| r_average_complexity := 0;
         r_maintainability_index := None;
         r_distribution := empty_distribution;
         r_total_functions := 0;
         r_complexity_min := 0;
         r_complexity_max := 0;
         r_analysis_method := analysis_method |}
  | score :: scores =>
      {| r_average_complexity :=
           (inject_Z (sum_Z complexity_scores) / inject_Z (len complexity_scores))%Q;
         r_maintainability_index := None;
         r_distribution := fold_left bump complexity_scores empty_distribution;
         r_total_functions := len complexity_scores;
         r_complexity_min := min_list score scores;
         r_complexity_max := max_list score scores;
         r_analysis_method := analysis_method |}
  end.

Definition set_maintainability (r : raw_result) (mi : Q) : raw_result :=
  {| r_average_complexity := r_average_complexity r;
     r_maintainability_index := Some mi;
     r_distribution := r_distribution r;
     r_total_functions := r_total_functions r;
     r_complexity_min := r_complexity_min r;
     r_complexity_max := r_complexity_max r;
     r_analysis_method := r_analysis_method r |}.

Definition _calculate_avg_file_size (files : list source_file) : Q :=
  let readable := omap file_text files in
  let total_lines := sum_Z (List.map (fun t => len (Py.readlines t)) readable) in
  (inject_Z total_lines / inject_Z (Z.max (len readable) 1))%Q.

(** The capped linear formula shared by the per-language calculators:
    [100 - avg_complexity * kc - max(0, avg_file_size - offset) / ks]. *)
Definition linear_maintainability (kc offset ks : Q) (files : list source_file)
    (complexity_scores : list Z) : Q :=
  match files, complexity_scores with
  | [], _ | _, [] => 0%Q
  | _, _ =>
      let avg_complexity :=
        (inject_Z (sum_Z complexity_scores) / inject_Z (len complexity_scores))%Q in
      let avg_file_size := _calculate_avg_file_size files in
      let over := (avg_file_size - offset)%Q in
      let mi :=
        (100 - avg_complexity * kc - (if Qltb 0 over then over else 0) / ks)%Q in
      Qclamp 0 100 mi
  end.

Definition _calculate_js_maintainability := linear_maintainability 3 100 20.
Definition _calculate_java_maintainability := linear_maintainability 4 150 15.
Definition _calculate_cpp_maintainability := linear_maintainability 5 120 25.
Definition _calculate_go_maintainability := linear_maintainability 6 80 30.
Definition _calculate_csharp_maintainability := linear_maintainability 4 200 12.
Definition _calculate_rust_maintainability := linear_maintainability (7 # 2) 100 25.
Definition _calculate_php_maintainability := linear_maintainability (7 # 2) 120 20.
Definition _calculate_ruby_maintainability := linear_maintainability 3 150 18.
Definition _calculate_universal_maintainability := linear_maintainability 4 100 20.

(** *** Keyword sets and signature patterns *)

(** [\?\s*:] *)
Definition ternary : regex := seqs [Chr "?"; Star ws; Chr ":"].

(** [\([^)]*\)] *)
Definition params : regex := seqs [Chr "("; Star (not_chr ")"); Chr ")"].

Definition javascript_keywords : list regex :=
  [Word "if"; Word "else"; Word "while"; Word "for";
   Word "switch"; Word "case"; Word "catch"; Word "try";
   ternary; Lit "||"; Lit "&&"; Word "do"].

Definition javascript_patterns : list regex :=
  [seqs [Lit "function"; Plus ws; Plus w; Star ws; Chr "("];
   seqs [Plus w; Star ws; Chr ":"; Star ws; Lit "function"; Star ws; Chr "("];
   seqs [Plus w; Star ws; Chr "="; Star ws; Lit "function"; Star ws; Chr "("];
   seqs [Plus w; Star ws; Chr "="; Star ws; params; Star ws; Lit "=>"];
   seqs [Lit "const"; Plus ws; Plus w; Star ws; Chr "="; Star ws; params;
         Star ws; Lit "=>"]].

Definition java_keywords : list regex :=
  [Word "if"; Word "else"; Word "while"; Word "for";
   Word "switch"; Word "case"; Word "catch"; Word "try";
   ternary; Lit "||"; Lit "&&"; Word "do"].

Definition java_method_pattern : regex :=
  seqs [Opt (Alt (Lit "public") (Alt (Lit "private") (Lit "protected")));
        Star ws; Opt (Seq (Lit "static") (Plus ws));
        Plus w; Plus ws; Plus w; Star ws; params; Star ws; Chr "{"].

Definition cpp_keywords : list regex :=
  [Word "if"; Word "else"; Word "while"; Word "for";
   Word "switch"; Word "case"; Word "catch"; Word "try";
   ternary; Lit "||"; Lit "&&"; Word "do"].

Definition cpp_function_pattern : regex :=
  seqs [Alt (seqs [Plus w; Lit "::"; Plus w]) (Plus w);
        Star ws; params; Star ws; Chr "{"].

Definition go_keywords : list regex :=
  [Word "if"; Word "else"; Word "for"; Word "switch";
   Word "case"; Word "select"; Lit "&&"; Lit "||"].

Definition go_function_pattern : regex :=
  seqs [Lit "func"; Plus ws;
        Alt (Plus w)
            (seqs [Chr "("; Plus w; Plus ws; Opt (Chr "*"); Plus w; Chr ")"]);
        Plus ws; Plus w; Star ws; params; Star ws; Chr "{"].

Definition csharp_keywords : list regex :=
  [Word "if"; Word "else"; Word "while"; Word "for"; Word "foreach";
   Word "switch"; Word "case"; Word "catch"; Word "try";
   ternary; Lit "||"; Lit "&&"; Word "do"].

Definition csharp_method_pattern : regex :=
  seqs [Opt (Alt (Lit "public") (Alt (Lit "private")
               (Alt (Lit "protected") (Lit "internal"))));
        Star ws; Opt (Seq (Lit "static") (Plus ws));
        Opt (Seq (Lit "virtual") (Plus ws));
        Opt (Seq (Lit "override") (Plus ws));
        Plus w; Plus ws; Plus w; Star ws; params; Star ws; Chr "{"].

Definition rust_keywords : list regex :=
  [Word "if"; Word "else"; Word "while"; Word "for"; Word "loop";
   Word "match"; Lit "||"; Lit "&&"; Lit "=>"].

Definition rust_function_pattern : regex :=
  seqs [Lit "fn"; Plus ws; Plus w; Star ws; params; Star ws; Chr "{"].

Definition php_keywords : list regex :=
  [Word "if"; Word "else"; Word "while"; Word "for"; Word "foreach";
   Word "switch"; Word "case"; Word "catch"; Word "try";
   ternary; Lit "||"; Lit "&&"; Word "do"].

Definition php_function_pattern : regex :=
  seqs [Opt (Alt (Lit "public") (Alt (Lit "private") (Lit "protected")));
        Star ws; Lit "function"; Plus ws; Plus w; Star ws; Chr "("].

Definition ruby_keywords : list regex :=
  [Word "if"; Word "else"; Word "elsif"; Word "while"; Word "for";
   Word "case"; Word "when"; Word "and"; Word "or"; Word "unless"].

Definition ruby_function_pattern : regex :=
  seqs [Lit "def"; Plus ws; Plus w].

(** An entry of [LANGUAGE_CONFIG]. *)
Record language_config : Type := {
  extensions : list string;
  keywords : list regex;
  function_pattern : regex
}.

Definition access : regex :=
  Opt (Alt (Lit "public") (Alt (Lit "private") (Lit "protected"))).

Definition LANGUAGE_CONFIG : gmap string language_config :=
  list_to_map
    [("Python",
      {| extensions := [".py"];
         keywords := [Word "if"; Word "elif"; Word "else"; Word "while";
                      Word "for"; Word "try"; Word "except"];
         function_pattern := seqs [Lit "def"; Plus ws; Plus w; Star ws; Chr "("] |});
     ("JavaScript",
      {| extensions := [".js"; ".jsx"];
         keywords := [Word "if"; Word "else"; Word "while"; Word "for";
                      Word "switch"; Word "case"];
         function_pattern :=
           seqs [Lit "function"; Plus ws; Plus w; Star ws; Chr "("] |});
     ("Java",
      {| extensions := [".java"];
         keywords := [Word "if"; Word "else"; Word "while"; Word "for";
                      Word "switch"];
         function_pattern :=
           seqs [access; Star ws; Plus w; Plus ws; Plus w; Star ws; Chr "("] |});
     ("C++",
      {| extensions := [".cpp"; ".c"; ".h"];
         keywords := [Word "if"; Word "else"; Word "while"; Word "for"];
         function_pattern := seqs [Plus w; Star ws; params; Star ws; Chr "{"] |});
     ("C#",
      {| extensions := [".cs"];
         keywords := [Word "if"; Word "else"; Word "while"; Word "for"];
         function_pattern :=
           seqs [access; Star ws; Plus w; Plus ws; Plus w; Star ws; Chr "("] |});
     ("Go",
      {| extensions := [".go"];
         keywords := [Word "if"; Word "else"; Word "for"];
         function_pattern := seqs [Lit "func"; Plus ws; Plus w; Star ws; Chr "("] |});
     ("Rust",
      {| extensions := [".rs"];
         keywords := [Word "if"; Word "else"; Word "match"];
         function_pattern := seqs [Lit "fn"; Plus ws; Plus w; Star ws; Chr "("] |});
     ("PHP",
      {| extensions := [".php"];
         keywords := [Word "if"; Word "else"; Word "while"];
         function_pattern :=
           seqs [Lit "function"; Plus ws; Plus w; Star ws; Chr "("] |});
     ("Ruby",
      {| extensions := [".rb"];
         keywords := [Word "if"; Word "else"; Word "case"];
         function_pattern := seqs [Lit "def"; Plus ws; Plus w] |})].

(** The fallback of [LANGUAGE_CONFIG.get]. *)
Definition generic_config : language_config :=
  {| extensions := [".txt"];
     keywords := [Word "if"; Word "else"; Word "while"; Word "for"];
     function_pattern := seqs [Plus w; Star ws; Chr "("] |}.

(** *** The analyzers *)

(** The body shared by the regex analyzers: scores, maintainability, metrics. *)
Definition regex_analysis (files : list source_file)
    (complexity_keywords function_patterns : list regex)
    (maintainability : list source_file -> list Z -> Q) (method : string)
    : raw_result :=
  let complexity_scores :=
    _analyze_files_with_patterns files complexity_keywords function_patterns in
  set_maintainability
    (_calculate_complexity_metrics complexity_scores method)
    (maintainability files complexity_scores).

Definition analyze_javascript_regex_complexity (repo : list source_file) :=
  regex_analysis (_get_files_by_extension repo [".js"; ".jsx"; ".ts"; ".tsx"])
    javascript_keywords javascript_patterns
    _calculate_js_maintainability "JavaScript regex analysis".

Definition analyze_java_regex_complexity (repo : list source_file) :=
  regex_analysis (_get_files_by_extension repo [".java"])
    java_keywords [java_method_pattern]
    _calculate_java_maintainability "Java regex analysis".

Definition analyze_cpp_regex_complexity (repo : list source_file) :=
  regex_analysis
    (_get_files_by_extension repo [".cpp"; ".c"; ".cc"; ".cxx"; ".h"; ".hpp"])
    cpp_keywords [cpp_function_pattern]
    _calculate_cpp_maintainability "C/C++ regex analysis".

Definition analyze_go_regex_complexity (repo : list source_file) :=
  regex_analysis (_get_files_by_extension repo [".go"])
    go_keywords [go_function_pattern]
    _calculate_go_maintainability "Go regex analysis".

Definition analyze_rust_regex_complexity (repo : list source_file) :=
  regex_analysis (_get_files_by_extension repo [".rs"])
    rust_keywords [rust_function_pattern]
    _calculate_rust_maintainability "Rust regex analysis".

Definition analyze_universal_complexity (repo : list source_file)
    (language : string) : raw_result :=
  let config := default generic_config (LANGUAGE_CONFIG !! language) in
  regex_analysis (_get_files_by_extension repo (extensions config))
    (keywords config) [function_pattern config]
    _calculate_universal_maintainability
    ("Universal " ++ language ++ " analysis").

Definition _parse_eslint_complexity (complexity_scores : list Z)
    : option raw_result :=
  match complexity_scores with
  | [] => None
  | _ => Some (_calculate_complexity_metrics complexity_scores
                 "ESLint complexity analysis")
  end.

Definition _try_eslint_analysis (t : tools) : option raw_result :=
  eslint_scores t ≫= _parse_eslint_complexity.

(** A language analyzer; [None] stands for an exception that reaches the
    entry point. *)
Definition analyzer : Type := tools -> list source_file -> option raw_result.

(** With radon the blocks of every readable file are bucketed one by one;
    [mi_visit] answers a number, on which the loop over its items raises, so
    no maintainability score is collected.  Without radon the fallback
    [analyze_python_regex_complexity] does not exist and the call raises. *)
Definition analyze_python_complexity : analyzer := fun t repo =>
  if radon_installed t then
    let python_files := _get_files_by_extension repo [".py"] in
    let complexity_scores :=
      flat_map
        (fun f =>
           match file_text f, file_cc f with
           | Some _, Some blocks => List.map cc_complexity blocks
           | _, _ => []
           end)
        python_files in
    let total_complexity := sum_Z complexity_scores in
    let function_count := len complexity_scores in
    Some
      {| r_average_complexity :=
           (inject_Z total_complexity / inject_Z (Z.max function_count 1))%Q;
         r_maintainability_index := Some 0%Q;
         r_distribution := fold_left bump complexity_scores empty_distribution;
         r_total_functions := function_count;
         r_complexity_min :=
           match complexity_scores with [] => 0 | x :: l => min_list x l end;
         r_complexity_max :=
           match complexity_scores with [] => 0 | x :: l => max_list x l end;
         r_analysis_method := "Radon (Python AST analysis)" |}
  else None.

Definition analyze_javascript_complexity : analyzer := fun t repo =>
  match _try_eslint_analysis t with
  | Some eslint_result => Some eslint_result
  | None => Some (analyze_javascript_regex_complexity repo)
  end.

Definition analyze_typescript_complexity : analyzer :=
  analyze_javascript_complexity.

(** PMD, cppcheck, gocyclo and clippy: the parsers of their output are not
    defined, so these tiers always answer [None] and the regex tier runs. *)
Definition analyze_java_complexity : analyzer := fun _ repo =>
  Some (analyze_java_regex_complexity repo).

Definition analyze_cpp_complexity : analyzer := fun _ repo =>
  Some (analyze_cpp_regex_complexity repo).

Definition analyze_go_complexity : analyzer := fun _ repo =>
  Some (analyze_go_regex_complexity repo).

Definition analyze_rust_complexity : analyzer := fun _ repo =>
  Some (analyze_rust_regex_complexity repo).

Definition analyze_csharp_complexity : analyzer := fun _ repo =>
  Some (regex_analysis (_get_files_by_extension repo [".cs"])
          csharp_keywords [csharp_method_pattern]
          _calculate_csharp_maintainability "C# regex analysis").

Definition analyze_php_complexity : analyzer := fun _ repo =>
  Some (regex_analysis (_get_files_by_extension repo [".php"])
          php_keywords [php_function_pattern]
          _calculate_php_maintainability "PHP regex analysis").

Definition analyze_ruby_complexity : analyzer := fun _ repo =>
  Some (regex_analysis (_get_files_by_extension repo [".rb"])
          ruby_keywords [ruby_function_pattern]
          _calculate_ruby_maintainability "Ruby regex analysis").

Definition complexity_analyzers : list (string * analyzer) :=
  [("Python", analyze_python_complexity);
   ("JavaScript", analyze_javascript_complexity);
   ("TypeScript", analyze_typescript_complexity);
   ("Java", analyze_java_complexity);
   ("C++", analyze_cpp_complexity);
   ("C", analyze_cpp_complexity);
   ("C#", analyze_csharp_complexity);
   ("Go", analyze_go_complexity);
   ("Rust", analyze_rust_complexity);
   ("PHP", analyze_php_complexity);
   ("Ruby", analyze_ruby_complexity)].

(** The raw result of the analyzer chosen for the language. *)
Definition run_analyzer (t : tools) (repo : list source_file)
    (primary_language : string) : option raw_result :=
  match (list_to_map complexity_analyzers : gmap string analyzer) !! primary_language with
  | Some analyze => analyze t repo
  | None => Some (analyze_universal_complexity repo primary_language)
  end.

Definition analyze_complexity_for_language (t : tools)
    (repo : list source_file) (primary_language : string) : result :=
  match run_analyzer t repo primary_language with
  | Some r => _standardize_result r primary_language
  | None => get_default_result primary_language
  end.

End MultiLanguageAnalyzer.

(** ** [scanner.py] *)

Module CodeScanner.

Definition mem (x : string) (l : list string) : bool :=
  existsb (String.eqb x) l.

Definition _is_comment_line (line file_path : string) : bool :=
  let ext := Py.lower (Py.splitext_ext file_path) in
  if mem ext [".py"; ".rb"; ".sh"; ".bash"; ".r"; ".pl"] then
    Py.startswith line "#"
  else if mem ext [".js"; ".ts"; ".jsx"; ".tsx"; ".java"; ".c"; ".cpp"; ".cc";
                   ".cxx"; ".h"; ".hpp"; ".cs"; ".go"; ".rs"; ".swift"; ".kt";
                   ".scala"] then
    Py.startswith line "//" || Py.startswith line "/*" || Py.startswith line "*"
  else if String.eqb ext ".php" then
    Py.startswith line "//" || Py.startswith line "#" || Py.startswith line "/*"
  else if String.eqb ext ".lua" then
    Py.startswith line "--"
  else false.

Definition _get_language_from_extension (ext : string) : string :=
  let language_map : gmap string string :=
    list_to_map
      [(".py", "Python"); (".js", "JavaScript"); (".ts", "TypeScript");
       (".java", "Java"); (".c", "C"); (".cpp", "C++"); (".cs", "C#");
       (".rb", "Ruby"); (".go", "Go"); (".rs", "Rust"); (".php", "PHP");
       (".swift", "Swift"); (".kt", "Kotlin"); (".scala", "Scala")] in
  default "Unknown" (language_map !! Py.lower ext).

(** The attributes cached on the scanner between the stages; [None] is an
    attribute that is not set. *)
Record cache : Type := {
  _cached_source_files : option (list source_file);
  _cached_total_lines : option Z;
  _cached_complex_functions : option (list (string * Z * string * Z * string));
  _cached_duplication_pct : option Q
}.

Definition no_cache : cache :=
  {| _cached_source_files := None;
     _cached_total_lines := None;
     _cached_complex_functions := None;
     _cached_duplication_pct := None |}.

(** [getattr(self, '_cached_source_files', None) or self._find_source_files(..)];
    [found] is what [_find_source_files] lists. *)
Definition source_files_of (c : cache) (found : list source_file)
    : list source_file :=
  match _cached_source_files c with
  | Some (f :: fs) => f :: fs
  | _ => found
  end.

Definition python_files_of (source_files : list source_file)
    : list source_file :=
  List.filter (fun f => Py.endswith (file_path f) ".py") source_files.

(** *** Complexity *)

(** An entry of [function_details]: name, complexity, file, line, category. *)
Definition function_detail : Type := (string * Z * string * Z * string)%type.

Definition detail_complexity (d : function_detail) : Z :=
  match d with (_, complexity, _, _, _) => complexity end.

Record complexity_state : Type := {
  all_complexities : list Z;
  function_details : list function_detail;
  simple_count : Z;
  moderate_count : Z;
  complex_count : Z
}.

Definition initial_complexity_state : complexity_state :=
  {| all_complexities := []; function_details := [];
     simple_count := 0; moderate_count := 0; complex_count := 0 |}.

(** The body of the loop over the blocks of one file. *)
Definition visit_block (path : string) (st : complexity_state)
    (item : cc_block) : complexity_state :=
  let complexity := cc_complexity item in
  let category :=
    if complexity <=? 5 then "Simple"
    else if complexity <=? 10 then "Moderate" else "Complex" in
  {| all_complexities := all_complexities st ++ [complexity];
     function_details :=
       if 10 <? complexity then
         function_details st ++
           [(cc_name item, complexity, Py.basename path, cc_lineno item, category)]
       else function_details st;
     simple_count :=
       if complexity <=? 5 then simple_count st + 1 else simple_count st;
     moderate_count :=
       if complexity <=? 5 then moderate_count st
       else if complexity <=? 10 then moderate_count st + 1
       else moderate_count st;
     complex_count :=
       if complexity <=? 5 then complex_count st
       else if complexity <=? 10 then complex_count st
       else complex_count st + 1 |}.

(** A file that cannot be read or on which radon raises is skipped. *)
Definition visit_file (st : complexity_state) (f : source_file)
    : complexity_state :=
  match file_text f, file_cc f with
  | Some _, Some complexity_data =>
      fold_left (visit_block (file_path f)) complexity_data st
  | _, _ => st
  end.

(** [sorted(.., key=complexity, reverse=True)]: stable, largest first. *)
Fixpoint insert_desc (x : function_detail) (l : list function_detail)
    : list function_detail :=
  match l with
  | [] => [x]
  | y :: l' =>
      if detail_complexity x <? detail_complexity y
      then y :: insert_desc x l' else x :: l
  end.

Definition sorted_desc (l : list function_detail) : list function_detail :=
  foldr insert_desc [] l.

Record complexity_results : Type := {
  complexity_score : Q;
  complexity_min : Z;
  complexity_max : Z;
  simple_functions : Z;
  moderate_functions : Z;
  complex_functions : Z;
  total_functions : Z;
  high_complexity_functions : list function_detail
}.

Definition zero_complexity_results : complexity_results :=
  {| complexity_score := 0; complexity_min := 0; complexity_max := 0;
     simple_functions := 0; moderate_functions := 0; complex_functions := 0;
     total_functions := 0; high_complexity_functions := [] |}.

Definition _enhanced_complexity_analysis (c : cache)
    (found : list source_file) : complexity_results :=
  let source_files := source_files_of c found in
  let python_files := python_files_of source_files in
  match python_files with
  | [] => zero_complexity_results
  | _ =>
      let st := fold_left visit_file python_files initial_complexity_state in
      match all_complexities st with
      | [] => zero_complexity_results
      | x :: rest =>
          let total_functions := len (all_complexities st) in
          let avg_complexity :=
            fdiv (sum_Z (all_complexities st)) total_functions in
          {| complexity_score := round1 avg_complexity;
             complexity_min := min_list x rest;
             complexity_max := max_list x rest;
             simple_functions := simple_count st;
             moderate_functions := moderate_count st;
             complex_functions := complex_count st;
             total_functions := total_functions;
             high_complexity_functions :=
               take 10 (sorted_desc (function_details st)) |}
      end
  end.

(** *** Lines *)

(** [total_lines] of [_enhanced_lines_analysis]: every line of every
    readable source file. *)
Definition total_lines_of (source_files : list source_file) : Z :=
  sum_Z (List.map (fun t => len (Py.readlines t)) (omap file_text source_files)).

(** *** Technical debt *)

(** [int(x)]: truncation toward zero. *)
Definition Qtrunc (q : Q) : Z := Z.quot (Qnum q) (Zpos (Qden q)).

Definition function_debt (fn : ast_func) : Z * Z :=
  ((if 50 <? fn_end_lineno fn - fn_lineno fn then 10 else 0),
   (if fn_has_docstring fn then 0 else 5)).

(** Long-function and documentation debt of the Python files. *)
Definition long_function_debt_of (python_files : list source_file) : Z :=
  sum_Z (List.map
    (fun f =>
       match file_text f, file_ast f with
       | Some _, Some fns => sum_Z (List.map (fun fn => fst (function_debt fn)) fns)
       | _, _ => 0
       end) python_files).

Definition documentation_debt_of (python_files : list source_file) : Z :=
  sum_Z (List.map
    (fun f =>
       match file_text f, file_ast f with
       | Some _, Some fns => sum_Z (List.map (fun fn => snd (function_debt fn)) fns)
       | _, _ => 0
       end) python_files).

(** The three code-smell checks on one line. *)
Definition line_quality_debt (line : string) : Z :=
  let line_stripped := Py.strip line in
  (if (120 <? String.length line_stripped)%nat then 1 else 0) +
  (if (6 <? Py.count line_stripped "    ")%nat then 2 else 0) +
  (if Py.contains "TODO" line_stripped || Py.contains "FIXME" line_stripped
   then 3 else 0).

Definition quality_debt_of (python_files : list source_file) : Z :=
  sum_Z (List.map
    (fun f =>
       match file_text f with
       | Some t => sum_Z (List.map line_quality_debt (Py.readlines t))
       | None => 0
       end) python_files).

Record debt_results : Type := {
  technical_debt_minutes : Z;
  duplication_debt_minutes : Z;
  complexity_debt_minutes : Z;
  documentation_debt_minutes : Z;
  long_function_debt_minutes : Z;
  quality_debt_minutes : Z
}.

Definition _enhanced_technical_debt_analysis (c : cache)
    (found : list source_file) : debt_results :=
  let source_files := source_files_of c found in
  let duplication_debt :=
    match _cached_duplication_pct c, _cached_total_lines c with
    | Some duplication_pct, Some total_lines =>
        Qtrunc ((duplication_pct / 100) * inject_Z total_lines * (1 # 2))
    | _, _ => 0
    end in
  let complexity_debt :=
    match _cached_complex_functions c with
    | Some complex_functions => len complex_functions * 15
    | None => 0
    end in
  let python_files := python_files_of source_files in
  let documentation_debt := documentation_debt_of python_files in
  let long_function_debt := long_function_debt_of python_files in
  let quality_debt := quality_debt_of python_files in
  {| technical_debt_minutes :=
       duplication_debt + complexity_debt + documentation_debt
       + long_function_debt + quality_debt;
     duplication_debt_minutes := duplication_debt;
     complexity_debt_minutes := complexity_debt;
     documentation_debt_minutes := documentation_debt;
     long_function_debt_minutes := long_function_debt;
     quality_debt_minutes := quality_debt |}.

(** *** Duplication *)

Section Duplication.

(** Python's [hash] on strings. *)
Variable hash : string -> Z.

(** A recorded location: file, line, content (cut at 50 characters). *)
Definition location_info : Type := (string * Z * string)%type.

Record duplication_state : Type := {
  line_locations : gmap Z (list location_info);
  total_meaningful_lines : Z;
  duplicate_lines : Z;
  file_duplicates : Z;
  file_total : Z;
  file_duplication : gmap string Q
}.

Definition initial_duplication_state : duplication_state :=
  {| line_locations := ∅; total_meaningful_lines := 0; duplicate_lines := 0;
     file_duplicates := 0; file_total := 0; file_duplication := ∅ |}.

(** The filter on a stripped line: long enough, no comment, no import. *)
Definition meaningful (stripped_line file_path : string) : bool :=
  (15 <? String.length stripped_line)%nat
  && negb (_is_comment_line stripped_line file_path)
  && negb (existsb (Py.startswith stripped_line)
             ["import "; "from "; "#"; "//"; "/*"]).

Definition snippet (stripped_line : string) : string :=
  if (50 <? String.length stripped_line)%nat
  then String.substring 0 50 stripped_line ++ "..."
  else stripped_line.

(** The body of the loop over the numbered lines of one file. *)
Definition duplication_line (path : string) (st : duplication_state)
    (numbered : Z * string) : duplication_state :=
  let '(line_num, line) := numbered in
  let stripped_line := Py.strip line in
  if meaningful stripped_line path then
    let line_hash := hash stripped_line in
    let info : location_info :=
      (Py.basename path, line_num, snippet stripped_line) in
    match line_locations st !! line_hash with
    | Some locations =>
        {| line_locations := <[line_hash := locations ++ [info]]> (line_locations st);
           total_meaningful_lines := total_meaningful_lines st + 1;
           duplicate_lines := duplicate_lines st + 1;
           file_duplicates := file_duplicates st + 1;
           file_total := file_total st + 1;
           file_duplication := file_duplication st |}
    | None =>
        {| line_locations := <[line_hash := [info]]> (line_locations st);
           total_meaningful_lines := total_meaningful_lines st + 1;
           duplicate_lines := duplicate_lines st;
           file_duplicates := file_duplicates st;
           file_total := file_total st + 1;
           file_duplication := file_duplication st |}
    end
  else st.

(** [enumerate(lines, 1)] *)
Definition enumerate1 (lines : list string) : list (Z * string) :=
  imap (fun i line => (Z.of_nat i + 1, line)) lines.

(** One file: reset the per-file counters, run the lines, record the file's
    percentage when it has a meaningful line.  An unreadable file is skipped. *)
Definition duplication_file (st : duplication_state) (f : source_file)
    : duplication_state :=
  match file_text f with
  | None => st
  | Some t =>
      let st0 :=
        {| line_locations := line_locations st;
           total_meaningful_lines := total_meaningful_lines st;
           duplicate_lines := duplicate_lines st;
           file_duplicates := 0;
           file_total := 0;
           file_duplication := file_duplication st |} in
      let st1 :=
        fold_left (duplication_line (file_path f)) (enumerate1 (Py.readlines t)) st0 in
      if 0 <? file_total st1 then
        let file_dup_pct :=
          fmul (fdiv (file_duplicates st1) (file_total st1)) 100 in
        {| line_locations := line_locations st1;
           total_meaningful_lines := total_meaningful_lines st1;
           duplicate_lines := duplicate_lines st1;
           file_duplicates := file_duplicates st1;
           file_total := file_total st1;
           file_duplication :=
             <[Py.basename (file_path f) := round1 file_dup_pct]> (file_duplication st1) |}
      else st1
  end.

Record duplication_results : Type := {
  duplication_percentage : Q;
  (* the per-file percentages behind [high_duplication_files] *)
  per_file_duplication : gmap string Q
}.

Definition duplication_run (source_files : list source_file)
    : duplication_state :=
  fold_left duplication_file source_files initial_duplication_state.

Definition _enhanced_duplication_analysis (c : cache)
    (found : list source_file) : duplication_results :=
  let source_files := source_files_of c found in
  match source_files with
  | [] => {| duplication_percentage := 0; per_file_duplication := ∅ |}
  | _ =>
      let st := duplication_run source_files in
      let duplication_pct :=
        fmul (fdiv (duplicate_lines st) (Z.max (total_meaningful_lines st) 1))
          100 in
      {| duplication_percentage := round1 duplication_pct;
         per_file_duplication := file_duplication st |}
  end.

(** *** Single-file metrics *)

Record file_metrics : Type := {
  lines_of_code : Z;
  code_lines : Z;
  comment_lines : Z;
  blank_lines : Z;
  fm_complexity_score : Q;
  fm_maintainability_index : Q;
  fm_duplication_percentage : Q;
  function_count : Z;
  comment_ratio : Q
}.

Definition is_blank (line : string) : bool :=
  String.eqb (Py.strip line) EmptyString.

Definition is_comment (path line : string) : bool :=
  negb (is_blank line) && _is_comment_line (Py.strip line) path.

Definition is_code (path line : string) : bool :=
  negb (is_blank line) && negb (_is_comment_line (Py.strip line) path).

(** The filter of the duplication check within one file. *)
Definition hashed (path line : string) : bool :=
  (15 <? String.length (Py.strip line))%nat
  && negb (_is_comment_line (Py.strip line) path).

(** The loop over the lines with the set of hashes seen so far. *)
Definition single_file_line (path : string) (st : gset Z * Z)
    (line : string) : gset Z * Z :=
  let '(line_hashes, duplicate_lines) := st in
  if hashed path line then
    let line_hash := hash (Py.strip line) in
    if bool_decide (line_hash ∈ line_hashes)
    then (line_hashes, duplicate_lines + 1)
    else ({[line_hash]} ∪ line_hashes, duplicate_lines)
  else st.

Definition single_file_duplicates (path : string) (lines : list string) : Z :=
  snd (fold_left (single_file_line path) lines (∅, 0)).

Definition _analyze_single_file (f : source_file) (content language : string)
    : file_metrics :=
  let path := file_path f in
  let lines := Py.split_lines content in
  let total_lines := len lines in
  let blank_lines := len (List.filter is_blank lines) in
  let comment_lines := len (List.filter (is_comment path) lines) in
  let code_lines := len (List.filter (is_code path) lines) in
  let '(complexity_score, maintainability_index, function_count) :=
    if String.eqb language "Python" then
      match file_cc f with
      | None => (0%Q, 100%Q, 0)
      | Some complexity_data =>
          let complexities := List.map cc_complexity complexity_data in
          let '(score, count) :=
            match complexities with
            | [] => (0%Q, 0)
            | _ => (fdiv (sum_Z complexities) (len complexities),
                    len complexities)
            end in
          (score, default 100%Q (file_mi f), count)
      end
    else (0%Q, 100%Q, 0) in
  let duplicate_lines := single_file_duplicates path lines in
  let duplication_pct :=
    fmul (fdiv duplicate_lines (Z.max code_lines 1)) 100 in
  let comment_ratio :=
    fmul (fdiv comment_lines (Z.max total_lines 1)) 100 in
  {| lines_of_code := total_lines;
     code_lines := code_lines;
     comment_lines := comment_lines;
     blank_lines := blank_lines;
     fm_complexity_score := round1 complexity_score;
     fm_maintainability_index := round1 maintainability_index;
     fm_duplication_percentage := round1 duplication_pct;
     function_count := function_count;
     comment_ratio := round1 comment_ratio |}.

End Duplication.

(** *** File priority *)

Definition _calculate_file_priority_score (metrics : file_metrics) : Z :=
  let score := 0 in
  let score :=
    if Qgtb (fm_complexity_score metrics) 15 then score + 30
    else if Qgtb (fm_complexity_score metrics) 10 then score + 20
    else if Qgtb (fm_complexity_score metrics) 5 then score + 10
    else score in
  let score :=
    if Qltb (fm_maintainability_index metrics) 30 then score + 25
    else if Qltb (fm_maintainability_index metrics) 50 then score + 15
    else if Qltb (fm_maintainability_index metrics) 70 then score + 5
    else score in
  let score :=
    if Qgtb (fm_duplication_percentage metrics) 30 then score + 20
    else if Qgtb (fm_duplication_percentage metrics) 15 then score + 10
    else if Qgtb (fm_duplication_percentage metrics) 5 then score + 5
    else score in
  let score :=
    if Qltb (comment_ratio metrics) 3 then score + 10
    else if Qltb (comment_ratio metrics) 8 then score + 5
    else score in
  let score :=
    if 500 <? lines_of_code metrics then score + 10
    else if 300 <? lines_of_code metrics then score + 5
    else score in
  Z.min 100 score.

Inductive priority_level : Type := Critical | High | Medium | Low.

Definition _get_priority_level (score : Z) : priority_level :=
  if 70 <=? score then Critical
  else if 50 <=? score then High
  else if 25 <=? score then Medium
  else Low.

(** *** Understanding score *)

(** A value of the [metrics] dictionary: a number or [None]. *)
Inductive pyval : Type :=
| PyNum (q : Q)
| PyNone.

(** [metrics.get(key, dflt)] used as a number; [None] as the answer stands
    for the [TypeError] of the first arithmetic on Python's [None]. *)
Definition get_number (metrics : gmap string pyval) (key : string) (dflt : Q)
    : option Q :=
  match metrics !! key with
  | None => Some dflt
  | Some (PyNum q) => Some q
  | Some PyNone => None
  end.

Inductive difficulty : Type := Easy | Moderate | Challenging | Difficult.

Record understanding : Type := {
  score : Z;
  level : difficulty;
  base_score : Z;
  complexity_penalty : Z;
  duplication_penalty : Z;
  maintainability_bonus : Z;
  documentation_bonus : Z;
  tech_debt_penalty : Z;
  (* [maintainability_penalty] and [documentation_penalty]; absent from the
     result of the [except] branch *)
  adjustment_penalties : option (Z * Z)
}.

Definition complexity_band (complexity : Q) : Z :=
  if Qgtb complexity 20 then 30
  else if Qgtb complexity 15 then 20
  else if Qgtb complexity 10 then 15
  else 0.

Definition maintainability_band (maintainability : Q) : Z :=
  if Qltb maintainability 30 then -25
  else if Qltb maintainability 50 then -18
  else if Qgtb maintainability 85 then 5
  else 0.

Definition duplication_band (duplication : Q) : Z :=
  if Qgtb duplication 25 then 25
  else if Qgtb duplication 15 then 18
  else if Qgtb duplication 5 then 10
  else 0.

Definition tech_debt_band (tech_debt_hours : Q) : Z :=
  if Qgtb tech_debt_hours 4 then 15
  else if Qgtb tech_debt_hours 2 then 10
  else if Qgtb tech_debt_hours 1 then 5
  else 0.

Definition documentation_band (comment_ratio : Q) : Z :=
  if Qltb comment_ratio 3 then -10
  else if Qgtb comment_ratio 15 then 3
  else if Qgtb comment_ratio 8 then 1
  else 0.

Definition level_of (final_score : Z) : difficulty :=
  if 85 <=? final_score then Easy
  else if 65 <=? final_score then Moderate
  else if 40 <=? final_score then Challenging
  else Difficult.

(** The body of the [try] block; [None] when it raises. *)
Definition understanding_body (metrics : gmap string pyval)
    : option understanding :=
  complexity ← get_number metrics "complexity_score" 0;
  maintainability ← get_number metrics "maintainability_index" 100;
  duplication ← get_number metrics "duplication_percentage" 0;
  tech_debt_minutes ← get_number metrics "technical_debt_minutes" 0;
  comment_ratio ← get_number metrics "comment_ratio" 0;
  let tech_debt_hours := (tech_debt_minutes / 60)%Q in
  let base_score := 100 in
  let complexity_penalty := complexity_band complexity in
  let maintainability_adjustment := maintainability_band maintainability in
  let duplication_penalty := duplication_band duplication in
  let tech_debt_penalty := tech_debt_band tech_debt_hours in
  let documentation_adjustment := documentation_band comment_ratio in
  let final_score :=
    base_score - complexity_penalty + maintainability_adjustment
    - duplication_penalty - tech_debt_penalty + documentation_adjustment in
  let final_score := Z.max 0 (Z.min 100 final_score) in
  Some
    {| score := final_score;
       level := level_of final_score;
       base_score := base_score;
       complexity_penalty := complexity_penalty;
       duplication_penalty := duplication_penalty;
       maintainability_bonus := Z.max 0 maintainability_adjustment;
       documentation_bonus := Z.max 0 documentation_adjustment;
       tech_debt_penalty := tech_debt_penalty;
       adjustment_penalties :=
         Some (Z.abs (Z.min 0 maintainability_adjustment),
               Z.abs (Z.min 0 documentation_adjustment)) |}.

(** The result of the [except] branch. *)
Definition understanding_error : understanding :=
  {| score := 0; level := Difficult; base_score := 100;
     complexity_penalty := 0; duplication_penalty := 0;
     maintainability_bonus := 0; documentation_bonus := 0;
     tech_debt_penalty := 0; adjustment_penalties := None |}.

Definition calculate_understanding_score (metrics : gmap string pyval)
    : understanding :=
  default understanding_error (understanding_body metrics).

(** *** The pipeline of [analyze_repository]

    From the cloned tree on: [classified] is the [source_files] entry of the
    language stage (empty when the entry is absent) and [found] what
    [_find_source_files] lists.  Each stage reads the attributes the earlier
    stages have set.  The stages whose results no later stage reads
    (maintainability, the file and function rankings) are left out. *)

Record analysis_results : Type := {
  total_lines : Z;
  complexity : complexity_results;
  duplication : duplication_results;
  debt : debt_results
}.

Definition analyze_repository (hash : string -> Z)
    (classified found : list source_file) : analysis_results :=
  let c1 :=
    {| _cached_source_files := Some classified;
       _cached_total_lines := None;
       _cached_complex_functions := None;
       _cached_duplication_pct := None |} in
  let lines_total := total_lines_of (source_files_of c1 found) in
  let c2 :=
    {| _cached_source_files := _cached_source_files c1;
       _cached_total_lines := Some lines_total;
       _cached_complex_functions := None;
       _cached_duplication_pct := None |} in
  let complexity_results := _enhanced_complexity_analysis c2 found in
  let c3 :=
    {| _cached_source_files := _cached_source_files c2;
       _cached_total_lines := _cached_total_lines c2;
       _cached_complex_functions :=
         Some (high_complexity_functions complexity_results);
       _cached_duplication_pct := None |} in
  let duplication_results := _enhanced_duplication_analysis hash c3 found in
  let c4 :=
    {| _cached_source_files := _cached_source_files c3;
       _cached_total_lines := _cached_total_lines c3;
       _cached_complex_functions := _cached_complex_functions c3;
       _cached_duplication_pct :=
         Some (duplication_percentage duplication_results) |} in
  let technical_debt_results := _enhanced_technical_debt_analysis c4 found in
  {| total_lines := lines_total;
     complexity := complexity_results;
     duplication := duplication_results;
     debt := technical_debt_results |}.

(** *** Lines of code *)

Inductive documentation_quality : Type := Excellent | Good | Fair | Poor.

Definition Qgeb (a b : Q) : bool := negb (Qltb a b).

Definition _assess_documentation_quality (comment_ratio : Q) (code_lines : Z)
    : documentation_quality :=
  if code_lines <? 100 then
    if Qgeb comment_ratio 15 then Excellent
    else if Qgeb comment_ratio 8 then Good
    else if Qgeb comment_ratio 3 then Fair
    else Poor
  else
    if Qgeb comment_ratio 20 then Excellent
    else if Qgeb comment_ratio 12 then Good
    else if Qgeb comment_ratio 6 then Fair
    else Poor.

Record line_counts : Type := {
  lc_total : Z;
  lc_code : Z;
  lc_comment : Z;
  lc_blank : Z
}.

(** The body of the loop over the lines of one file. *)
Definition count_line (path : string) (n : line_counts) (line : string)
    : line_counts :=
  let stripped_line := Py.strip line in
  if String.eqb stripped_line EmptyString then
    {| lc_total := lc_total n + 1; lc_code := lc_code n;
       lc_comment := lc_comment n; lc_blank := lc_blank n + 1 |}
  else if _is_comment_line stripped_line path then
    {| lc_total := lc_total n + 1; lc_code := lc_code n;
       lc_comment := lc_comment n + 1; lc_blank := lc_blank n |}
  else
    {| lc_total := lc_total n + 1; lc_code := lc_code n + 1;
       lc_comment := lc_comment n; lc_blank := lc_blank n |}.

(** An unreadable file is skipped. *)
Definition count_file (n : line_counts) (f : source_file) : line_counts :=
  match file_text f with
  | Some t => fold_left (count_line (file_path f)) (Py.readlines t) n
  | None => n
  end.

Record lines_results : Type := {
  la_total_lines : Z;
  la_code_lines : Z;
  la_comment_lines : Z;
  la_blank_lines : Z;
  la_comment_ratio : Q;
  la_code_percentage : Q;
  la_comment_percentage : Q;
  la_blank_percentage : Q;
  la_documentation_quality : documentation_quality
}.

Definition _enhanced_lines_analysis (c : cache) (found : list source_file)
    : lines_results :=
  let source_files := source_files_of c found in
  let n :=
    fold_left count_file source_files
      {| lc_total := 0; lc_code := 0; lc_comment := 0; lc_blank := 0 |} in
  let whole := Z.max (lc_total n) 1 in
  let comment_ratio := fmul (fdiv (lc_comment n) whole) 100 in
  let code_percentage := fmul (fdiv (lc_code n) whole) 100 in
  let comment_percentage := fmul (fdiv (lc_comment n) whole) 100 in
  let blank_percentage := fmul (fdiv (lc_blank n) whole) 100 in
  {| la_total_lines := lc_total n;
     la_code_lines := lc_code n;
     la_comment_lines := lc_comment n;
     la_blank_lines := lc_blank n;
     la_comment_ratio := round1 comment_ratio;
     la_code_percentage := round1 code_percentage;
     la_comment_percentage := round1 comment_percentage;
     la_blank_percentage := round1 blank_percentage;
     la_documentation_quality :=
       _assess_documentation_quality comment_ratio (lc_code n) |}.

(** *** Maintainability *)

(** [sorted(l, key=key)]: stable, smallest first. *)
Fixpoint insert_asc {A} (key : A -> Q) (x : A) (l : list A) : list A :=
  match l with
  | [] => [x]
  | y :: l' => if Qltb (key y) (key x) then y :: insert_asc key x l' else x :: l
  end.

Definition sorted_asc {A} (key : A -> Q) (l : list A) : list A :=
  foldr (insert_asc key) [] l.

(** [sorted(l, key=key, reverse=True)]: stable, largest first. *)
Fixpoint insert_by_desc {A} (key : A -> Q) (x : A) (l : list A) : list A :=
  match l with
  | [] => [x]
  | y :: l' => if Qltb (key x) (key y) then y :: insert_by_desc key x l' else x :: l
  end.

Definition sorted_by_desc {A} (key : A -> Q) (l : list A) : list A :=
  foldr (insert_by_desc key) [] l.

Record maintainability_results : Type := {
  mr_maintainability_index : Q;
  (* file name and rounded score; the key is absent on the early returns *)
  low_maintainability_files : option (list (string * Q))
}.

(** The scores of the Python files that can be read and measured. *)
Definition mi_scores_of (python_files : list source_file) : list (string * Q) :=
  omap (fun f =>
          match file_text f, file_mi f with
          | Some _, Some mi_data => Some (Py.basename (file_path f), mi_data)
          | _, _ => None
          end) python_files.

Definition sum_Q (l : list Q) : Q := fold_left Qplus l 0%Q.

Definition _enhanced_maintainability_analysis (c : cache)
    (found : list source_file) : maintainability_results :=
  let source_files := source_files_of c found in
  let python_files := python_files_of source_files in
  match python_files with
  | [] => {| mr_maintainability_index := 0; low_maintainability_files := None |}
  | _ =>
      let scored := mi_scores_of python_files in
      let mi_scores := List.map snd scored in
      let file_scores := List.map (fun fs => (fst fs, round1 (snd fs))) scored in
      match mi_scores with
      | [] => {| mr_maintainability_index := 0; low_maintainability_files := None |}
      | _ =>
          let avg_mi := (sum_Q mi_scores / inject_Z (len mi_scores))%Q in
          let low :=
            List.filter (fun fs => Qltb (snd fs) 50) file_scores in
          {| mr_maintainability_index := round1 avg_mi;
             low_maintainability_files := Some (take 5 (sorted_asc snd low)) |}
      end
  end.

(** *** File and function rankings *)

Record file_analysis : Type := {
  fa_file_path : string;
  fa_file_name : string;
  fa_language : string;
  fa_metrics : file_metrics;
  fa_improvement_priority : priority_level;
  fa_priority_score : Z
}.

(** The paths of the model are relative to the root, as [os.path.relpath]
    leaves them.  An unreadable file is skipped. *)
Definition analyze_file (hash : string -> Z) (f : source_file)
    : option file_analysis :=
  match file_text f with
  | None => None
  | Some content =>
      let language :=
        _get_language_from_extension (Py.splitext_ext (file_path f)) in
      let file_metrics := _analyze_single_file hash f content language in
      let priority_score := _calculate_file_priority_score file_metrics in
      Some {| fa_file_path := file_path f;
              fa_file_name := Py.basename (file_path f);
              fa_language := language;
              fa_metrics := file_metrics;
              fa_improvement_priority := _get_priority_level priority_score;
              fa_priority_score := priority_score |}
  end.

Definition _analyze_files (hash : string -> Z) (c : cache)
    (found : list source_file) : list file_analysis :=
  let source_files := source_files_of c found in
  let file_analyses := omap (analyze_file hash) source_files in
  take 20 (sorted_by_desc (fun a => inject_Z (fa_priority_score a)) file_analyses).

Record function_analysis : Type := {
  fna_file_path : string;
  function_name : string;
  line_number : Z;
  fna_complexity_score : Z;
  fna_lines_of_code : Z;
  parameter_count : Z;
  has_documentation : bool;
  complexity_category : string;
  needs_refactoring : bool
}.

(** [{item.name: item.complexity for item in complexity_data}]: a later
    block of the same name replaces an earlier one. *)
Definition complexity_map_of (complexity_data : list cc_block) : gmap string Z :=
  fold_left (fun m item => <[cc_name item := cc_complexity item]> m)
    complexity_data ∅.

Definition analyze_function (path : string) (complexity_map : gmap string Z)
    (node : ast_func) : function_analysis :=
  let func_length := fn_end_lineno node - fn_lineno node in
  let complexity := default 1 (complexity_map !! fn_name node) in
  let complexity_category :=
    if complexity <=? 5 then "Simple"
    else if complexity <=? 10 then "Moderate" else "Complex" in
  let needs_refactoring :=
    if complexity <=? 5 then false
    else if complexity <=? 10 then false else true in
  let needs_refactoring :=
    if 50 <? func_length then true else needs_refactoring in
  {| fna_file_path := path;
     function_name := fn_name node;
     line_number := fn_lineno node;
     fna_complexity_score := complexity;
     fna_lines_of_code := func_length;
     parameter_count := fn_param_count node;
     has_documentation := fn_has_docstring node;
     complexity_category := complexity_category;
     needs_refactoring := needs_refactoring |}.

(** The filter "only store functions that need attention". *)
Definition needs_attention (a : function_analysis) : bool :=
  needs_refactoring a || (8 <? fna_complexity_score a)
  || negb (has_documentation a) || (30 <? fna_lines_of_code a).

(** The functions kept from one file; a file that cannot be read, parsed or
    measured is skipped. *)
Definition functions_of_file (f : source_file) : list function_analysis :=
  match file_text f, file_ast f, file_cc f with
  | Some _, Some nodes, Some complexity_data =>
      List.filter needs_attention
        (List.map (analyze_function (file_path f)
                     (complexity_map_of complexity_data)) nodes)
  | _, _, _ => []
  end.

Definition _analyze_functions (c : cache) (found : list source_file)
    : list function_analysis :=
  let source_files := source_files_of c found in
  let python_files := python_files_of source_files in
  let function_analyses := flat_map functions_of_file python_files in
  take 50
    (sorted_by_desc (fun a => inject_Z (fna_complexity_score a))
       function_analyses).

(** *** The band helpers and the threshold table *)

Definition _calculate_complexity_penalty (avg_complexity : Q) : Z :=
  if Qgtb avg_complexity 20 then 35
  else if Qgtb avg_complexity 15 then 25
  else if Qgtb avg_complexity 10 then 15
  else if Qgtb avg_complexity 5 then 5
  else 0.

Definition _calculate_duplication_penalty (duplication_pct : Q) : Z :=
  if Qgtb duplication_pct 25 then 30
  else if Qgtb duplication_pct 20 then 25
  else if Qgtb duplication_pct 15 then 20
  else if Qgtb duplication_pct 10 then 10
  else if Qgtb duplication_pct 5 then 5
  else 0.

Definition _calculate_maintainability_bonus (maintainability_index : Q) : Z :=
  if Qgeb maintainability_index 85 then 10
  else if Qgeb maintainability_index 70 then 5
  else if Qgeb maintainability_index 50 then 0
  else if Qgeb maintainability_index 30 then -10
  else -20.

Definition _calculate_documentation_bonus (comment_ratio : Q) : Z :=
  if Qgeb comment_ratio 25 then -5
  else if Qgeb comment_ratio 15 then 8
  else if Qgeb comment_ratio 10 then 5
  else if Qgeb comment_ratio 5 then 2
  else if Qgeb comment_ratio 2 then -3
  else -8.

Definition _calculate_tech_debt_penalty (tech_debt_minutes : Q) : Z :=
  if Qgtb tech_debt_minutes 240 then 25
  else if Qgtb tech_debt_minutes 120 then 15
  else if Qgtb tech_debt_minutes 60 then 8
  else if Qgtb tech_debt_minutes 30 then 3
  else 0.

Record thresholds : Type := {
  th_simple : Z;
  th_moderate : Z;
  th_complex : Z
}.

Definition threshold_table : list (string * thresholds) :=
  [("Python", {| th_simple := 5; th_moderate := 10; th_complex := 15 |});
   ("JavaScript", {| th_simple := 6; th_moderate := 12; th_complex := 20 |});
   ("TypeScript", {| th_simple := 6; th_moderate := 12; th_complex := 20 |});
   ("Java", {| th_simple := 4; th_moderate := 8; th_complex := 12 |});
   ("C", {| th_simple := 5; th_moderate := 10; th_complex := 15 |});
   ("C++", {| th_simple := 5; th_moderate := 10; th_complex := 15 |});
   ("C#", {| th_simple := 4; th_moderate := 8; th_complex := 12 |});
   ("Go", {| th_simple := 5; th_moderate := 10; th_complex := 15 |});
   ("Rust", {| th_simple := 4; th_moderate := 8; th_complex := 12 |});
   ("PHP", {| th_simple := 6; th_moderate := 12; th_complex := 18 |});
   ("Ruby", {| th_simple := 6; th_moderate := 12; th_complex := 18 |})].

Definition _get_language_complexity_thresholds (language : string)
    : thresholds :=
  default {| th_simple := 5; th_moderate := 10; th_complex := 15 |}
    ((list_to_map threshold_table : gmap string thresholds) !! language).

(** *** The walk over the tree, the languages and the source files

    [tree] lists the regular files of the cloned tree in the order in which
    [os.walk] meets them, with paths relative to the root.  Emptying a
    directory out of [dirs] keeps the walk from everything below it. *)

Definition keeps_directory (skipped : list string) (d : string) : bool :=
  negb (Py.startswith d ".") && negb (mem d skipped).

Definition directories_of (path : string) : list string :=
  removelast (Py.split "/" path).

Definition walk (skipped : list string) (tree : list source_file)
    : list source_file :=
  List.filter
    (fun f => forallb (keeps_directory skipped) (directories_of (file_path f)))
    tree.

Definition language_map : gmap string string :=
  list_to_map
    [(".py", "Python"); (".js", "JavaScript"); (".ts", "TypeScript");
     (".jsx", "JavaScript"); (".tsx", "TypeScript"); (".java", "Java");
     (".c", "C"); (".cpp", "C++"); (".cc", "C++"); (".cxx", "C++");
     (".h", "C/C++"); (".hpp", "C++"); (".cs", "C#"); (".rb", "Ruby");
     (".go", "Go"); (".rs", "Rust"); (".php", "PHP"); (".swift", "Swift");
     (".kt", "Kotlin"); (".scala", "Scala"); (".m", "Objective-C");
     (".mm", "Objective-C++"); (".r", "R"); (".R", "R"); (".pl", "Perl");
     (".sh", "Shell"); (".bash", "Shell"); (".ps1", "PowerShell");
     (".lua", "Lua"); (".dart", "Dart"); (".vue", "Vue.js");
     (".svelte", "Svelte")].

Definition exclude_extensions : list string :=
  [".json"; ".xml"; ".yaml"; ".yml"; ".toml"; ".ini"; ".cfg"; ".html"; ".htm";
   ".css"; ".scss"; ".sass"; ".less"; ".md"; ".txt"; ".log"; ".gitignore";
   ".dockerignore"].

Definition language_skipped : list string :=
  ["node_modules"; "__pycache__"; "vendor"; "build"; "dist"; "target"; "bin";
   "obj"; "deps"; "_build"; ".git"; ".svn"].

(** A [Counter]: its keys in the order of their first insertion. *)
Fixpoint counter_add (key : string) (n : Z) (counter : list (string * Z))
    : list (string * Z) :=
  match counter with
  | [] => [(key, n)]
  | (k, v) :: rest =>
      if String.eqb k key then (k, v + n) :: rest
      else (k, v) :: counter_add key n rest
  end.

(** [counter.most_common(1)]: the first of the entries with the largest
    count. *)
Fixpoint most_common (counter : list (string * Z)) : option (string * Z) :=
  match counter with
  | [] => None
  | entry :: rest =>
      match most_common rest with
      | Some best => if snd entry <? snd best then Some best else Some entry
      | None => Some entry
      end
  end.

Record language_state : Type := {
  language_lines : list (string * Z);
  total_files : Z;
  walked_source_files : list source_file
}.

Definition initial_language_state : language_state :=
  {| language_lines := []; total_files := 0; walked_source_files := [] |}.

(** The body of the loop over the files; a file that cannot be read is
    skipped. *)
Definition language_file (st : language_state) (f : source_file)
    : language_state :=
  let ext_lower := Py.lower (Py.splitext_ext (file_path f)) in
  match language_map !! ext_lower with
  | Some language =>
      if negb (mem ext_lower exclude_extensions) then
        match file_text f with
        | Some t =>
            let lines :=
              len (List.filter (fun line => negb (is_blank line))
                     (Py.readlines t)) in
            {| language_lines := counter_add language lines (language_lines st);
               total_files := total_files st + 1;
               walked_source_files := walked_source_files st ++ [f] |}
        | None => st
        end
      else st
  | None => st
  end.

(** [language_distribution] is the dictionary handed to [json.dumps]: for
    each language its lines and its percentage.  [source_files] is [None]
    when the result has no such key. *)
Record language_results : Type := {
  primary_language : string;
  language_distribution : list (string * (Z * Q));
  files_analyzed : Z;
  source_files : option (list source_file)
}.

Definition _analyze_language_distribution (tree : list source_file)
    : language_results :=
  let st :=
    fold_left language_file (walk language_skipped tree)
      initial_language_state in
  let total_code_lines := sum_Z (List.map snd (language_lines st)) in
  if total_code_lines =? 0 then
    {| primary_language := "Unknown";
       language_distribution := [];
       files_analyzed := 0;
       source_files := None |}
  else
    {| primary_language :=
         match most_common (language_lines st) with
         | Some best => fst best
         | None => "Unknown"
         end;
       language_distribution :=
         List.map
           (fun entry =>
              (fst entry,
               (snd entry,
                round1 (fmul (fdiv (snd entry) total_code_lines) 100))))
           (language_lines st);
       files_analyzed := total_files st;
       source_files := Some (walked_source_files st) |}.

Definition source_extensions : list string :=
  [".py"; ".js"; ".ts"; ".jsx"; ".tsx"; ".java"; ".c"; ".cpp"; ".cc"; ".cxx";
   ".h"; ".hpp"; ".cs"; ".rb"; ".go"; ".rs"; ".php"; ".swift"; ".kt";
   ".scala"; ".m"; ".mm"; ".r"; ".R"; ".pl"; ".sh"; ".bash"; ".ps1"; ".lua";
   ".dart"; ".vue"; ".svelte"; ".elm"; ".clj"; ".cljs"; ".ex"; ".exs"; ".fs";
   ".fsx"; ".ml"; ".mli"; ".hs"; ".lhs"; ".pas"; ".pp"; ".inc"; ".asm"; ".s"].

Definition source_skipped : list string :=
  ["node_modules"; "__pycache__"; "vendor"; "build"; "dist"; "target"; "bin";
   "obj"; "deps"; "_build"].

Definition _find_source_files (tree : list source_file) : list source_file :=
  List.filter
    (fun f => mem (Py.lower (Py.splitext_ext (file_path f))) source_extensions)
    (walk source_skipped tree).

(** The cache as [analyze_repository] sets it after the language step:
    [language_results.get('source_files', [])]. *)
Definition language_cache (tree : list source_file) : cache :=
  {| _cached_source_files :=
       Some (default [] (source_files (_analyze_language_distribution tree)));
     _cached_total_lines := None;
     _cached_complex_functions := None;
     _cached_duplication_pct := None |}.

(** *** The address of the repository *)

(** [None]: the [ValueError]. *)
Definition _parse_github_url (github_url : string) : option (string * string) :=
  let url := Py.replace (Py.rstrip_chars github_url "/") ".git" "" in
  let parts := Py.split "/" url in
  if 2 <=? len parts then
    Some (nth (List.length parts - 2) parts EmptyString,
          nth (List.length parts - 1) parts EmptyString)
  else None.

(** *** The language analysis

    The analyzer catches what its tiers raise, so the handler of the wrapper
    is never entered. *)
Definition analyze_complexity_for_language (t : MultiLanguageAnalyzer.tools)
    (repo : list source_file) (primary_language : string)
    : MultiLanguageAnalyzer.result :=
  MultiLanguageAnalyzer.analyze_complexity_for_language t repo primary_language.

End CodeScanner.

(** ** [models/__init__.py] *)

Module Models.

Module FileAnalysis.

(** A row of [file_analyses]. *)
Record t : Type := {
  file_path : string;
  file_name : string;
  language : string;
  lines_of_code : Z;
  complexity_score : Q;
  duplication_percentage : Q;
  maintainability_index : Q;
  function_count : Z;
  comment_ratio : Q;
  improvement_priority : CodeScanner.priority_level;
  priority_score : Q
}.

Definition _generate_recommendations (self : t) : list string :=
  let recommendations := [] in
  let recommendations :=
    if Qgtb (complexity_score self) 15
    then recommendations ++
         ["Consider breaking down complex functions into smaller, more manageable pieces"]
    else recommendations in
  let recommendations :=
    if Qgtb (duplication_percentage self) 15
    then recommendations ++
         ["Refactor duplicate code blocks to improve maintainability"]
    else recommendations in
  let recommendations :=
    if Qltb (maintainability_index self) 50
    then recommendations ++
         ["Review and improve code structure and documentation"]
    else recommendations in
  let recommendations :=
    if Qltb (comment_ratio self) 5
    then recommendations ++
         ["Add more documentation and comments to improve code readability"]
    else recommendations in
  let recommendations :=
    if 500 <? lines_of_code self
    then recommendations ++
         ["Consider splitting large file into smaller, focused modules"]
    else recommendations in
  recommendations.

End FileAnalysis.

Module FunctionAnalysis.

(** A row of [function_analyses]. *)
Record t : Type := {
  function_name : string;
  line_number : Z;
  complexity_score : Q;
  lines_of_code : Z;
  parameter_count : Z;
  has_documentation : bool;
  complexity_category : string;
  needs_refactoring : bool
}.

Definition _generate_improvement_suggestions (self : t) : list string :=
  let suggestions := [] in
  let suggestions :=
    if Qgtb (complexity_score self) 15
    then suggestions ++
         ["High complexity - consider breaking into smaller functions"]
    else suggestions in
  let suggestions :=
    if 50 <? lines_of_code self
    then suggestions ++
         ["Long function - consider splitting into multiple functions"]
    else suggestions in
  let suggestions :=
    if 5 <? parameter_count self
    then suggestions ++
         ["Too many parameters - consider using object parameters or builder pattern"]
    else suggestions in
  let suggestions :=
    if negb (has_documentation self)
    then suggestions ++
         ["Add docstring to explain function purpose and parameters"]
    else suggestions in
  let suggestions :=
    if needs_refactoring self
    then suggestions ++
         ["Function identified for refactoring - review implementation"]
    else suggestions in
  suggestions.

End FunctionAnalysis.

End Models.

(** ** [app.py]: the rows that [perform_scan] stores *)

Module App.

Definition file_row (file_data : CodeScanner.file_analysis)
    : Models.FileAnalysis.t :=
  let m := CodeScanner.fa_metrics file_data in
  {| Models.FileAnalysis.file_path := CodeScanner.fa_file_path file_data;
     Models.FileAnalysis.file_name := CodeScanner.fa_file_name file_data;
     Models.FileAnalysis.language := CodeScanner.fa_language file_data;
     Models.FileAnalysis.lines_of_code := CodeScanner.lines_of_code m;
     Models.FileAnalysis.complexity_score := CodeScanner.fm_complexity_score m;
     Models.FileAnalysis.duplication_percentage :=
       CodeScanner.fm_duplication_percentage m;
     Models.FileAnalysis.maintainability_index :=
       CodeScanner.fm_maintainability_index m;
     Models.FileAnalysis.function_count := CodeScanner.function_count m;
     Models.FileAnalysis.comment_ratio := CodeScanner.comment_ratio m;
     Models.FileAnalysis.improvement_priority :=
       CodeScanner.fa_improvement_priority file_data;
     Models.FileAnalysis.priority_score :=
       inject_Z (CodeScanner.fa_priority_score file_data) |}.

Definition function_row (func_data : CodeScanner.function_analysis)
    : Models.FunctionAnalysis.t :=
  {| Models.FunctionAnalysis.function_name :=
       CodeScanner.function_name func_data;
     Models.FunctionAnalysis.line_number := CodeScanner.line_number func_data;
     Models.FunctionAnalysis.complexity_score :=
       inject_Z (CodeScanner.fna_complexity_score func_data);
     Models.FunctionAnalysis.lines_of_code :=
       CodeScanner.fna_lines_of_code func_data;
     Models.FunctionAnalysis.parameter_count :=
       CodeScanner.parameter_count func_data;
     Models.FunctionAnalysis.has_documentation :=
       CodeScanner.has_documentation func_data;
     Models.FunctionAnalysis.complexity_category :=
       CodeScanner.complexity_category func_data;
     Models.FunctionAnalysis.needs_refactoring :=
       CodeScanner.needs_refactoring func_data |}.

(** The file rows, and the function rows: a function is stored when
    [file_analysis_map] has a row for its file. *)
Definition file_rows (file_analyses : list CodeScanner.file_analysis)
    : list Models.FileAnalysis.t :=
  List.map file_row file_analyses.

Definition function_rows (file_analyses : list CodeScanner.file_analysis)
    (function_analyses : list CodeScanner.function_analysis)
    : list Models.FunctionAnalysis.t :=
  List.map function_row
    (List.filter
       (fun func_data =>
          CodeScanner.mem (CodeScanner.fna_file_path func_data)
            (List.map CodeScanner.fa_file_path file_analyses))
       function_analyses).

(** The entries of the analysis result that [perform_scan] rewrites with the
    language analysis before it stores them. *)
Record scan_metrics : Type := {
  complexity_score : Q;
  maintainability_index : Q;
  complexity_min : Z;
  complexity_max : Z;
  simple_functions : Z;
  moderate_functions : Z;
  complex_functions : Z;
  total_functions : Z
}.

(** These entries in the result of [analyze_repository]. *)
Definition analysis_metrics (c : CodeScanner.complexity_results)
    (m : CodeScanner.maintainability_results) : scan_metrics :=
  {| complexity_score := CodeScanner.complexity_score c;
     maintainability_index := CodeScanner.mr_maintainability_index m;
     complexity_min := CodeScanner.complexity_min c;
     complexity_max := CodeScanner.complexity_max c;
     simple_functions := CodeScanner.simple_functions c;
     moderate_functions := CodeScanner.moderate_functions c;
     complex_functions := CodeScanner.complex_functions c;
     total_functions := CodeScanner.total_functions c |}.

(** [analysis_result.update({...})]: the language analysis holds every key
    that is read from it, so no default is used. *)
Definition update_metrics (analysis_result : scan_metrics)
    (enhanced_complexity : MultiLanguageAnalyzer.result) : scan_metrics :=
  {| complexity_score :=
       MultiLanguageAnalyzer.average_complexity enhanced_complexity;
     maintainability_index :=
       MultiLanguageAnalyzer.maintainability_index enhanced_complexity;
     complexity_min := MultiLanguageAnalyzer.complexity_min enhanced_complexity;
     complexity_max := MultiLanguageAnalyzer.complexity_max enhanced_complexity;
     simple_functions :=
       MultiLanguageAnalyzer.simple_functions enhanced_complexity;
     moderate_functions :=
       MultiLanguageAnalyzer.moderate_functions enhanced_complexity;
     complex_functions :=
       MultiLanguageAnalyzer.complex_functions enhanced_complexity;
     total_functions :=
       MultiLanguageAnalyzer.total_functions enhanced_complexity |}.

(** The step of [perform_scan] between the analysis and the stored row;
    [temp_dir] is the tree cloned for it, [None] when cloning fails. *)
Definition enhanced_metrics (t : MultiLanguageAnalyzer.tools)
    (primary_language : string) (temp_dir : option (list source_file))
    (analysis_result : scan_metrics) : scan_metrics :=
  if negb (String.eqb primary_language "Unknown") then
    match temp_dir with
    | Some repo =>
        update_metrics analysis_result
          (CodeScanner.analyze_complexity_for_language t repo primary_language)
    | None => analysis_result
    end
  else analysis_result.

End App.

(** * Notions of the statements and sample inputs *)

Definition bucket_total (d : distribution) : Z :=
  simple d + moderate d + complex d.

Section AnalyzerNotions.
Import Re MultiLanguageAnalyzer.

(** The buckets of a raw result add up to its number of functions. *)
Definition consistent (r : raw_result) : Prop :=
  bucket_total (r_distribution r) = r_total_functions r.

(** A raw result without functions has every complexity metric at zero. *)
Definition zero_when_empty (r : raw_result) : Prop :=
  r_total_functions r = 0 ->
  r_average_complexity r = 0%Q /\ r_complexity_min r = 0 /\
  r_complexity_max r = 0 /\ r_distribution r = empty_distribution.

(** The number of matches of the keyword patterns in a body. *)
Definition keyword_occurrences (kws : list regex) (body : string) : Z :=
  sum_Z (List.map (fun k => Z.of_nat (findall_count k body)) kws).

Definition text_file (path text : string) : source_file :=
  {| file_path := path; file_text := Some text; file_cc := None;
     file_mi := None; file_ast := None |}.

Definition lf : string := String Py.newline EmptyString.

Definition sample_js : string :=
  ("function total(n) {" ++ lf ++
   "  var s = 0;" ++ lf ++
   "  for (var i = 0; i < n; i++) {" ++ lf ++
   "    if (i > 2) { s += i; }" ++ lf ++
   "  }" ++ lf ++
   "  return s;" ++ lf ++
   "}" ++ lf)%string.

End AnalyzerNotions.

Section ScannerNotions.
Import CodeScanner.

(** The invariant of the loops of [_enhanced_complexity_analysis]. *)
Definition counted (st : complexity_state) : Prop :=
  simple_count st + moderate_count st + complex_count st
  = len (all_complexities st).

(** The details kept are those of the complex blocks, one for one. *)
Definition detailed (st : complexity_state) : Prop :=
  len (function_details st) = complex_count st.

Definition sample_metrics : gmap string pyval :=
  {[ "complexity_score" := PyNum 12;
     "maintainability_index" := PyNum 45;
     "duplication_percentage" := PyNum (61 # 10);
     "technical_debt_minutes" := PyNum 150;
     "comment_ratio" := PyNum 2 ]}.

Definition worst_file : file_metrics :=
  {| lines_of_code := 501; code_lines := 501; comment_lines := 0;
     blank_lines := 0; fm_complexity_score := 16;
     fm_maintainability_index := 29; fm_duplication_percentage := 31;
     function_count := 1; comment_ratio := 0 |}.

(** A collision-free stand-in for Python's [hash]. *)
Definition ideal_hash (s : string) : Z := Zpos (encode s).

Definition block (name : string) (complexity line : Z) : cc_block :=
  {| cc_name := name; cc_complexity := complexity; cc_lineno := line |}.

Definition eol : string := String Py.newline EmptyString.

(** A function of twelve lines with ten [if] statements: complexity 11. *)
Definition branchy (name : string) : string :=
  ("def " ++ name ++ "(x):" ++ eol ++
   String.concat "" (repeat ("    if x > 0: x -= 1" ++ eol) 10) ++
   "    return x" ++ eol)%string.

Definition rule_names : list string :=
  ["r01"; "r02"; "r03"; "r04"; "r05"; "r06"; "r07"; "r08"; "r09"; "r10"; "r11"].

(** A Python file of eleven such functions, with what radon and [ast]
    answer on it. *)
Definition eleven_complex : source_file :=
  {| file_path := "pkg/rules.py";
     file_text := Some (String.concat "" (List.map branchy rule_names));
     file_cc :=
       Some (imap (fun i name => block name 11 (12 * Z.of_nat i + 1)) rule_names);
     file_mi := Some 50%Q;
     file_ast :=
       Some (imap (fun i name =>
                     {| fn_name := name; fn_lineno := 12 * Z.of_nat i + 1;
                        fn_end_lineno := 12 * Z.of_nat i + 12;
                        fn_param_count := 1; fn_has_docstring := false |})
               rule_names) |}.

(** [n] spaces of indentation. *)
Fixpoint indent (n : nat) : string :=
  match n with
  | O => EmptyString
  | S n' => String " " (indent n')
  end.

(** The number of leading spaces of a line. *)
Fixpoint leading_spaces (line : string) : nat :=
  match line with
  | String c line' => if Ascii.eqb c " " then S (leading_spaces line') else 0
  | EmptyString => 0
  end.

(** The indentation depth of a line, at four spaces a level. *)
Definition indent_depth (line : string) : nat := (leading_spaces line / 4)%nat.

(** A Python file whose last line sits seven levels deep. *)
Definition deep_text : string :=
  ("def f(a):" ++ eol ++
   indent 4 ++ "if a:" ++ eol ++
   indent 8 ++ "if a:" ++ eol ++
   indent 12 ++ "if a:" ++ eol ++
   indent 16 ++ "if a:" ++ eol ++
   indent 20 ++ "if a:" ++ eol ++
   indent 24 ++ "if a:" ++ eol ++
   indent 28 ++ "x = 1" ++ eol)%string.

Definition deep_file : source_file :=
  {| file_path := "deep.py"; file_text := Some deep_text;
     file_cc := Some [block "f" 7 1]; file_mi := Some 60%Q;
     file_ast :=
       Some [{| fn_name := "f"; fn_lineno := 1; fn_end_lineno := 8;
                fn_param_count := 1; fn_has_docstring := false |}] |}.

Section HashedLines.
Variable hash : string -> Z.

(** The significant lines of a file's lines: stripped, and kept by the
    filter of the detector. *)
Definition significant (path : string) (lines : list string) : list string :=
  List.filter (fun s => meaningful s path) (List.map Py.strip lines).

(** The hashes of the significant lines of a file, in order. *)
Definition significant_hashes (f : source_file) : list Z :=
  match file_text f with
  | Some t => List.map hash (significant (file_path f) (Py.readlines t))
  | None => []
  end.

(** The number of different values in a list of hashes. *)
Definition distinct (hs : list Z) : Z :=
  Z.of_nat (size (list_to_set hs : gset Z)).

(** The number of different hashes recorded so far. *)
Definition recorded (st : duplication_state) : Z :=
  Z.of_nat (size (dom (line_locations st))).

Definition repo_hashes (files : list source_file) : list Z :=
  flat_map significant_hashes files.

(** Every recorded per-file percentage lies in [0,100]. *)
Definition entries_in_range (st : duplication_state) : Prop :=
  map_Forall (fun (_ : string) (p : Q) => (0 <= p <= 100)%Q) (file_duplication st).

(** The hashes of the lines that the check within one file keeps. *)
Definition hashed_hashes (path : string) (lines : list string) : list Z :=
  List.map (fun line => hash (Py.strip line)) (List.filter (hashed path) lines).

End HashedLines.

(** The metrics of a file as [_analyze_files] asks for them. *)
Definition metrics_of (hash : string -> Z) (f : source_file) (content : string)
    : file_metrics :=
  _analyze_single_file hash f content
    (_get_language_from_extension (Py.splitext_ext (file_path f))).

(** Two equal significant lines and two short code lines. *)
Definition repeated_text : string :=
  ("result = compute_total(items)" ++ eol ++
   "result = compute_total(items)" ++ eol ++
   "x = 1" ++ eol ++
   "y = 2")%string.

Definition repeated_file : source_file :=
  {| file_path := "pkg/util.py"; file_text := Some repeated_text;
     file_cc := Some []; file_mi := Some 80%Q; file_ast := Some [] |}.

Definition unique_text : string :=
  ("result = compute_total(items)" ++ eol ++
   "answer = compute_total(others)" ++ eol ++
   "x = 1" ++ eol ++
   "y = 2")%string.

Definition unique_file : source_file :=
  {| file_path := "pkg/util.py"; file_text := Some unique_text;
     file_cc := Some []; file_mi := Some 80%Q; file_ast := Some [] |}.

End ScannerNotions.

(** ** Orders on the labels *)

Section FurtherNotions.
Import CodeScanner.

Definition quality_rank (q : documentation_quality) : Z :=
  match q with Poor => 0 | Fair => 1 | Good => 2 | Excellent => 3 end.

Definition priority_rank (p : priority_level) : Z :=
  match p with Low => 0 | Medium => 1 | High => 2 | Critical => 3 end.

Definition difficulty_rank (d : difficulty) : Z :=
  match d with Difficult => 0 | Challenging => 1 | Moderate => 2 | Easy => 3 end.

(** The counters split the lines seen so far. *)
Definition split_counts (n : line_counts) : Prop :=
  lc_total n = lc_code n + lc_comment n + lc_blank n /\
  0 <= lc_code n /\ 0 <= lc_comment n /\ 0 <= lc_blank n.

(** The five bands of the file priority score. *)
Definition complexity_points (m : file_metrics) : Z :=
  if Qgtb (fm_complexity_score m) 15 then 30
  else if Qgtb (fm_complexity_score m) 10 then 20
  else if Qgtb (fm_complexity_score m) 5 then 10 else 0.

Definition maintainability_points (m : file_metrics) : Z :=
  if Qltb (fm_maintainability_index m) 30 then 25
  else if Qltb (fm_maintainability_index m) 50 then 15
  else if Qltb (fm_maintainability_index m) 70 then 5 else 0.

Definition duplication_points (m : file_metrics) : Z :=
  if Qgtb (fm_duplication_percentage m) 30 then 20
  else if Qgtb (fm_duplication_percentage m) 15 then 10
  else if Qgtb (fm_duplication_percentage m) 5 then 5 else 0.

Definition documentation_points (m : file_metrics) : Z :=
  if Qltb (comment_ratio m) 3 then 10
  else if Qltb (comment_ratio m) 8 then 5 else 0.

Definition size_points (m : file_metrics) : Z :=
  if 500 <? lines_of_code m then 10
  else if 300 <? lines_of_code m then 5 else 0.

(** A file that is at least as bad on every metric. *)
Definition at_least_as_bad (m1 m2 : file_metrics) : Prop :=
  (fm_complexity_score m1 <= fm_complexity_score m2)%Q /\
  (fm_maintainability_index m2 <= fm_maintainability_index m1)%Q /\
  (fm_duplication_percentage m1 <= fm_duplication_percentage m2)%Q /\
  (comment_ratio m2 <= comment_ratio m1)%Q /\
  lines_of_code m1 <= lines_of_code m2.

Definition plain_metrics (complexity maintainability duplication comments : Q)
    (lines : Z) : file_metrics :=
  {| lines_of_code := lines; code_lines := lines; comment_lines := 0;
     blank_lines := 0; fm_complexity_score := complexity;
     fm_maintainability_index := maintainability;
     fm_duplication_percentage := duplication;
     function_count := 1; comment_ratio := comments |}.

(** The five entries that [calculate_understanding_score] reads, with the
    default each has when it is absent. *)
Definition score_defaults : list (string * Q) :=
  [("complexity_score", 0%Q); ("maintainability_index", 100%Q);
   ("duplication_percentage", 0%Q); ("technical_debt_minutes", 0%Q);
   ("comment_ratio", 0%Q)].

End FurtherNotions.

(** ** Notions for the language analyzers *)

Section FurtherAnalyzerNotions.
Import Re MultiLanguageAnalyzer.

(** The maintainability index of a raw result, when it has one, is a
    percentage. *)
Definition index_in_range (r : raw_result) : Prop :=
  match r_maintainability_index r with
  | Some q => (0 <= q <= 100)%Q
  | None => True
  end.

(** The last character of a text. *)
Fixpoint last_char (s : string) : option ascii :=
  match s with
  | EmptyString => None
  | String c EmptyString => Some c
  | String _ s' => last_char s'
  end.

(** The languages that have an analyzer of their own. *)
Definition analyzer_languages : list string :=
  List.map fst complexity_analyzers.

(** The tree without the files that [_should_ignore_file] rejects. *)
Definition without_ignored (repo : list source_file) : list source_file :=
  List.filter (fun f => negb (_should_ignore_file (file_path f))) repo.

Definition no_tools : tools :=
  {| radon_installed := false; eslint_scores := None |}.

End FurtherAnalyzerNotions.

Section LanguageNotions.
Import CodeScanner.

(** The language of a file that can be read, by its extension. *)
Definition language_of (f : source_file) : option string :=
  match file_text f with
  | Some _ => language_map !! Py.lower (Py.splitext_ext (file_path f))
  | None => None
  end.

Definition nonblank_lines (f : source_file) : Z :=
  match file_text f with
  | Some t =>
      len (List.filter (fun line => negb (is_blank line)) (Py.readlines t))
  | None => 0
  end.

Definition files_of_language (files : list source_file) (language : string)
    : list source_file :=
  List.filter (fun f => bool_decide (language_of f = Some language)) files.

(** The non-blank lines of the files of a language that the walk meets. *)
Definition lines_of_language (tree : list source_file) (language : string)
    : Z :=
  sum_Z (List.map nonblank_lines
           (files_of_language (walk language_skipped tree) language)).

(** The count a counter holds for a key; 0 for a key it does not hold. *)
Fixpoint count_of (counter : list (string * Z)) (key : string) : Z :=
  match counter with
  | [] => 0
  | (k, v) :: rest => if String.eqb k key then v else count_of rest key
  end.

(** A tree of two Python files and a header. *)
Definition mixed_tree : list source_file :=
  [text_file "app/main.py"
     ("import os" ++ lf ++ lf ++ "print(os.name)" ++ lf)%string;
   text_file "include/util.h" ("int f(void);" ++ lf)%string;
   text_file "node_modules/x/index.js"
     ("let a = 1;" ++ lf ++ "let b = 2;" ++ lf ++ "let c = 3;" ++ lf)%string;
   text_file "setup.py" ("x = 1" ++ lf)%string].

End LanguageNotions.

(** * Properties *)

(** ** The primitives on small inputs *)

Example strip_both_ends :
  Py.strip (String " " (String " " "if x:  " ++ eol)) = "if x:".
Proof. reflexivity. Qed.

Example readlines_keeps_newlines :
  Py.readlines ("a" ++ eol ++ "b" ++ eol)%string
  = [("a" ++ eol)%string; ("b" ++ eol)%string]
  /\ Py.split_lines ("a" ++ eol ++ "b" ++ eol)%string = ["a"; "b"; ""].
Proof. split; reflexivity. Qed.

Example count_does_not_overlap : Py.count "aaaaa" "aa" = 2%nat.
Proof. reflexivity. Qed.

Example splitext_lowered :
  Py.lower (Py.splitext_ext "src/.cache/Main.PY") = ".py"
  /\ Py.splitext_ext "src/.bashrc" = "".
Proof. split; reflexivity. Qed.

Example word_boundaries_and_case :
  Re.finditer (Re.Word "if") "if (x) { iffy(); IF (y) {} }"
  = [(0%nat, 2%nat); (17%nat, 19%nat)].
Proof. reflexivity. Qed.

Example java_signature :
  MultiLanguageAnalyzer.find_functions
    [MultiLanguageAnalyzer.java_method_pattern]
    "public static int f(int a) { return a; }"
  = [(0%nat, 28%nat)].
Proof. vm_compute. reflexivity. Qed.

Example braces_delimit_the_body :
  MultiLanguageAnalyzer._extract_function_content
    "int f() { if (a) { b(); } } int g() { }" 0
  = "int f() { if (a) { b(); } }".
Proof. reflexivity. Qed.

(** ** Comparisons on rationals *)

Lemma Qltb_lt (a b : Q) : Qltb a b = true <-> (a < b)%Q.
Proof.
  unfold Qltb. rewrite Qlt_alt. destruct (a ?= b)%Q; split; congruence.
Qed.

Lemma Qltb_ge (a b : Q) : Qltb a b = false <-> (b <= a)%Q.
Proof.
  rewrite <- not_true_iff_false, Qltb_lt. split.
  - apply Qnot_lt_le.
  - intros H1 H2. exact (Qlt_not_le _ _ H2 H1).
Qed.

(** Split on every rational comparison of the goal. *)
Ltac qcases :=
  unfold Qgtb in *;
  repeat match goal with
  | |- context [Qltb ?a ?b] =>
      let E := fresh "E" in
      destruct (Qltb a b) eqn:E;
      [apply Qltb_lt in E | apply Qltb_ge in E]
  end.

Ltac zcases :=
  repeat match goal with
  | |- context [?a <=? ?b] => destruct (Z.leb_spec a b)
  | |- context [?a <? ?b] => destruct (Z.ltb_spec a b)
  end.

Module ScoreFacts.
Import CodeScanner.





Lemma get_number_insert_ne (m : gmap string pyval) (k k' : string) (v : pyval) (d : Q) :
  k <> k' -> get_number (<[k := v]> m) k' d = get_number m k' d.
Proof. intros H. unfold get_number. now rewrite lookup_insert_ne. Qed.

Lemma level_of_cutoffs (s : Z) :
  (85 <= s -> level_of s = Easy) /\
  (65 <= s < 85 -> level_of s = Moderate) /\
  (40 <= s < 65 -> level_of s = Challenging) /\
  (s < 40 -> level_of s = Difficult).
Proof. unfold level_of. repeat split; intros; zcases; try reflexivity; lia. Qed.

End ScoreFacts.

Section UnderstandingScore.
Import CodeScanner ScoreFacts.

(** C3: whatever the metrics dictionary holds, the understanding score lies
    in [0,100] and the difficulty label follows the fixed cutoffs on that
    score: at least 85 Easy, at least 65 Moderate, at least 40 Challenging,
    otherwise Difficult. *)
Theorem understanding_score_range_and_level (metrics : gmap string pyval) :
  let r := calculate_understanding_score metrics in
  0 <= score r <= 100 /\
  (85 <= score r -> level r = Easy) /\
  (65 <= score r < 85 -> level r = Moderate) /\
  (40 <= score r < 65 -> level r = Challenging) /\
  (score r < 40 -> level r = Difficult).
Proof.
  unfold calculate_understanding_score, understanding_body.
  destruct (get_number metrics "complexity_score" 0) as [c|]; simpl;
    [|repeat split; intros; try reflexivity; lia].
  destruct (get_number metrics "maintainability_index" 100) as [m|]; simpl;
    [|repeat split; intros; try reflexivity; lia].
  destruct (get_number metrics "duplication_percentage" 0) as [d|]; simpl;
    [|repeat split; intros; try reflexivity; lia].
  destruct (get_number metrics "technical_debt_minutes" 0) as [t|]; simpl;
    [|repeat split; intros; try reflexivity; lia].
  destruct (get_number metrics "comment_ratio" 0) as [k|]; simpl;
    [|repeat split; intros; try reflexivity; lia].
  split; [lia|]. apply level_of_cutoffs.
Qed.

Lemma understanding_score_range_and_level_witness :
  score (calculate_understanding_score sample_metrics) = 37 /\
  level (calculate_understanding_score sample_metrics) = Difficult.
Proof.
  split; [vm_compute; reflexivity|].
  destruct (understanding_score_range_and_level sample_metrics)
    as (_ & _ & _ & _ & H).
  apply H. vm_compute. reflexivity.
Defined.




End UnderstandingScore.

Section Priority.
Import CodeScanner.

(** C8: the tier of a priority score is Critical from 70 on, High from 50
    to 69, Medium from 25 to 49 and Low below; 69 is High and 70 is
    Critical. *)
Theorem priority_level_tiers (s : Z) :
  (70 <= s -> _get_priority_level s = Critical) /\
  (50 <= s < 70 -> _get_priority_level s = High) /\
  (25 <= s < 50 -> _get_priority_level s = Medium) /\
  (s < 25 -> _get_priority_level s = Low) /\
  _get_priority_level 69 = High /\
  _get_priority_level 70 = Critical.
Proof.
  unfold _get_priority_level.
  repeat split; intros; zcases; try reflexivity; lia.
Qed.

Lemma priority_level_tiers_witness : _get_priority_level 50 = High.
Proof.
  destruct (priority_level_tiers 50) as (_ & H & _). apply H. lia.
Defined.

(** C10: the priority score of a file-metrics record lies in [0,95]: the
    five bands add at most 30+25+20+10+10, so the cap at 100 never binds;
    95 is reached. *)
Theorem file_priority_score_range :
  (forall metrics : file_metrics,
     0 <= _calculate_file_priority_score metrics <= 95) /\
  _calculate_file_priority_score worst_file = 95.
Proof.
  split; [|reflexivity].
  intros metrics. unfold _calculate_file_priority_score.
  qcases; zcases; lia.
Qed.

End Priority.

(** ** Buckets and counts *)

Lemma len_nil {A} : len (@nil A) = 0.
Proof. reflexivity. Qed.

Lemma len_cons {A} (x : A) (l : list A) : len (x :: l) = len l + 1.
Proof. unfold len. simpl. lia. Qed.

Lemma len_app {A} (l1 l2 : list A) : len (l1 ++ l2) = len l1 + len l2.
Proof. unfold len. rewrite length_app. lia. Qed.

Lemma len_nonneg {A} (l : list A) : 0 <= len l.
Proof. unfold len. lia. Qed.

Lemma len_zero {A} (l : list A) : len l = 0 -> l = [].
Proof. destruct l; [reflexivity|]. rewrite len_cons. pose proof (len_nonneg l). lia. Qed.

Lemma bump_total (d : distribution) (s : Z) :
  bucket_total (bump d s) = bucket_total d + 1.
Proof. unfold bump, bucket_total. zcases; simpl; lia. Qed.

Lemma fold_bump_total (l : list Z) (d : distribution) :
  bucket_total (fold_left bump l d) = bucket_total d + len l.
Proof.
  revert d. induction l as [|s l IH]; intros d; simpl.
  - rewrite len_nil. lia.
  - rewrite IH, bump_total, len_cons. lia.
Qed.

Module ComplexityFacts.
Import MultiLanguageAnalyzer.

Lemma metrics_consistent (scores : list Z) (method : string) :
  consistent (_calculate_complexity_metrics scores method).
Proof.
  unfold consistent. destruct scores as [|s l]; [reflexivity|].
  cbn [_calculate_complexity_metrics r_distribution r_total_functions].
  now rewrite fold_bump_total.
Qed.

Lemma regex_analysis_consistent files kws pats mi method :
  consistent (regex_analysis files kws pats mi method).
Proof. unfold regex_analysis, consistent. simpl. apply metrics_consistent. Qed.

Lemma eslint_consistent (t : tools) (r : raw_result) :
  _try_eslint_analysis t = Some r -> consistent r.
Proof.
  unfold _try_eslint_analysis, _parse_eslint_complexity.
  destruct (eslint_scores t) as [[|s l]|]; try discriminate.
  intros [= <-]. apply (metrics_consistent (s :: l)).
Qed.

(** Every entry of the dispatch table answers a consistent result. *)
Lemma analyzers_consistent (name : string) (analyze : analyzer) :
  (name, analyze) ∈ complexity_analyzers ->
  forall t repo r, analyze t repo = Some r -> consistent r.
Proof.
  unfold complexity_analyzers. intros Hin t repo r.
  repeat (apply elem_of_cons in Hin as [[= -> ->]|Hin]);
    try (now apply elem_of_nil in Hin).
  - unfold analyze_python_complexity.
    destruct (radon_installed t); [|discriminate].
    intros [= <-]. unfold consistent. simpl. now rewrite fold_bump_total.
  - unfold analyze_javascript_complexity.
    destruct (_try_eslint_analysis t) eqn:E; intros [= <-].
    + eapply eslint_consistent; eassumption.
    + apply regex_analysis_consistent.
  - unfold analyze_typescript_complexity, analyze_javascript_complexity.
    destruct (_try_eslint_analysis t) eqn:E; intros [= <-].
    + eapply eslint_consistent; eassumption.
    + apply regex_analysis_consistent.
  - intros [= <-]. apply regex_analysis_consistent.
  - intros [= <-]. apply regex_analysis_consistent.
  - intros [= <-]. apply regex_analysis_consistent.
  - intros [= <-]. apply regex_analysis_consistent.
  - intros [= <-]. apply regex_analysis_consistent.
  - intros [= <-]. apply regex_analysis_consistent.
  - intros [= <-]. apply regex_analysis_consistent.
  - intros [= <-]. apply regex_analysis_consistent.
Qed.

Lemma run_analyzer_consistent t repo language r :
  run_analyzer t repo language = Some r -> consistent r.
Proof.
  unfold run_analyzer.
  destruct (list_to_map complexity_analyzers !! language) as [analyze|] eqn:E.
  - apply elem_of_list_to_map_2 in E.
    eapply analyzers_consistent; eassumption.
  - intros [= <-]. apply regex_analysis_consistent.
Qed.

End ComplexityFacts.

Module ScannerFacts.
Import CodeScanner.

Lemma visit_block_counted path st item :
  counted st -> counted (visit_block path st item).
Proof.
  unfold counted, visit_block. intros H. simpl.
  rewrite len_app, len_cons, len_nil. zcases; lia.
Qed.

Lemma visit_file_counted st f : counted st -> counted (visit_file st f).
Proof.
  unfold visit_file. destruct (file_text f); [|auto].
  destruct (file_cc f) as [blocks|]; [|auto].
  revert st. induction blocks as [|b bs IH]; intros st H; simpl; [exact H|].
  apply IH. now apply visit_block_counted.
Qed.

Lemma visit_files_counted files st :
  counted st -> counted (fold_left visit_file files st).
Proof.
  revert st. induction files as [|f fs IH]; intros st H; simpl; [exact H|].
  apply IH. now apply visit_file_counted.
Qed.

End ScannerFacts.

Section Buckets.
Import ComplexityFacts ScannerFacts.

(** C2: the three bucket counts (simple at most 5, moderate at most 10,
    complex above 10) add up to [total_functions]: for the metrics of any
    list of scores, for the result of the language analysis through any
    tier, and for the scanner's own complexity analysis. *)
Theorem bucket_counts_sum_to_total :
  (forall (scores : list Z) (method : string),
     let r := MultiLanguageAnalyzer._calculate_complexity_metrics scores method in
     simple (MultiLanguageAnalyzer.r_distribution r)
     + moderate (MultiLanguageAnalyzer.r_distribution r)
     + complex (MultiLanguageAnalyzer.r_distribution r)
     = MultiLanguageAnalyzer.r_total_functions r) /\
  (forall t repo language,
     let r := MultiLanguageAnalyzer.analyze_complexity_for_language t repo language in
     MultiLanguageAnalyzer.simple_functions r
     + MultiLanguageAnalyzer.moderate_functions r
     + MultiLanguageAnalyzer.complex_functions r
     = MultiLanguageAnalyzer.total_functions r) /\
  (forall c found,
     let r := CodeScanner._enhanced_complexity_analysis c found in
     CodeScanner.simple_functions r + CodeScanner.moderate_functions r
     + CodeScanner.complex_functions r
     = CodeScanner.total_functions r).
Proof.
  repeat split.
  - intros scores method. apply (metrics_consistent scores method).
  - intros t repo language.
    unfold MultiLanguageAnalyzer.analyze_complexity_for_language.
    destruct (MultiLanguageAnalyzer.run_analyzer t repo language) as [r|] eqn:E;
      [|reflexivity].
    apply run_analyzer_consistent in E. exact E.
  - intros c found. unfold CodeScanner._enhanced_complexity_analysis.
    destruct (CodeScanner.python_files_of _) as [|f fs]; [reflexivity|].
    pose proof (visit_files_counted (f :: fs)
                  CodeScanner.initial_complexity_state eq_refl) as H.
    destruct (CodeScanner.all_complexities _) as [|x rest] eqn:E; [reflexivity|].
    simpl. unfold counted in H. rewrite E in H. exact H.
Qed.

End Buckets.

(** ** No function found *)

Module EmptyFacts.
Import MultiLanguageAnalyzer.

Lemma metrics_zero_when_empty (scores : list Z) (method : string) :
  zero_when_empty (_calculate_complexity_metrics scores method).
Proof.
  unfold zero_when_empty. destruct scores as [|s l].
  - intros _. repeat split.
  - cbn [_calculate_complexity_metrics r_total_functions]. intros H.
    apply len_zero in H. discriminate.
Qed.

Lemma regex_analysis_zero_when_empty files kws pats mi method :
  zero_when_empty (regex_analysis files kws pats mi method).
Proof.
  unfold regex_analysis, zero_when_empty. simpl. apply metrics_zero_when_empty.
Qed.

Lemma eslint_zero_when_empty (t : tools) (r : raw_result) :
  _try_eslint_analysis t = Some r -> zero_when_empty r.
Proof.
  unfold _try_eslint_analysis, _parse_eslint_complexity.
  destruct (eslint_scores t) as [[|s l]|]; try discriminate.
  intros [= <-]. apply (metrics_zero_when_empty (s :: l)).
Qed.

Lemma python_zero_when_empty t repo r :
  analyze_python_complexity t repo = Some r -> zero_when_empty r.
Proof.
  unfold analyze_python_complexity.
  destruct (radon_installed t); [|discriminate].
  generalize (flat_map
    (fun f : source_file =>
       match file_text f, file_cc f with
       | Some _, Some blocks => List.map cc_complexity blocks
       | _, _ => []
       end) (_get_files_by_extension repo [".py"])).
  intros scores [= <-]. unfold zero_when_empty. simpl. intros H.
  apply len_zero in H. subst scores. repeat split.
Qed.

Lemma analyzers_zero_when_empty (name : string) (analyze : analyzer) :
  (name, analyze) ∈ complexity_analyzers ->
  forall t repo r, analyze t repo = Some r -> zero_when_empty r.
Proof.
  unfold complexity_analyzers. intros Hin t repo r.
  repeat (apply elem_of_cons in Hin as [[= -> ->]|Hin]);
    try (now apply elem_of_nil in Hin);
    try (intros [= <-]; apply regex_analysis_zero_when_empty).
  - apply python_zero_when_empty.
  - unfold analyze_javascript_complexity.
    destruct (_try_eslint_analysis t) eqn:E; intros [= <-].
    + eapply eslint_zero_when_empty; eassumption.
    + apply regex_analysis_zero_when_empty.
  - unfold analyze_typescript_complexity, analyze_javascript_complexity.
    destruct (_try_eslint_analysis t) eqn:E; intros [= <-].
    + eapply eslint_zero_when_empty; eassumption.
    + apply regex_analysis_zero_when_empty.
Qed.

Lemma run_analyzer_zero_when_empty t repo language r :
  run_analyzer t repo language = Some r -> zero_when_empty r.
Proof.
  unfold run_analyzer.
  destruct (list_to_map complexity_analyzers !! language) as [analyze|] eqn:E.
  - apply elem_of_list_to_map_2 in E.
    eapply analyzers_zero_when_empty; eassumption.
  - intros [= <-]. apply regex_analysis_zero_when_empty.
Qed.

End EmptyFacts.

Section NoFunctions.
Import EmptyFacts.

(** C9: when no function is found the analysis still answers a complete
    result, with average, minimum, maximum, the three buckets and
    [total_functions] all zero: for the metrics of the empty score list, for
    the language analysis through any tier whenever it counts no function,
    and for the scanner's complexity analysis, also when no source file
    matches. *)
Theorem zero_functions_all_zero :
  (forall method,
     let r := MultiLanguageAnalyzer._calculate_complexity_metrics [] method in
     MultiLanguageAnalyzer.r_average_complexity r = 0%Q /\
     MultiLanguageAnalyzer.r_complexity_min r = 0 /\
     MultiLanguageAnalyzer.r_complexity_max r = 0 /\
     MultiLanguageAnalyzer.r_distribution r = empty_distribution /\
     MultiLanguageAnalyzer.r_total_functions r = 0) /\
  (forall t repo language,
     let r := MultiLanguageAnalyzer.analyze_complexity_for_language t repo language in
     MultiLanguageAnalyzer.total_functions r = 0 ->
     MultiLanguageAnalyzer.average_complexity r = 0%Q /\
     MultiLanguageAnalyzer.complexity_min r = 0 /\
     MultiLanguageAnalyzer.complexity_max r = 0 /\
     MultiLanguageAnalyzer.simple_functions r = 0 /\
     MultiLanguageAnalyzer.moderate_functions r = 0 /\
     MultiLanguageAnalyzer.complex_functions r = 0) /\
  (forall c found,
     let r := CodeScanner._enhanced_complexity_analysis c found in
     CodeScanner.total_functions r = 0 ->
     r = CodeScanner.zero_complexity_results) /\
  (forall c found,
     CodeScanner.python_files_of (CodeScanner.source_files_of c found) = [] ->
     CodeScanner._enhanced_complexity_analysis c found
     = CodeScanner.zero_complexity_results).
Proof.
  repeat apply conj.
  - intros method. repeat split.
  - intros t repo language.
    unfold MultiLanguageAnalyzer.analyze_complexity_for_language.
    destruct (MultiLanguageAnalyzer.run_analyzer t repo language) as [r|] eqn:E.
    + apply run_analyzer_zero_when_empty in E. simpl. intros H.
      destruct (E H) as (Ha & Hmin & Hmax & Hd). rewrite Hd.
      repeat split; assumption || reflexivity.
    + intros _. repeat split.
  - intros c found. unfold CodeScanner._enhanced_complexity_analysis.
    destruct (CodeScanner.python_files_of _) as [|f fs]; [reflexivity|].
    destruct (CodeScanner.all_complexities _) as [|x rest]; [reflexivity|].
    simpl. intros H. apply len_zero in H. discriminate.
  - intros c found H. unfold CodeScanner._enhanced_complexity_analysis.
    now rewrite H.
Qed.

Lemma zero_functions_all_zero_witness :
  let r := MultiLanguageAnalyzer.analyze_complexity_for_language
             {| MultiLanguageAnalyzer.radon_installed := false;
                MultiLanguageAnalyzer.eslint_scores := None |}
             [text_file "README.md" "no code here"] "Go" in
  MultiLanguageAnalyzer.average_complexity r = 0%Q /\
  MultiLanguageAnalyzer.complexity_min r = 0 /\
  MultiLanguageAnalyzer.complexity_max r = 0 /\
  MultiLanguageAnalyzer.simple_functions r = 0 /\
  MultiLanguageAnalyzer.moderate_functions r = 0 /\
  MultiLanguageAnalyzer.complex_functions r = 0.
Proof.
  destruct zero_functions_all_zero as (_ & H & _).
  apply H. vm_compute. reflexivity.
Defined.

End NoFunctions.

(** ** The heuristic tier *)

Lemma fold_add_acc (l : list Z) (a : Z) : fold_left Z.add l a = a + sum_Z l.
Proof.
  unfold sum_Z. revert a. induction l as [|x l IH]; intros a; simpl; [lia|].
  rewrite (IH (a + x)), (IH (0 + x)). lia.
Qed.

Lemma sum_Z_cons (x : Z) (l : list Z) : sum_Z (x :: l) = x + sum_Z l.
Proof. unfold sum_Z at 1. simpl. apply fold_add_acc. Qed.


Module HeuristicFacts.
Import Re MultiLanguageAnalyzer.

Lemma complexity_loop (kws : list regex) (body : string) (a : Z) :
  fold_left (fun complexity keyword =>
               complexity + Z.of_nat (findall_count keyword body)) kws a
  = a + keyword_occurrences kws body.
Proof.
  unfold keyword_occurrences. revert a.
  induction kws as [|k kws IH]; intros a; simpl.
  - unfold sum_Z. simpl. lia.
  - rewrite IH, sum_Z_cons. lia.
Qed.

Lemma function_complexity_formula (kws : list regex) (body : string) :
  function_complexity kws body = 1 + keyword_occurrences kws body.
Proof. apply complexity_loop. Qed.




End HeuristicFacts.

Section Heuristic.
Import Re MultiLanguageAnalyzer HeuristicFacts.



End Heuristic.

(** ** Technical debt *)

Module DebtFacts.
Import CodeScanner.

Lemma insert_desc_length x l :
  List.length (insert_desc x l) = S (List.length l).
Proof.
  induction l as [|y l IH]; simpl; [reflexivity|].
  destruct (detail_complexity x <? detail_complexity y); simpl; [|reflexivity].
  now rewrite IH.
Qed.

Lemma sorted_desc_length l : List.length (sorted_desc l) = List.length l.
Proof.
  induction l as [|x l IH]; simpl; [reflexivity|].
  now rewrite insert_desc_length, IH.
Qed.

Lemma visit_block_detailed path st item :
  detailed st -> detailed (visit_block path st item).
Proof.
  unfold detailed, visit_block. intros H. simpl.
  destruct (Z.ltb_spec 10 (cc_complexity item));
    destruct (Z.leb_spec (cc_complexity item) 5);
    destruct (Z.leb_spec (cc_complexity item) 10);
    rewrite ?len_app, ?len_cons, ?len_nil; lia.
Qed.

Lemma visit_file_detailed st f : detailed st -> detailed (visit_file st f).
Proof.
  unfold visit_file. destruct (file_text f); [|auto].
  destruct (file_cc f) as [blocks|]; [|auto].
  revert st. induction blocks as [|b bs IH]; intros st H; simpl; [exact H|].
  apply IH. now apply visit_block_detailed.
Qed.

Lemma visit_files_detailed files st :
  detailed st -> detailed (fold_left visit_file files st).
Proof.
  revert st. induction files as [|f fs IH]; intros st H; simpl; [exact H|].
  apply IH. now apply visit_file_detailed.
Qed.

(** The list handed to the debt stage holds at most ten of the complex
    functions. *)
Lemma high_complexity_functions_capped c found :
  let r := _enhanced_complexity_analysis c found in
  len (high_complexity_functions r) = Z.min 10 (complex_functions r).
Proof.
  unfold _enhanced_complexity_analysis.
  destruct (python_files_of _) as [|f fs]; [reflexivity|].
  pose proof (visit_files_detailed (f :: fs) initial_complexity_state eq_refl) as H.
  destruct (all_complexities _) as [|x rest]; [reflexivity|].
  cbn [high_complexity_functions complex_functions].
  unfold detailed in H. rewrite <- H. unfold len.
  rewrite length_take, sorted_desc_length. lia.
Qed.

(** What the pipeline charges for complexity: fifteen minutes for each of
    at most ten complex functions. *)
Lemma complexity_debt_capped hash classified found :
  let r := analyze_repository hash classified found in
  complexity_debt_minutes (debt r)
  = 15 * Z.min 10 (complex_functions (complexity r)).
Proof.
  simpl. rewrite high_complexity_functions_capped. lia.
Qed.

End DebtFacts.

Section ComplexityDebt.
Import CodeScanner.

(** C5: on a repository with eleven functions of complexity above 10 the
    analysis counts eleven complex functions, yet the complexity debt is
    150 minutes, not 11 x 15 = 165: the debt stage receives the list of
    complex functions cut to its first ten entries. *)
Theorem complexity_debt_eleven_complex_functions :
  let r := analyze_repository ideal_hash [eleven_complex] [eleven_complex] in
  complex_functions (complexity r) = 11 /\
  complexity_debt_minutes (debt r) = 150 /\
  complexity_debt_minutes (debt r) <> complex_functions (complexity r) * 15.
Proof. vm_compute. repeat split; discriminate. Qed.

End ComplexityDebt.

Module QualityFacts.
Import CodeScanner.

Lemma lstrip_indent (n : nat) (line : string) :
  Py.lstrip (indent n ++ line) = Py.lstrip line.
Proof. induction n as [|n IH]; simpl; [reflexivity|exact IH]. Qed.

Lemma strip_indent (n : nat) (line : string) :
  Py.strip (indent n ++ line) = Py.strip line.
Proof. unfold Py.strip. now rewrite lstrip_indent. Qed.

(** The checks see the stripped line only: indentation never counts. *)
Lemma line_quality_debt_indent (n : nat) (line : string) :
  line_quality_debt (indent n ++ line) = line_quality_debt line.
Proof. unfold line_quality_debt. now rewrite strip_indent. Qed.

End QualityFacts.

Section QualityDebt.
Import CodeScanner QualityFacts.

(** C6: a Python file whose last line is indented by 28 spaces, seven
    levels deep, gets no quality debt: the nesting check counts runs of four
    spaces in the line after its indentation has been stripped, so
    indentation never contributes, whatever its depth. *)
Theorem quality_debt_misses_deep_indentation :
  indent_depth (indent 28 ++ "x = 1") = 7%nat /\
  line_quality_debt (indent 28 ++ "x = 1" ++ eol) = 0 /\
  quality_debt_minutes
    (debt (analyze_repository ideal_hash [deep_file] [deep_file])) = 0 /\
  (forall n line,
     line_quality_debt (indent n ++ line) = line_quality_debt line).
Proof.
  split; [reflexivity|].
  split; [vm_compute; reflexivity|].
  split; [vm_compute; reflexivity|].
  apply line_quality_debt_indent.
Qed.

End QualityDebt.

(** ** Rounding and ratios *)

Lemma round_half_even_lower (q : Q) (a : Z) :
  (inject_Z a <= q)%Q -> a <= round_half_even q.
Proof.
  unfold Qle, round_half_even. destruct q as [n d]. simpl. intros H.
  assert (a <= n / Zpos d) by (apply Z.div_le_lower_bound; lia).
  zcases; try destruct (Z.even _); lia.
Qed.

Lemma round_half_even_upper (q : Q) (b : Z) :
  (q <= inject_Z b)%Q -> round_half_even q <= b.
Proof.
  unfold Qle, round_half_even. destruct q as [n d]. simpl. intros H.
  pose proof (Z.div_mod n (Zpos d) ltac:(lia)) as Hn.
  pose proof (Z.mod_pos_bound n (Zpos d) ltac:(lia)) as Hr.
  assert (n / Zpos d <= b) by (apply Z.div_le_upper_bound; lia).
  zcases; try destruct (Z.even _); try lia; nia.
Qed.

Lemma round1_range (q : Q) :
  (0 <= q <= 100)%Q -> (0 <= round1 q <= 100)%Q.
Proof.
  intros [H0 H1]. unfold round1.
  assert (0 <= round_half_even (q * 10)) as Hlo.
  { apply round_half_even_lower. change (inject_Z 0) with 0%Q. lra. }
  assert (round_half_even (q * 10) <= 1000) as Hhi.
  { apply round_half_even_upper. change (inject_Z 1000) with 1000%Q. lra. }
  unfold Qle. simpl. lia.
Qed.

Lemma round1_zero (q : Q) : (q == 0)%Q -> (round1 q == 0)%Q.
Proof.
  intros H. unfold round1.
  assert (round_half_even (q * 10) = 0) as ->.
  { apply Z.le_antisymm.
    - apply round_half_even_upper. change (inject_Z 0) with 0%Q. lra.
    - apply round_half_even_lower. change (inject_Z 0) with 0%Q. lra. }
  reflexivity.
Qed.

(** Rounding to a double keeps a value between 0 and an integer that is a
    double itself. *)
Lemma Qnum_nonneg (q : Q) : (0 <= q)%Q <-> 0 <= Qnum q.
Proof. unfold Qle. simpl. lia. Qed.

Lemma scale2_nonneg (q : Q) (e : Z) : (0 <= q)%Q -> (0 <= scale2 q e)%Q.
Proof.
  rewrite !Qnum_nonneg. unfold scale2. intros H.
  destruct (0 <=? e); simpl; [|exact H].
  pose proof (Z.pow_nonneg 2 e ltac:(lia)). nia.
Qed.

Lemma binary64_nonneg (q : Q) : (0 <= q)%Q -> (0 <= binary64 q)%Q.
Proof.
  intros H. unfold binary64. apply scale2_nonneg, Qnum_nonneg. simpl.
  apply round_half_even_lower. change (inject_Z 0) with 0%Q.
  now apply scale2_nonneg.
Qed.

Lemma exponent64_nonpos (q : Q) (N : Z) :
  (0 <= q)%Q -> (q <= inject_Z N)%Q -> N <= 2 ^ 52 -> exponent64 q <= 0.
Proof.
  intros H0 H1 HN. apply Qnum_nonneg in H0. unfold Qle in H1. simpl in H1.
  unfold exponent64. destruct q as [n d]. simpl in *.
  rewrite (Z.abs_eq n) by exact H0.
  assert (0 < 2 ^ 1074) as HP by (apply Z.pow_pos_nonneg; lia).
  assert (2 ^ 1126 = 2 ^ 52 * 2 ^ 1074) as HK
    by (rewrite <- Z.pow_add_r by lia; reflexivity).
  assert (0 < 2 ^ 52) as H52 by (apply Z.pow_pos_nonneg; lia).
  assert (n * 2 ^ 1074 / Z.pos d <= 2 ^ 1126) as Ht.
  { apply Z.div_le_upper_bound; [lia|]. rewrite HK.
    revert HP H52 HN H1. generalize (2 ^ 1074) (2 ^ 52). intros P K HP HK' HN H1.
    assert (n * P <= N * Z.pos d * P) by (apply Z.mul_le_mono_nonneg_r; lia).
    assert (N * (Z.pos d * P) <= K * (Z.pos d * P))
      by (apply Z.mul_le_mono_nonneg_r; [nia|exact HN]).
    lia. }
  apply Z.log2_le_mono in Ht. rewrite Z.log2_pow2 in Ht by lia. lia.
Qed.

Lemma binary64_le (q : Q) (N : Z) :
  (0 <= q)%Q -> (q <= inject_Z N)%Q -> N <= 2 ^ 52 ->
  (binary64 q <= inject_Z N)%Q.
Proof.
  intros H0 H1 HN. pose proof (exponent64_nonpos q N H0 H1 HN) as He.
  unfold binary64. generalize dependent (exponent64 q). intros e He.
  assert (0 < 2 ^ (- e)) as Hp by (apply Z.pow_pos_nonneg; lia).
  assert (round_half_even (scale2 q (- e)) <= N * 2 ^ (- e)) as Hm.
  { apply round_half_even_upper. unfold scale2.
    assert ((0 <=? - e) = true) as -> by (apply Z.leb_le; lia).
    unfold Qle in *. simpl in *. nia. }
  unfold scale2 at 1. destruct (0 <=? e) eqn:E.
  - apply Z.leb_le in E. assert (e = 0) as -> by lia.
    unfold Qle. simpl in *. lia.
  - unfold Qle. simpl. rewrite Pos.mul_1_l, Z2Pos.id by exact Hp. lia.
Qed.

Lemma binary64_zero (q : Q) : (q == 0)%Q -> (binary64 q == 0)%Q.
Proof.
  intros H. apply Qle_antisym.
  - change 0%Q with (inject_Z 0). apply binary64_le.
    + rewrite H. apply Qle_refl.
    + change (inject_Z 0) with 0%Q. rewrite H. apply Qle_refl.
    + apply Z.pow_nonneg. lia.
  - apply binary64_nonneg. rewrite H. apply Qle_refl.
Qed.

(** [part / max(whole, 1)] lies between 0 and 1 when [0 <= part <= whole]. *)
Lemma ratio_range (part whole : Z) :
  0 <= part <= whole ->
  (0 <= inject_Z part / inject_Z (Z.max whole 1) <= 1)%Q.
Proof.
  intros [H0 H1].
  assert (0 < inject_Z (Z.max whole 1))%Q as Hm.
  { change 0%Q with (inject_Z 0). rewrite <- Zlt_Qlt. lia. }
  split.
  - apply Qle_shift_div_l; [exact Hm|].
    rewrite Qmult_0_l. change 0%Q with (inject_Z 0). rewrite <- Zle_Qle. lia.
  - apply Qle_shift_div_r; [exact Hm|].
    rewrite Qmult_1_l. rewrite <- Zle_Qle. lia.
Qed.

(** [(part / max(whole, 1)) * 100], computed on doubles, is a percentage
    when [0 <= part <= whole]. *)
Lemma percentage_range (part whole : Z) :
  0 <= part <= whole ->
  (0 <= fmul (fdiv part (Z.max whole 1)) 100 <= 100)%Q.
Proof.
  intros H. destruct (ratio_range part whole H) as [Hlo Hhi].
  assert (0 <= fdiv part (Z.max whole 1))%Q as Hx0
    by (unfold fdiv; now apply binary64_nonneg).
  assert (fdiv part (Z.max whole 1) <= 1)%Q as Hx1.
  { unfold fdiv. change 1%Q with (inject_Z 1). apply binary64_le.
    - exact Hlo.
    - exact Hhi.
    - pose proof (Z.pow_pos_nonneg 2 52). lia. }
  clear Hlo Hhi. unfold fmul. split.
  - apply binary64_nonneg. lra.
  - change 100%Q with (inject_Z 100) at 2. apply binary64_le.
    + lra.
    + change (inject_Z 100) with 100%Q. lra.
    + change (100 <= 4503599627370496). lia.
Qed.

Lemma percentage_zero (whole : Z) : (fmul (fdiv 0 whole) 100 == 0)%Q.
Proof.
  unfold fmul, fdiv. apply binary64_zero.
  assert (binary64 (inject_Z 0 / inject_Z whole) == 0)%Q as ->.
  { apply binary64_zero. unfold Qdiv. change (inject_Z 0) with 0%Q.
    now rewrite Qmult_0_l. }
  reflexivity.
Qed.

(** At a decimal tie the double decides: 1, 101 and 3 parts in 2000 give
    0.1, 5.1 and 0.1, and an average of 43/20 gives 2.1. *)
Example round_of_doubles :
  round1 (fmul (fdiv 1 2000) 100) = (1 # 10)%Q
  /\ round1 (fmul (fdiv 101 2000) 100) = (51 # 10)%Q
  /\ round1 (fmul (fdiv 3 2000) 100) = (1 # 10)%Q
  /\ round1 (fdiv 43 20) = (21 # 10)%Q
  /\ round1 (fmul (fdiv 1 4) 100) = (250 # 10)%Q.
Proof. vm_compute. repeat split. Qed.

(** ** Duplication *)

Local Set Warnings "-clear-no-such-hyp".

Module DuplicationFacts.
Import CodeScanner.

Section WithHash.
Variable hash : string -> Z.

Lemma recorded_insert_old (m : gmap Z (list location_info)) h v locs :
  m !! h = Some locs -> dom (<[h := v]> m) = dom m.
Proof.
  intros H. rewrite dom_insert_L.
  assert (h ∈ dom m) by (apply elem_of_dom; eauto). set_solver.
Qed.

Lemma size_insert_new (m : gmap Z (list location_info)) h v :
  m !! h = None ->
  Z.of_nat (size (dom (<[h := v]> m))) = Z.of_nat (size (dom m)) + 1.
Proof.
  intros H. rewrite dom_insert_L.
  assert (h ∉ dom m) by (now apply not_elem_of_dom).
  rewrite size_union by set_solver. rewrite size_singleton. lia.
Qed.

(** One line of the loop. *)
Lemma duplication_line_step path st i line :
  let st' := duplication_line hash path st (i, line) in
  let hs := List.map hash (significant path [line]) in
  dom (line_locations st') = dom (line_locations st) ∪ list_to_set hs /\
  total_meaningful_lines st' = total_meaningful_lines st + len hs /\
  file_total st' = file_total st + len hs /\
  duplicate_lines st' - duplicate_lines st = len hs - (recorded st' - recorded st) /\
  file_duplicates st' - file_duplicates st = len hs - (recorded st' - recorded st) /\
  file_duplication st' = file_duplication st.
Proof.
  unfold duplication_line, significant, recorded. simpl.
  destruct (meaningful (Py.strip line) path); simpl.
  - destruct (line_locations st !! hash (Py.strip line)) as [locs|] eqn:E; simpl.
    + rewrite (recorded_insert_old _ _ _ _ E).
      assert (hash (Py.strip line) ∈ dom (line_locations st))
        by (apply elem_of_dom; eauto).
      rewrite len_cons, len_nil. repeat split; try lia. set_solver.
    + rewrite (size_insert_new _ _ _ E), dom_insert_L.
      rewrite len_cons, len_nil. repeat split; try lia. set_solver.
  - rewrite len_nil. repeat split; try lia. set_solver.
Qed.

Lemma significant_cons path line lines :
  significant path (line :: lines)
  = significant path [line] ++ significant path lines.
Proof.
  unfold significant. simpl.
  now destruct (meaningful (Py.strip line) path).
Qed.

(** The loop over the lines of one file. *)
Lemma duplication_lines_fold path (numbered : list (Z * string)) st :
  let st' := fold_left (duplication_line hash path) numbered st in
  let hs := List.map hash (significant path (List.map snd numbered)) in
  dom (line_locations st') = dom (line_locations st) ∪ list_to_set hs /\
  total_meaningful_lines st' = total_meaningful_lines st + len hs /\
  file_total st' = file_total st + len hs /\
  duplicate_lines st' - duplicate_lines st = len hs - (recorded st' - recorded st) /\
  file_duplicates st' - file_duplicates st = len hs - (recorded st' - recorded st) /\
  file_duplication st' = file_duplication st.
Proof.
  revert st. induction numbered as [|[i line] rest IH]; intros st.
  - simpl. rewrite len_nil. repeat split; try lia. set_solver.
  - cbn [fold_left List.map snd].
    destruct (duplication_line_step path st i line)
      as (Hd & Ht & Hf & Hdup & Hfd & Hm).
    destruct (IH (duplication_line hash path st (i, line)))
      as (Hd' & Ht' & Hf' & Hdup' & Hfd' & Hm').
    rewrite significant_cons, map_app, len_app, list_to_set_app_L.
    repeat split; try lia; try congruence.
    rewrite Hd', Hd. set_solver.
Qed.

Lemma snd_imap {A B} (f : nat -> A -> B * A) (l : list A) :
  (forall i x, snd (f i x) = x) -> List.map snd (imap f l) = l.
Proof.
  revert f. induction l as [|x l IH]; intros f H; [reflexivity|].
  rewrite imap_cons. simpl. rewrite H. f_equal. apply IH.
  intros i y. apply H.
Qed.

Lemma snd_enumerate1 (lines : list string) :
  List.map snd (enumerate1 lines) = lines.
Proof. unfold enumerate1. now apply snd_imap. Qed.

(** New hashes are at most as many as the lines that bring them. *)
Lemma size_union_list (D : gset Z) (hs : list Z) :
  (size D <= size (D ∪ list_to_set hs) <= size D + List.length hs)%nat.
Proof.
  split; [apply subseteq_size; set_solver|].
  induction hs as [|h hs IH]; simpl.
  - replace (D ∪ ∅) with D by set_solver. lia.
  - replace (D ∪ ({[h]} ∪ list_to_set hs))
      with ({[h]} ∪ (D ∪ list_to_set hs)) by set_solver.
    rewrite size_union_alt, size_singleton.
    assert (size ((D ∪ list_to_set hs) ∖ {[h]}) <= size (D ∪ list_to_set hs))%nat
      by (apply subseteq_size; set_solver).
    lia.
Qed.

Lemma distinct_range (hs : list Z) : 0 <= distinct hs <= len hs.
Proof.
  unfold distinct, len.
  pose proof (size_union_list ∅ hs) as H.
  replace (∅ ∪ list_to_set hs) with (list_to_set hs : gset Z) in H by set_solver.
  rewrite size_empty in H. lia.
Qed.

Lemma distinct_NoDup (hs : list Z) : NoDup hs -> distinct hs = len hs.
Proof. intros H. unfold distinct, len. now rewrite size_list_to_set. Qed.

(** What one file adds to the counters, and the percentage it records:
    its significant lines less the hashes first seen in it. *)
Lemma duplication_file_step st f :
  let st' := duplication_file hash st f in
  let hs := significant_hashes hash f in
  let fresh := recorded st' - recorded st in
  dom (line_locations st') = dom (line_locations st) ∪ list_to_set hs /\
  total_meaningful_lines st' = total_meaningful_lines st + len hs /\
  duplicate_lines st' - duplicate_lines st = len hs - fresh /\
  0 <= fresh <= len hs /\
  (hs = [] -> file_duplication st' = file_duplication st) /\
  (hs <> [] ->
   file_duplication st'
   = <[Py.basename (file_path f) :=
         round1 (fmul (fdiv (len hs - fresh) (len hs)) 100)]>
       (file_duplication st)).
Proof.
  unfold duplication_file, significant_hashes.
  destruct (file_text f) as [t|].
  2:{ simpl. rewrite len_nil. repeat split; try lia; try congruence. set_solver. }
  set (st0 := {| line_locations := line_locations st;
                 total_meaningful_lines := total_meaningful_lines st;
                 duplicate_lines := duplicate_lines st;
                 file_duplicates := 0; file_total := 0;
                 file_duplication := file_duplication st |}).
  destruct (duplication_lines_fold (file_path f) (enumerate1 (Py.readlines t)) st0)
    as (Hd & Ht & Hf & Hdup & Hfd & Hm).
  rewrite snd_enumerate1 in *.
  set (hs := List.map hash (significant (file_path f) (Py.readlines t))) in *.
  set (st1 := fold_left (duplication_line hash (file_path f))
                (enumerate1 (Py.readlines t)) st0) in *.
  assert (recorded st0 = recorded st) as Hr0 by reflexivity.
  assert (0 <= recorded st1 - recorded st <= len hs) as Hfresh.
  { unfold recorded. rewrite Hd. cbn [line_locations st0].
    pose proof (size_union_list (dom (line_locations st)) hs). unfold len. lia. }
  cbn [file_total file_duplicates st0] in Hf, Hfd.
  cbn [total_meaningful_lines duplicate_lines file_duplication line_locations st0]
    in Hd, Ht, Hdup, Hm.
  assert (len hs = 0 <-> hs = []) as Hnil.
  { split; [apply len_zero|intros ->; reflexivity]. }
  destruct (Z.ltb_spec 0 (file_total st1)) as [Hpos|Hpos].
  - assert (recorded {| line_locations := line_locations st1;
                total_meaningful_lines := total_meaningful_lines st1;
                duplicate_lines := duplicate_lines st1;
                file_duplicates := file_duplicates st1;
                file_total := file_total st1;
                file_duplication :=
                  <[Py.basename (file_path f) :=
                      round1 (fmul (fdiv (file_duplicates st1)
                                      (file_total st1)) 100)]>
                    (file_duplication st1) |} = recorded st1) as -> by reflexivity.
    cbn [line_locations total_meaningful_lines duplicate_lines file_duplication].
    rewrite Hr0 in *.
    repeat split; try lia; try assumption.
    + intros E. apply Hnil in E. lia.
    + intros _. rewrite Hm.
      replace (file_duplicates st1)
        with (len hs - (recorded st1 - recorded st)) by lia.
      replace (file_total st1) with (len hs) by lia.
      reflexivity.
  - rewrite Hr0 in *.
    repeat split; try lia; try assumption.
    + intros _. exact Hm.
    + intros E. exfalso. apply E, Hnil. lia.
Qed.

Lemma duplication_file_entries st f :
  entries_in_range st -> entries_in_range (duplication_file hash st f).
Proof.
  intros H. destruct (duplication_file_step st f) as (_ & _ & _ & Hf & Hnil & Hcons).
  unfold entries_in_range.
  destruct (significant_hashes hash f) as [|h hs] eqn:E.
  - rewrite Hnil by reflexivity. exact H.
  - rewrite Hcons by discriminate. apply map_Forall_insert_2; [|exact H].
    apply round1_range.
    set (fresh := recorded (duplication_file hash st f) - recorded st) in *.
    pose proof (percentage_range (len (h :: hs) - fresh) (len (h :: hs))
                  ltac:(lia)) as Hp.
    rewrite Z.max_l in Hp by (rewrite len_cons; pose proof (len_nonneg hs); lia).
    exact Hp.
Qed.

(** The whole run over the source files. *)
Lemma duplication_files_fold files st :
  let st' := fold_left (duplication_file hash) files st in
  let hs := repo_hashes hash files in
  dom (line_locations st') = dom (line_locations st) ∪ list_to_set hs /\
  total_meaningful_lines st' = total_meaningful_lines st + len hs /\
  duplicate_lines st' - duplicate_lines st
  = len hs - (recorded st' - recorded st) /\
  (entries_in_range st -> entries_in_range st').
Proof.
  revert st. induction files as [|f files IH]; intros st.
  - simpl. rewrite len_nil.
    split; [set_solver|]. split; [lia|]. split; [lia|auto].
  - cbn [fold_left repo_hashes flat_map].
    destruct (duplication_file_step st f) as (Hd & Ht & Hdup & _ & _ & _).
    destruct (IH (duplication_file hash st f)) as (Hd' & Ht' & Hdup' & He').
    fold (repo_hashes hash files).
    rewrite len_app, list_to_set_app_L.
    split; [rewrite Hd', Hd; set_solver|]. split; [lia|]. split; [lia|].
    intros H. apply He'. now apply duplication_file_entries.
Qed.

(** The counters at the end of the run. *)
Lemma duplication_run_counts files :
  let st := duplication_run hash files in
  let hs := repo_hashes hash files in
  total_meaningful_lines st = len hs /\
  duplicate_lines st = len hs - distinct hs /\
  entries_in_range st.
Proof.
  destruct (duplication_files_fold files initial_duplication_state)
    as (Hd & Ht & Hdup & He).
  unfold duplication_run. cbn [initial_duplication_state total_meaningful_lines
    duplicate_lines line_locations] in *.
  split; [lia|]. split.
  - unfold recorded in Hdup. rewrite Hd in Hdup.
    change (line_locations initial_duplication_state) with
      (∅ : gmap Z (list location_info)) in Hdup.
    rewrite dom_empty_L in Hdup.
    replace (∅ ∪ list_to_set (repo_hashes hash files))
      with (list_to_set (repo_hashes hash files) : gset Z) in Hdup by set_solver.
    rewrite size_empty in Hdup. unfold distinct. lia.
  - apply He. unfold entries_in_range. cbn. apply map_Forall_empty.
Qed.

Lemma single_file_line_eq path (seen : gset Z) (d : Z) line :
  single_file_line hash path (seen, d) line
  = if hashed path line then
      if bool_decide (hash (Py.strip line) ∈ seen) then (seen, d + 1)
      else ({[hash (Py.strip line)]} ∪ seen, d)
    else (seen, d).
Proof. reflexivity. Qed.

Lemma single_file_fold path lines (seen : gset Z) (d : Z) :
  let st' := fold_left (single_file_line hash path) lines (seen, d) in
  let hs := hashed_hashes hash path lines in
  fst st' = seen ∪ list_to_set hs /\
  snd st' - d = len hs - (Z.of_nat (size (fst st')) - Z.of_nat (size seen)).
Proof.
  revert seen d. induction lines as [|line lines IH]; intros seen d.
  - split; simpl; [set_solver|unfold len; simpl; lia].
  - cbn [fold_left]. rewrite single_file_line_eq.
    unfold hashed_hashes. cbn [List.filter].
    destruct (hashed path line); cbn [List.map].
    + fold (hashed_hashes hash path lines).
      destruct (bool_decide_reflect (hash (Py.strip line) ∈ seen)) as [Hin|Hout].
      * destruct (IH seen (d + 1)) as [Hs Hd]. rewrite len_cons.
        split; [rewrite Hs; set_solver|lia].
      * destruct (IH ({[hash (Py.strip line)]} ∪ seen) d) as [Hs Hd].
        rewrite len_cons.
        rewrite size_union, size_singleton in Hd by set_solver.
        split; [rewrite Hs; set_solver|lia].
    + fold (hashed_hashes hash path lines). apply IH.
Qed.

Lemma single_file_duplicates_count path lines :
  single_file_duplicates hash path lines
  = len (hashed_hashes hash path lines) - distinct (hashed_hashes hash path lines).
Proof.
  unfold single_file_duplicates.
  destruct (single_file_fold path lines ∅ 0) as [Hs Hd].
  rewrite Hs in Hd. rewrite size_empty in Hd.
  replace (∅ ∪ list_to_set (hashed_hashes hash path lines))
    with (list_to_set (hashed_hashes hash path lines) : gset Z) in Hd by set_solver.
  unfold distinct. lia.
Qed.

Lemma hashed_is_code path line :
  hashed path line = true -> is_code path line = true.
Proof.
  unfold hashed, is_code, is_blank. intros H.
  apply andb_true_iff in H as [Hlen Hc]. rewrite Hc, andb_true_r.
  destruct (Py.strip line); [discriminate|reflexivity].
Qed.

Lemma filter_length_le {A} (p q : A -> bool) (l : list A) :
  (forall x, p x = true -> q x = true) ->
  len (List.filter p l) <= len (List.filter q l).
Proof.
  intros H. induction l as [|x l IH]; simpl; [lia|].
  destruct (p x) eqn:E.
  - rewrite (H x E), !len_cons. lia.
  - destruct (q x); rewrite ?len_cons; lia.
Qed.

Lemma hashed_within_code path lines :
  len (hashed_hashes hash path lines) <= len (List.filter (is_code path) lines).
Proof.
  unfold hashed_hashes, len at 1. rewrite length_map.
  apply (filter_length_le (hashed path) (is_code path)).
  apply hashed_is_code.
Qed.

End WithHash.
End DuplicationFacts.

Section DuplicationPercentage.
Import CodeScanner DuplicationFacts.

(** C7, as the code has it: repo-wide the percentage is the duplicate lines
    (significant lines less their distinct hashes) over the significant
    lines, times 100, rounded to one decimal; per file the detector records
    the same ratio, the duplicates of a file being its significant lines
    less the hashes first seen in it; the file analysis divides the
    duplicates of the file by its code lines instead.  The quotient and its
    product with 100 are doubles, and [round] works on the double: one
    duplicate among 2000 lines is reported as 0.1.  All of them lie in
    [0,100], and lines with pairwise distinct hashes give 0. *)
Theorem duplication_percentage_formula (hash : string -> Z) :
  (forall c found,
     let hs := repo_hashes hash (source_files_of c found) in
     let duplicate := len hs - distinct hs in
     let pct :=
       duplication_percentage (_enhanced_duplication_analysis hash c found) in
     0 <= duplicate <= len hs /\
     (pct == round1 (fmul (fdiv duplicate (Z.max (len hs) 1)) 100))%Q /\
     (0 <= pct <= 100)%Q /\
     (NoDup hs -> (pct == 0)%Q)) /\
  (forall st f,
     let hs := significant_hashes hash f in
     let st' := duplication_file hash st f in
     let fresh := recorded st' - recorded st in
     hs <> [] ->
     0 <= len hs - fresh <= len hs /\
     file_duplication st' !! Py.basename (file_path f)
     = Some (round1 (fmul (fdiv (len hs - fresh) (len hs)) 100))) /\
  (forall c found name pct,
     per_file_duplication (_enhanced_duplication_analysis hash c found) !! name
     = Some pct ->
     (0 <= pct <= 100)%Q) /\
  (forall f content language,
     let m := _analyze_single_file hash f content language in
     let hs := hashed_hashes hash (file_path f) (Py.split_lines content) in
     let duplicate := len hs - distinct hs in
     0 <= duplicate <= len hs /\
     len hs <= code_lines m /\
     fm_duplication_percentage m
     = round1 (fmul (fdiv duplicate (Z.max (code_lines m) 1)) 100) /\
     (0 <= fm_duplication_percentage m <= 100)%Q /\
     (NoDup hs -> (fm_duplication_percentage m == 0)%Q)).
Proof.
  split; [|split; [|split]].
  - intros c found hs duplicate pct.
    pose proof (distinct_range hs) as Hr.
    assert (pct == round1 (fmul (fdiv duplicate (Z.max (len hs) 1)) 100))%Q
      as Hpct.
    { subst pct duplicate hs. unfold _enhanced_duplication_analysis.
      destruct (source_files_of c found) as [|f fs] eqn:E.
      - symmetry. apply round1_zero. apply percentage_zero.
      - cbn [duplication_percentage].
        destruct (duplication_run_counts hash (f :: fs)) as (Ht & Hd & _).
        rewrite Ht, Hd. reflexivity. }
    split; [subst duplicate; lia|]. split; [exact Hpct|]. split.
    + rewrite Hpct. apply round1_range, percentage_range. subst duplicate. lia.
    + intros Hnd. rewrite Hpct. apply round1_zero.
      subst duplicate. rewrite (distinct_NoDup hs Hnd), Z.sub_diag.
      apply percentage_zero.
  - intros st f hs st' fresh Hne.
    destruct (duplication_file_step hash st f) as (_ & _ & _ & Hf & _ & Hcons).
    fold hs st' fresh in Hf, Hcons. split; [lia|].
    rewrite (Hcons Hne). apply lookup_insert_eq.
  - intros c found name pct. unfold _enhanced_duplication_analysis.
    destruct (source_files_of c found) as [|f fs].
    + cbn [per_file_duplication]. rewrite lookup_empty. discriminate.
    + cbn [per_file_duplication].
      destruct (duplication_run_counts hash (f :: fs)) as (_ & _ & He).
      intros H. exact (He name pct H).
  - intros f content language m hs duplicate.
    pose proof (distinct_range hs) as Hr.
    pose proof (hashed_within_code hash (file_path f) (Py.split_lines content))
      as Hcode. fold hs in Hcode.
    assert (code_lines m = len (List.filter (is_code (file_path f))
                                  (Py.split_lines content))) as Hc.
    { subst m. unfold _analyze_single_file.
      destruct (if String.eqb language "Python" then _ else _) as [[? ?] ?].
      reflexivity. }
    assert (fm_duplication_percentage m
            = round1 (fmul (fdiv duplicate (Z.max (code_lines m) 1))
                        100)) as Hpct.
    { rewrite Hc. subst m duplicate hs. unfold _analyze_single_file.
      destruct (if String.eqb language "Python" then _ else _) as [[? ?] ?].
      cbn [fm_duplication_percentage].
      now rewrite single_file_duplicates_count. }
    split; [subst duplicate; lia|]. split; [lia|]. split; [exact Hpct|]. split.
    + rewrite Hpct. apply round1_range, percentage_range. subst duplicate. lia.
    + intros Hnd. rewrite Hpct. apply round1_zero.
      subst duplicate. rewrite (distinct_NoDup hs Hnd), Z.sub_diag.
      apply percentage_zero.
Qed.

End DuplicationPercentage.

Section DuplicationExamples.
Import CodeScanner DuplicationFacts.

(** C7 as stated fails for the per-file analysis: the file has one duplicate
    among two significant lines, which makes 50, and the analysis reports
    25, the duplicate over its four code lines. *)
Lemma duplication_percentage_per_file_counterexample :
  let m := metrics_of ideal_hash repeated_file repeated_text in
  let hs := hashed_hashes ideal_hash "pkg/util.py" (Py.split_lines repeated_text) in
  let duplicate_lines := len hs - distinct hs in
  let significant_lines := len hs in
  duplicate_lines = 1 /\ significant_lines = 2 /\
  (fm_duplication_percentage m == 25)%Q /\
  ~ (fm_duplication_percentage m
     == inject_Z duplicate_lines / inject_Z significant_lines * 100)%Q.
Proof.
  vm_compute. repeat split; intros H; discriminate H.
Qed.

Lemma duplication_percentage_formula_witness :
  (fm_duplication_percentage (metrics_of ideal_hash unique_file unique_text)
   == 0)%Q.
Proof.
  destruct (duplication_percentage_formula ideal_hash) as (_ & _ & _ & H).
  destruct (H unique_file unique_text
              (_get_language_from_extension
                 (Py.splitext_ext (file_path unique_file))))
    as (_ & _ & _ & _ & Hzero).
  apply Hzero.
  apply (bool_decide_unpack _). vm_compute. exact I.
Defined.

End DuplicationExamples.

(** * Further properties of the scanner *)

Lemma Qgeb_le (a b : Q) : CodeScanner.Qgeb a b = true <-> (b <= a)%Q.
Proof.
  unfold CodeScanner.Qgeb. rewrite negb_true_iff. apply Qltb_ge.
Qed.

Lemma Qgeb_lt (a b : Q) : CodeScanner.Qgeb a b = false <-> (a < b)%Q.
Proof.
  unfold CodeScanner.Qgeb. rewrite negb_false_iff. apply Qltb_lt.
Qed.

(** Split on every rational comparison of the goal, [>=] included. *)
Ltac qsplit :=
  unfold Qgtb in *;
  repeat match goal with
  | |- context [CodeScanner.Qgeb ?a ?b] =>
      let E := fresh "E" in
      destruct (CodeScanner.Qgeb a b) eqn:E;
      [apply Qgeb_le in E | apply Qgeb_lt in E]
  | |- context [Qltb ?a ?b] =>
      let E := fresh "E" in
      destruct (Qltb a b) eqn:E;
      [apply Qltb_lt in E | apply Qltb_ge in E]
  end.

Section DocumentationQuality.
Import CodeScanner.

(** X1: the documentation tier never drops when the comment ratio grows,
    and at a given ratio a codebase of more code lines never gets a better
    tier than one of fewer. *)
Theorem documentation_quality_monotone :
  (forall (r1 r2 : Q) (n : Z),
     (r1 <= r2)%Q ->
     quality_rank (_assess_documentation_quality r1 n)
     <= quality_rank (_assess_documentation_quality r2 n)) /\
  (forall (r : Q) (n1 n2 : Z),
     n1 <= n2 ->
     quality_rank (_assess_documentation_quality r n2)
     <= quality_rank (_assess_documentation_quality r n1)).
Proof.
  split.
  - intros r1 r2 n H. unfold _assess_documentation_quality.
    destruct (n <? 100); qsplit; simpl; try lia; lra.
  - intros r n1 n2 H. unfold _assess_documentation_quality.
    destruct (Z.ltb_spec n1 100); destruct (Z.ltb_spec n2 100); try lia;
      qsplit; simpl; try lia; lra.
Qed.

Lemma documentation_quality_monotone_witness :
  quality_rank (_assess_documentation_quality 10 250)
  <= quality_rank (_assess_documentation_quality 10 40).
Proof.
  destruct documentation_quality_monotone as (_ & H). apply H. lia.
Defined.

End DocumentationQuality.

Module LinesFacts.
Import CodeScanner.

Lemma count_line_split path n line :
  split_counts n ->
  split_counts (count_line path n line)
  /\ lc_total (count_line path n line) = lc_total n + 1.
Proof.
  unfold split_counts, count_line. intros (Ht & Hc & Hm & Hb).
  destruct (String.eqb (Py.strip line) EmptyString); simpl; [lia|].
  destruct (_is_comment_line (Py.strip line) path); simpl; lia.
Qed.

Lemma count_lines_split path lines n :
  split_counts n ->
  split_counts (fold_left (count_line path) lines n)
  /\ lc_total (fold_left (count_line path) lines n) = lc_total n + len lines.
Proof.
  revert n. induction lines as [|line lines IH]; intros n H; simpl.
  - rewrite len_nil. split; [exact H|lia].
  - destruct (count_line_split path n line H) as [H1 Ht1].
    destruct (IH _ H1) as [H2 Ht2]. rewrite len_cons. split; [exact H2|lia].
Qed.

Lemma count_files_split files n :
  split_counts n ->
  split_counts (fold_left count_file files n)
  /\ lc_total (fold_left count_file files n) = lc_total n + total_lines_of files.
Proof.
  unfold total_lines_of.
  revert n. induction files as [|f files IH]; intros n H; simpl.
  - split; [exact H|]. unfold sum_Z. simpl. lia.
  - unfold count_file at 2 4. destruct (file_text f) as [t|]; simpl.
    + destruct (count_lines_split (file_path f) (Py.readlines t) n H) as [H1 Ht1].
      destruct (IH _ H1) as [H2 Ht2]. rewrite sum_Z_cons.
      change (list_omap source_file string file_text files)
        with (omap file_text files).
      split; [exact H2|lia].
    + apply IH, H.
Qed.

End LinesFacts.

Section LinesAnalysis.
Import CodeScanner LinesFacts.

(** X2: the line counter classifies every line of every readable source
    file exactly once: code, comment and blank lines add up to the total,
    which is the number of lines read; the three percentages lie in
    [0,100], and the comment ratio is the comment percentage. *)
Theorem lines_analysis_partition (c : cache) (found : list source_file) :
  let r := _enhanced_lines_analysis c found in
  la_total_lines r = la_code_lines r + la_comment_lines r + la_blank_lines r /\
  la_total_lines r = total_lines_of (source_files_of c found) /\
  0 <= la_code_lines r /\ 0 <= la_comment_lines r /\ 0 <= la_blank_lines r /\
  (0 <= la_code_percentage r <= 100)%Q /\
  (0 <= la_comment_percentage r <= 100)%Q /\
  (0 <= la_blank_percentage r <= 100)%Q /\
  la_comment_ratio r = la_comment_percentage r.
Proof.
  unfold _enhanced_lines_analysis.
  destruct (count_files_split (source_files_of c found)
              {| lc_total := 0; lc_code := 0; lc_comment := 0; lc_blank := 0 |})
    as ((Ht & Hc & Hm & Hb) & Hn).
  { unfold split_counts. simpl. lia. }
  cbn [la_total_lines la_code_lines la_comment_lines la_blank_lines
       la_code_percentage la_comment_percentage la_blank_percentage
       la_comment_ratio].
  set (n := fold_left count_file (source_files_of c found) _) in *.
  cbn [lc_total] in Hn.
  repeat apply conj; try lia; try reflexivity;
    apply round1_range, percentage_range; lia.
Qed.

End LinesAnalysis.

Module SingleFileFacts.
Import CodeScanner.

Lemma line_classes path (lines : list string) :
  len (List.filter is_blank lines) + len (List.filter (is_comment path) lines)
  + len (List.filter (is_code path) lines) = len lines.
Proof.
  induction lines as [|line lines IH]; [reflexivity|].
  cbn [List.filter]. unfold is_comment at 1, is_code at 1.
  destruct (is_blank line); destruct (_is_comment_line (Py.strip line) path);
    simpl; rewrite ?len_cons; lia.
Qed.

Lemma split_lines_cons (t : string) :
  exists l ls, Py.split_lines t = l :: ls.
Proof.
  induction t as [|c t IH]; simpl; [eauto|].
  destruct (Ascii.eqb c Py.newline); [eauto|].
  destruct IH as (l & ls & ->). eauto.
Qed.

Lemma readlines_nil (t : string) : Py.readlines t = [] -> t = EmptyString.
Proof.
  destruct t as [|c t]; [reflexivity|]. simpl.
  destruct (Ascii.eqb c Py.newline); [discriminate|].
  destruct (Py.readlines t); discriminate.
Qed.

(** Splitting on newlines gives the lines read, and one more piece when the
    text is empty or ends in a newline. *)
Lemma split_lines_readlines (t : string) :
  len (Py.readlines t) <= len (Py.split_lines t) <= len (Py.readlines t) + 1.
Proof.
  induction t as [|c t IH]; simpl.
  - rewrite len_cons, !len_nil. lia.
  - destruct (Ascii.eqb c Py.newline).
    + rewrite !len_cons. lia.
    + destruct (split_lines_cons t) as (l & ls & E).
      rewrite E in IH |- *. pose proof (len_nonneg ls).
      destruct (Py.readlines t) as [|r rs].
      * unfold len in *. simpl List.length in *. lia.
      * unfold len in *. simpl List.length in *. lia.
Qed.

Lemma split_lines_newline (t : string) :
  len (Py.split_lines (t ++ String Py.newline EmptyString))
  = len (Py.readlines (t ++ String Py.newline EmptyString)) + 1.
Proof.
  induction t as [|c t IH]; simpl.
  - reflexivity.
  - destruct (Ascii.eqb c Py.newline).
    + rewrite !len_cons. lia.
    + destruct (split_lines_cons (t ++ String Py.newline EmptyString))
        as (l & ls & E). rewrite E in IH |- *.
      destruct (Py.readlines (t ++ String Py.newline EmptyString))
        as [|r rs] eqn:R.
      * apply readlines_nil in R. destruct t; discriminate.
      * unfold len in *. simpl List.length in *. lia.
Qed.

Lemma single_file_lines hash f content language :
  lines_of_code (_analyze_single_file hash f content language)
  = len (Py.split_lines content).
Proof.
  unfold _analyze_single_file.
  destruct (if String.eqb language "Python" then _ else _) as [[? ?] ?].
  reflexivity.
Qed.

End SingleFileFacts.

Section SingleFile.
Import CodeScanner SingleFileFacts.

(** X3: in the metrics of a single file the code, comment and blank lines
    add up to the lines of the file, of which there is at least one, and
    the comment ratio lies in [0,100]. *)
Theorem single_file_line_partition (hash : string -> Z) (f : source_file)
    (content language : string) :
  let m := _analyze_single_file hash f content language in
  lines_of_code m = code_lines m + comment_lines m + blank_lines m /\
  1 <= lines_of_code m /\
  0 <= code_lines m /\ 0 <= comment_lines m /\ 0 <= blank_lines m /\
  (0 <= comment_ratio m <= 100)%Q.
Proof.
  unfold _analyze_single_file.
  destruct (if String.eqb language "Python" then _ else _) as [[? ?] ?].
  cbn [lines_of_code code_lines comment_lines blank_lines comment_ratio].
  pose proof (line_classes (file_path f) (Py.split_lines content)) as H.
  destruct (split_lines_cons content) as (l & ls & E).
  assert (1 <= len (Py.split_lines content)) as H1.
  { rewrite E, len_cons. pose proof (len_nonneg ls). lia. }
  pose proof (len_nonneg (List.filter is_blank (Py.split_lines content))).
  pose proof (len_nonneg (List.filter (is_comment (file_path f))
                            (Py.split_lines content))).
  pose proof (len_nonneg (List.filter (is_code (file_path f))
                            (Py.split_lines content))).
  repeat apply conj; try lia.
  all: apply round1_range, percentage_range; lia.
Qed.

(** X4: the file analysis counts the lines of a text by splitting on
    newlines and the line counter by reading lines: the first count is the
    second or one more, and exactly one more for a text that ends in a
    newline. *)
Theorem file_analysis_counts_one_more_line (hash : string -> Z)
    (f : source_file) (content language : string) :
  let read := len (Py.readlines content) in
  let m := _analyze_single_file hash f content language in
  read <= lines_of_code m <= read + 1 /\
  lines_of_code
    (_analyze_single_file hash f (content ++ String Py.newline EmptyString)
       language)
  = len (Py.readlines (content ++ String Py.newline EmptyString)) + 1.
Proof.
  cbv zeta. rewrite !single_file_lines. split.
  - apply split_lines_readlines.
  - apply split_lines_newline.
Qed.

End SingleFile.

Module PriorityFacts.
Import CodeScanner.

Lemma file_priority_score_bands (m : file_metrics) :
  _calculate_file_priority_score m
  = complexity_points m + maintainability_points m + duplication_points m
    + documentation_points m + size_points m.
Proof.
  unfold _calculate_file_priority_score, complexity_points,
    maintainability_points, duplication_points, documentation_points,
    size_points.
  qcases; zcases; lia.
Qed.

Lemma priority_rank_mono (s1 s2 : Z) :
  s1 <= s2 ->
  priority_rank (_get_priority_level s1) <= priority_rank (_get_priority_level s2).
Proof.
  intros H. unfold _get_priority_level. zcases; simpl; lia.
Qed.

End PriorityFacts.

Section PriorityOrder.
Import CodeScanner PriorityFacts.

(** X5: a file that is no better on any metric (complexity, duplication
    and size no smaller, maintainability and comment ratio no larger) gets a
    priority score and a priority tier that are no lower. *)
Theorem file_priority_monotone (m1 m2 : file_metrics) :
  at_least_as_bad m1 m2 ->
  _calculate_file_priority_score m1 <= _calculate_file_priority_score m2 /\
  priority_rank (_get_priority_level (_calculate_file_priority_score m1))
  <= priority_rank (_get_priority_level (_calculate_file_priority_score m2)).
Proof.
  intros (Hc & Hm & Hd & Hk & Hl).
  assert (_calculate_file_priority_score m1 <= _calculate_file_priority_score m2)
    as H.
  { rewrite !file_priority_score_bands.
    assert (complexity_points m1 <= complexity_points m2)
      by (unfold complexity_points; qcases; try lia; lra).
    assert (maintainability_points m1 <= maintainability_points m2)
      by (unfold maintainability_points; qcases; try lia; lra).
    assert (duplication_points m1 <= duplication_points m2)
      by (unfold duplication_points; qcases; try lia; lra).
    assert (documentation_points m1 <= documentation_points m2)
      by (unfold documentation_points; qcases; try lia; lra).
    assert (size_points m1 <= size_points m2)
      by (unfold size_points; zcases; lia).
    lia. }
  split; [exact H|]. now apply priority_rank_mono.
Qed.

Lemma file_priority_monotone_witness :
  _calculate_file_priority_score (plain_metrics 8 75 2 10 120)
  <= _calculate_file_priority_score (plain_metrics 12 40 20 1 400).
Proof.
  destruct (file_priority_monotone (plain_metrics 8 75 2 10 120)
              (plain_metrics 12 40 20 1 400)) as (H & _).
  - unfold at_least_as_bad. simpl. repeat split; try lia; vm_compute; discriminate.
  - exact H.
Defined.

End PriorityOrder.

Module UnderstandingFacts.
Import CodeScanner ScoreFacts.



Lemma get_number_default (m : gmap string pyval) (k : string) (d : Q) :
  m !! k = None -> get_number (<[k := PyNum d]> m) k d = get_number m k d.
Proof. intros H. unfold get_number. now rewrite lookup_insert_eq, H. Qed.

Lemma get_number_some (m : gmap string pyval) (k : string) (q d : Q) :
  m !! k = Some (PyNum q) -> get_number m k d = Some q.
Proof. intros H. unfold get_number. now rewrite H. Qed.

Lemma get_number_none (m : gmap string pyval) (k : string) (d : Q) :
  m !! k = Some PyNone -> get_number m k d = None.
Proof. intros H. unfold get_number. now rewrite H. Qed.

(** The value of the body once the five entries are numbers. *)
Lemma understanding_body_numbers (m : gmap string pyval) (c mi d t k : Q) :
  get_number m "complexity_score" 0 = Some c ->
  get_number m "maintainability_index" 100 = Some mi ->
  get_number m "duplication_percentage" 0 = Some d ->
  get_number m "technical_debt_minutes" 0 = Some t ->
  get_number m "comment_ratio" 0 = Some k ->
  score (calculate_understanding_score m)
  = Z.max 0 (Z.min 100
      (100 - complexity_band c + maintainability_band mi - duplication_band d
       - tech_debt_band (t / 60) + documentation_band k)).
Proof.
  intros Hc Hm Hd Ht Hk.
  unfold calculate_understanding_score, understanding_body.
  rewrite Hc, Hm, Hd, Ht, Hk. reflexivity.
Qed.

Lemma band_ranges (c mi d t k : Q) :
  0 <= complexity_band c <= 30 /\ -25 <= maintainability_band mi <= 5 /\
  0 <= duplication_band d <= 25 /\ 0 <= tech_debt_band t <= 15 /\
  -10 <= documentation_band k <= 3.
Proof.
  unfold complexity_band, maintainability_band, duplication_band,
    tech_debt_band, documentation_band.
  repeat apply conj; qcases; lia.
Qed.

End UnderstandingFacts.

Section UnderstandingMore.
Import CodeScanner ScoreFacts UnderstandingFacts.



(** X7: an entry that is absent counts as its default (complexity 0,
    maintainability 100, duplication 0, debt 0, comment ratio 0), and an
    entry that holds [None] makes the whole computation fall to the error
    result: score 0, level Difficult. *)
Theorem understanding_score_missing_and_none
    (metrics : gmap string pyval) (key : string) (dflt : Q) :
  (key, dflt) ∈ score_defaults ->
  (metrics !! key = None ->
   calculate_understanding_score (<[key := PyNum dflt]> metrics)
   = calculate_understanding_score metrics) /\
  (metrics !! key = Some PyNone ->
   calculate_understanding_score metrics = understanding_error).
Proof.
  unfold score_defaults. intros Hin.
  repeat (apply elem_of_cons in Hin as [[= -> ->]|Hin]);
    try (now apply elem_of_nil in Hin);
    (split; intros H;
     [ unfold calculate_understanding_score, understanding_body;
       repeat match goal with
       | |- context [get_number (<[?k := _]> _) ?k' ?d] =>
           first [ rewrite (get_number_default _ k d H)
                 | rewrite (get_number_insert_ne _ k k') by discriminate ]
       end; reflexivity
     | unfold calculate_understanding_score, understanding_body;
       repeat match goal with
       | |- context [get_number metrics ?k' ?d] =>
           first [ rewrite (get_number_none _ k' d H)
                 | destruct (get_number metrics k' d) ]
       end; reflexivity ]).
Qed.

Lemma understanding_score_missing_and_none_witness :
  calculate_understanding_score (<["comment_ratio" := PyNone]> sample_metrics)
  = understanding_error.
Proof.
  destruct (understanding_score_missing_and_none
              (<["comment_ratio" := PyNone]> sample_metrics)
              "comment_ratio" 0) as (_ & H).
  - unfold score_defaults. set_solver.
  - apply H. reflexivity.
Defined.

(** X8: when the score is computed (no entry is [None]) the breakdown it
    returns adds up: the score is base minus the three penalties, plus the
    two bonuses, minus the two adjustment penalties, clamped to [0,100]; a
    bonus and the matching penalty are never both non-zero. *)
Theorem understanding_breakdown_adds_up (metrics : gmap string pyval)
    (mp dp : Z) :
  let r := calculate_understanding_score metrics in
  adjustment_penalties r = Some (mp, dp) ->
  score r
  = Z.max 0 (Z.min 100
      (base_score r - complexity_penalty r - duplication_penalty r
       - tech_debt_penalty r + maintainability_bonus r - mp
       + documentation_bonus r - dp)) /\
  (maintainability_bonus r = 0 \/ mp = 0) /\
  (documentation_bonus r = 0 \/ dp = 0) /\
  0 <= maintainability_bonus r /\ 0 <= mp /\
  0 <= documentation_bonus r /\ 0 <= dp.
Proof.
  unfold calculate_understanding_score, understanding_body.
  destruct (get_number metrics "complexity_score" 0) as [c|]; simpl; [|discriminate].
  destruct (get_number metrics "maintainability_index" 100) as [m|]; simpl; [|discriminate].
  destruct (get_number metrics "duplication_percentage" 0) as [d|]; simpl; [|discriminate].
  destruct (get_number metrics "technical_debt_minutes" 0) as [t|]; simpl; [|discriminate].
  destruct (get_number metrics "comment_ratio" 0) as [k|]; simpl; [|discriminate].
  intros [= <- <-]. lia.
Qed.

Lemma understanding_breakdown_adds_up_witness :
  let r := calculate_understanding_score sample_metrics in
  score r = 37 /\ maintainability_bonus r = 0 /\ documentation_bonus r = 0.
Proof.
  destruct (understanding_breakdown_adds_up sample_metrics 18 10)
    as (H & _).
  - vm_compute. reflexivity.
  - split; [rewrite H; vm_compute; reflexivity|]. split; vm_compute; reflexivity.
Defined.

(** X9: one worst-band input is enough to rule out the label Easy: with an
    average complexity above 20 or a maintainability index below 30 the
    score is at most 78, and with a duplication above 25 at most 83. *)
Theorem worst_band_rules_out_easy (metrics : gmap string pyval) (q : Q) :
  let r := calculate_understanding_score metrics in
  (metrics !! "complexity_score" = Some (PyNum q) -> (20 < q)%Q ->
   score r <= 78 /\ level r <> Easy) /\
  (metrics !! "maintainability_index" = Some (PyNum q) -> (q < 30)%Q ->
   score r <= 78 /\ level r <> Easy) /\
  (metrics !! "duplication_percentage" = Some (PyNum q) -> (25 < q)%Q ->
   score r <= 83 /\ level r <> Easy).
Proof.
  assert (forall s, s <= 83 -> level_of s <> Easy) as Hlevel.
  { intros s Hs. unfold level_of. destruct (Z.leb_spec 85 s); [lia|].
    repeat match goal with |- context [?a <=? ?b] => destruct (a <=? b) end;
      discriminate. }
  cbv zeta. unfold calculate_understanding_score, understanding_body.
  repeat apply conj; intros Hq Hb.
  - rewrite (get_number_some _ _ _ 0 Hq). simpl.
    destruct (get_number metrics "maintainability_index" 100) as [m|]; simpl;
      [|split; [lia|discriminate]].
    destruct (get_number metrics "duplication_percentage" 0) as [d|]; simpl;
      [|split; [lia|discriminate]].
    destruct (get_number metrics "technical_debt_minutes" 0) as [t|]; simpl;
      [|split; [lia|discriminate]].
    destruct (get_number metrics "comment_ratio" 0) as [k|]; simpl;
      [|split; [lia|discriminate]].
    destruct (band_ranges q m d (t / 60) k) as (_ & Hm & Hd & Ht & Hk).
    assert (complexity_band q = 30) as ->.
    { unfold complexity_band. qcases; try reflexivity; lra. }
    split; [lia|apply Hlevel; lia].
  - destruct (get_number metrics "complexity_score" 0) as [c|]; simpl;
      [|split; [lia|discriminate]].
    rewrite (get_number_some _ _ _ 100 Hq). simpl.
    destruct (get_number metrics "duplication_percentage" 0) as [d|]; simpl;
      [|split; [lia|discriminate]].
    destruct (get_number metrics "technical_debt_minutes" 0) as [t|]; simpl;
      [|split; [lia|discriminate]].
    destruct (get_number metrics "comment_ratio" 0) as [k|]; simpl;
      [|split; [lia|discriminate]].
    destruct (band_ranges c q d (t / 60) k) as (Hc & _ & Hd & Ht & Hk).
    assert (maintainability_band q = -25) as ->.
    { unfold maintainability_band. qcases; try reflexivity; lra. }
    split; [lia|apply Hlevel; lia].
  - destruct (get_number metrics "complexity_score" 0) as [c|]; simpl;
      [|split; [lia|discriminate]].
    destruct (get_number metrics "maintainability_index" 100) as [m|]; simpl;
      [|split; [lia|discriminate]].
    rewrite (get_number_some _ _ _ 0 Hq). simpl.
    destruct (get_number metrics "technical_debt_minutes" 0) as [t|]; simpl;
      [|split; [lia|discriminate]].
    destruct (get_number metrics "comment_ratio" 0) as [k|]; simpl;
      [|split; [lia|discriminate]].
    destruct (band_ranges c m q (t / 60) k) as (Hc & Hm & _ & Ht & Hk).
    assert (duplication_band q = 25) as ->.
    { unfold duplication_band. qcases; try reflexivity; lra. }
    split; [lia|apply Hlevel; lia].
Qed.

Lemma worst_band_rules_out_easy_witness :
  score (calculate_understanding_score
           {[ "complexity_score" := PyNum 21;
              "maintainability_index" := PyNum 90;
              "comment_ratio" := PyNum 20 ]}) <= 78.
Proof.
  destruct (worst_band_rules_out_easy
              {[ "complexity_score" := PyNum 21;
                 "maintainability_index" := PyNum 90;
                 "comment_ratio" := PyNum 20 ]} 21) as (H & _).
  destruct H as (H & _).
  - reflexivity.
  - vm_compute. reflexivity.
  - exact H.
Defined.

End UnderstandingMore.

(** * Further properties: rankings *)

Section SortFacts.
Context {A : Type} (key : A -> Q).

Lemma insert_by_desc_elem (x y : A) (l : list A) :
  y ∈ CodeScanner.insert_by_desc key x l <-> y = x \/ y ∈ l.
Proof.
  induction l as [|z l IH]; simpl.
  - rewrite list_elem_of_singleton. set_solver.
  - destruct (Qltb (key x) (key z)); set_solver.
Qed.

Lemma sorted_by_desc_elem (y : A) (l : list A) :
  y ∈ CodeScanner.sorted_by_desc key l <-> y ∈ l.
Proof.
  induction l as [|x l IH]; simpl; [reflexivity|].
  rewrite insert_by_desc_elem, IH. set_solver.
Qed.

Lemma insert_by_desc_length (x : A) (l : list A) :
  List.length (CodeScanner.insert_by_desc key x l) = S (List.length l).
Proof.
  induction l as [|z l IH]; simpl; [reflexivity|].
  destruct (Qltb (key x) (key z)); simpl; [now rewrite IH|reflexivity].
Qed.

Lemma sorted_by_desc_length (l : list A) :
  List.length (CodeScanner.sorted_by_desc key l) = List.length l.
Proof.
  induction l as [|x l IH]; simpl; [reflexivity|].
  now rewrite insert_by_desc_length, IH.
Qed.

Lemma insert_by_desc_sorted (x : A) (l : list A) :
  StronglySorted (fun a b => (key b <= key a)%Q) l ->
  StronglySorted (fun a b => (key b <= key a)%Q)
    (CodeScanner.insert_by_desc key x l).
Proof.
  induction 1 as [|z l Hl IH Hz]; simpl.
  - repeat constructor.
  - destruct (Qltb (key x) (key z)) eqn:E.
    + apply Qltb_lt in E. constructor; [exact IH|].
      apply Forall_forall. intros y Hy.
      apply insert_by_desc_elem in Hy as [->|Hy]; [now apply Qlt_le_weak|].
      rewrite Forall_forall in Hz. now apply Hz.
    + apply Qltb_ge in E. constructor; [now constructor|].
      constructor; [exact E|].
      eapply Forall_impl; [exact Hz|]. simpl. intros y Hy.
      now apply Qle_trans with (key z).
Qed.

Lemma sorted_by_desc_sorted (l : list A) :
  StronglySorted (fun a b => (key b <= key a)%Q)
    (CodeScanner.sorted_by_desc key l).
Proof.
  induction l as [|x l IH]; simpl; [constructor|].
  now apply insert_by_desc_sorted.
Qed.

Lemma insert_asc_elem (x y : A) (l : list A) :
  y ∈ CodeScanner.insert_asc key x l <-> y = x \/ y ∈ l.
Proof.
  induction l as [|z l IH]; simpl.
  - rewrite list_elem_of_singleton. set_solver.
  - destruct (Qltb (key z) (key x)); set_solver.
Qed.

Lemma sorted_asc_elem (y : A) (l : list A) :
  y ∈ CodeScanner.sorted_asc key l <-> y ∈ l.
Proof.
  induction l as [|x l IH]; simpl; [reflexivity|].
  rewrite insert_asc_elem, IH. set_solver.
Qed.

Lemma insert_asc_sorted (x : A) (l : list A) :
  StronglySorted (fun a b => (key a <= key b)%Q) l ->
  StronglySorted (fun a b => (key a <= key b)%Q)
    (CodeScanner.insert_asc key x l).
Proof.
  induction 1 as [|z l Hl IH Hz]; simpl.
  - repeat constructor.
  - destruct (Qltb (key z) (key x)) eqn:E.
    + apply Qltb_lt in E. constructor; [exact IH|].
      apply Forall_forall. intros y Hy.
      apply insert_asc_elem in Hy as [->|Hy]; [now apply Qlt_le_weak|].
      rewrite Forall_forall in Hz. now apply Hz.
    + apply Qltb_ge in E. constructor; [now constructor|].
      constructor; [exact E|].
      eapply Forall_impl; [exact Hz|]. simpl. intros y Hy.
      now apply Qle_trans with (key z).
Qed.

Lemma sorted_asc_sorted (l : list A) :
  StronglySorted (fun a b => (key a <= key b)%Q)
    (CodeScanner.sorted_asc key l).
Proof.
  induction l as [|x l IH]; simpl; [constructor|].
  now apply insert_asc_sorted.
Qed.

End SortFacts.

Lemma StronglySorted_take {A} (R : A -> A -> Prop) (n : nat) (l : list A) :
  StronglySorted R l -> StronglySorted R (take n l).
Proof.
  intros H. rewrite <- (take_drop n l) in H.
  now apply StronglySorted_app_1_l in H.
Qed.

Lemma elem_of_take_list {A} (n : nat) (x : A) (l : list A) :
  x ∈ take n l -> x ∈ l.
Proof. intros H. rewrite <- (take_drop n l). apply elem_of_app. now left. Qed.

Lemma StronglySorted_weaken {A} (R S : A -> A -> Prop) (l : list A) :
  (forall a b, R a b -> S a b) -> StronglySorted R l -> StronglySorted S l.
Proof.
  intros H. induction 1 as [|x l Hl IH Hx]; constructor; [exact IH|].
  eapply Forall_impl; [exact Hx|]. intros y. apply H.
Qed.

Section Rankings.
Import CodeScanner.

(** X10: the file ranking keeps at most twenty entries, one for each of
    the first readable source files in order of priority, highest score
    first; every entry is the analysis of a readable source file, and its
    tier is the tier of its score. *)
Theorem analyze_files_ranking (hash : string -> Z) (c : cache)
    (found : list source_file) :
  let r := _analyze_files hash c found in
  List.length r
  = Nat.min 20 (List.length (omap file_text (source_files_of c found))) /\
  StronglySorted (fun a b => fa_priority_score b <= fa_priority_score a) r /\
  Forall (fun a =>
            fa_improvement_priority a = _get_priority_level (fa_priority_score a)
            /\ exists f, f ∈ source_files_of c found
                         /\ analyze_file hash f = Some a) r.
Proof.
  unfold _analyze_files. repeat apply conj.
  - rewrite length_take, sorted_by_desc_length. f_equal.
    induction (source_files_of c found) as [|f fs IH]; [reflexivity|].
    simpl. unfold analyze_file at 1. destruct (file_text f); simpl;
      [f_equal|]; exact IH.
  - apply StronglySorted_take.
    eapply StronglySorted_weaken; [|apply sorted_by_desc_sorted].
    simpl. intros a b H. now rewrite Zle_Qle.
  - apply Forall_forall. intros a Ha.
    apply elem_of_take_list, sorted_by_desc_elem in Ha.
    apply list_elem_of_omap in Ha as (f & Hf & Hfa). split; [|eauto].
    unfold analyze_file in Hfa. destruct (file_text f); [|discriminate].
    injection Hfa as <-. reflexivity.
Qed.

(** X11: the function ranking keeps at most fifty entries, highest
    complexity first; every entry needs attention (it is flagged for
    refactoring, or its complexity is above 8, or it lacks a docstring, or it
    is longer than 30 lines), and it is flagged for refactoring exactly when
    its complexity is above 10 or its length above 50. *)
Theorem analyze_functions_ranking (c : cache) (found : list source_file) :
  let r := _analyze_functions c found in
  (List.length r <= 50)%nat /\
  StronglySorted (fun a b => fna_complexity_score b <= fna_complexity_score a) r /\
  Forall (fun a =>
            (needs_refactoring a = true \/ 8 < fna_complexity_score a
             \/ has_documentation a = false \/ 30 < fna_lines_of_code a)
            /\ (needs_refactoring a = true
                <-> 10 < fna_complexity_score a \/ 50 < fna_lines_of_code a))
         r.
Proof.
  unfold _analyze_functions. repeat apply conj.
  - rewrite length_take. lia.
  - apply StronglySorted_take.
    eapply StronglySorted_weaken; [|apply sorted_by_desc_sorted].
    simpl. intros a b H. now rewrite Zle_Qle.
  - apply Forall_forall. intros a Ha.
    apply elem_of_take_list, sorted_by_desc_elem in Ha.
    apply list_elem_of_In, in_flat_map in Ha as (f & _ & Ha).
    unfold functions_of_file in Ha.
    destruct (file_text f); [|destruct Ha].
    destruct (file_ast f) as [nodes|]; [|destruct Ha].
    destruct (file_cc f) as [data|]; [|destruct Ha].
    apply filter_In in Ha as [Ha Hatt]. apply in_map_iff in Ha as (node & <- & _).
    split.
    + unfold needs_attention in Hatt.
      apply orb_true_iff in Hatt as [Hatt|Hatt]; [|right; right; right; lia].
      apply orb_true_iff in Hatt as [Hatt|Hatt];
        [|right; right; left; now apply negb_true_iff].
      apply orb_true_iff in Hatt as [Hatt|Hatt]; [now left|right; left; lia].
    + unfold analyze_function. simpl. zcases; split; intros; try lia;
        try reflexivity; try discriminate.
Qed.

End Rankings.

Module MaintainabilityFacts.
Import CodeScanner.

Lemma fold_Qplus_bounds (l : list Q) (a : Q) :
  Forall (fun q => (0 <= q <= 100)%Q) l ->
  (a <= fold_left Qplus l a
   /\ fold_left Qplus l a <= a + 100 * inject_Z (len l))%Q.
Proof.
  intros H. revert a. induction H as [|x l [Hx0 Hx1] _ IH]; intros a; simpl.
  - rewrite len_nil. change (inject_Z 0) with 0%Q. split; lra.
  - destruct (IH (a + x)%Q) as [Hlo Hhi].
    rewrite len_cons, inject_Z_plus. change (inject_Z 1) with 1%Q.
    split; lra.
Qed.

Lemma average_bounds (l : list Q) :
  l <> [] ->
  Forall (fun q => (0 <= q <= 100)%Q) l ->
  (0 <= sum_Q l / inject_Z (len l) <= 100)%Q.
Proof.
  intros Hne H. unfold sum_Q.
  destruct (fold_Qplus_bounds l 0 H) as [Hlo Hhi].
  assert (0 < inject_Z (len l))%Q as Hpos.
  { change 0%Q with (inject_Z 0). rewrite <- Zlt_Qlt.
    destruct l; [congruence|]. rewrite len_cons. pose proof (len_nonneg l). lia. }
  split.
  - apply Qle_shift_div_l; [exact Hpos|]. lra.
  - apply Qle_shift_div_r; [exact Hpos|]. lra.
Qed.

End MaintainabilityFacts.

Section Maintainability.
Import CodeScanner MaintainabilityFacts.

(** X12: without a Python file the maintainability index is 0 and no list
    of weak files is given; a list that is given holds at most five files,
    each with a rounded score below 50, weakest first; and when radon's
    indices lie in [0,100], so does the averaged index. *)
Theorem maintainability_analysis_properties (c : cache)
    (found : list source_file) :
  let r := _enhanced_maintainability_analysis c found in
  (python_files_of (source_files_of c found) = [] ->
   r = {| mr_maintainability_index := 0; low_maintainability_files := None |}) /\
  (forall low,
     low_maintainability_files r = Some low ->
     (List.length low <= 5)%nat /\
     Forall (fun fs => (snd fs < 50)%Q) low /\
     StronglySorted (fun a b => (snd a <= snd b)%Q) low) /\
  ((forall f q,
      f ∈ source_files_of c found -> file_mi f = Some q -> (0 <= q <= 100)%Q) ->
   (0 <= mr_maintainability_index r <= 100)%Q).
Proof.
  unfold _enhanced_maintainability_analysis. repeat apply conj.
  - intros ->. reflexivity.
  - intros low.
    destruct (python_files_of (source_files_of c found)) as [|f fs];
      [discriminate|].
    destruct (List.map snd (mi_scores_of (f :: fs))); [discriminate|].
    cbn [low_maintainability_files]. intros [= <-]. repeat apply conj.
    + rewrite length_take. lia.
    + apply Forall_forall. intros x Hx.
      apply elem_of_take_list, sorted_asc_elem in Hx.
      apply list_elem_of_In, filter_In in Hx as [_ Hx]. now apply Qltb_lt.
    + apply StronglySorted_take, sorted_asc_sorted.
  - intros Hrange.
    destruct (python_files_of (source_files_of c found)) as [|f fs] eqn:E;
      [simpl; split; discriminate|].
    destruct (List.map snd (mi_scores_of (f :: fs))) as [|q qs] eqn:Eq;
      [simpl; split; discriminate|].
    cbn [mr_maintainability_index]. apply round1_range, average_bounds;
      [discriminate|].
    rewrite <- Eq. apply Forall_forall. intros x Hx.
    apply list_elem_of_In, in_map_iff in Hx as ([name y] & <- & Hy).
    apply list_elem_of_In in Hy. unfold mi_scores_of in Hy.
    apply list_elem_of_omap in Hy as (g & Hg & Hgy).
    destruct (file_text g); [|discriminate].
    destruct (file_mi g) as [mi|] eqn:Emi; [|discriminate].
    injection Hgy as _ <-. simpl. apply (Hrange g); [|exact Emi].
    rewrite <- E in Hg. unfold python_files_of in Hg.
    apply list_elem_of_In, filter_In in Hg as [Hg _]. now apply list_elem_of_In.
Qed.

Lemma maintainability_analysis_properties_witness :
  (0 <= mr_maintainability_index
          (_enhanced_maintainability_analysis no_cache
             [deep_file; repeated_file]) <= 100)%Q.
Proof.
  destruct (maintainability_analysis_properties no_cache
              [deep_file; repeated_file]) as (_ & _ & H).
  apply H. intros f q Hf.
  repeat (apply elem_of_cons in Hf as [->|Hf]);
    try (now apply elem_of_nil in Hf);
    intros [= <-]; split; discriminate.
Defined.

End Maintainability.

Section BandHelpers.
Import CodeScanner.

(** X13: the stand-alone band helpers.  The complexity, duplication and
    technical-debt penalties never decrease with their input and stay within
    [0,35], [0,30] and [0,25]; the maintainability bonus never decreases and
    stays within [-20,10]; the documentation bonus grows with the comment
    ratio only below 25 percent, from where on it is the penalty -5. *)
Theorem band_helpers_monotone (a b : Q) :
  (a <= b)%Q ->
  _calculate_complexity_penalty a <= _calculate_complexity_penalty b /\
  _calculate_duplication_penalty a <= _calculate_duplication_penalty b /\
  _calculate_tech_debt_penalty a <= _calculate_tech_debt_penalty b /\
  _calculate_maintainability_bonus a <= _calculate_maintainability_bonus b /\
  ((b < 25)%Q ->
   _calculate_documentation_bonus a <= _calculate_documentation_bonus b) /\
  ((25 <= a)%Q -> _calculate_documentation_bonus a = -5) /\
  0 <= _calculate_complexity_penalty a <= 35 /\
  0 <= _calculate_duplication_penalty a <= 30 /\
  0 <= _calculate_tech_debt_penalty a <= 25 /\
  -20 <= _calculate_maintainability_bonus a <= 10 /\
  -8 <= _calculate_documentation_bonus a <= 8.
Proof.
  intros H.
  unfold _calculate_complexity_penalty, _calculate_duplication_penalty,
    _calculate_tech_debt_penalty, _calculate_maintainability_bonus,
    _calculate_documentation_bonus.
  repeat apply conj;
    try match goal with
        | |- (_ < _)%Q -> _ => intros Hb
        | |- (_ <= _)%Q -> _ => intros Hb
        end;
    qsplit; try lia; try reflexivity; exfalso; lra.
Qed.

Lemma band_helpers_monotone_witness :
  _calculate_documentation_bonus 12 <= _calculate_documentation_bonus 20
  /\ _calculate_documentation_bonus 30 = -5.
Proof.
  split.
  - destruct (band_helpers_monotone 12 20) as (_ & _ & _ & _ & H & _).
    + vm_compute. discriminate.
    + apply H. vm_compute. reflexivity.
  - destruct (band_helpers_monotone 30 30) as (_ & _ & _ & _ & _ & H & _).
    + vm_compute. discriminate.
    + apply H. vm_compute. discriminate.
Defined.

(** X14: for every language, listed or not, the complexity thresholds are
    positive and strictly increasing: simple < moderate < complex. *)
Theorem complexity_thresholds_increasing (language : string) :
  let t := _get_language_complexity_thresholds language in
  0 < th_simple t /\ th_simple t < th_moderate t /\ th_moderate t < th_complex t.
Proof.
  unfold _get_language_complexity_thresholds.
  destruct (list_to_map threshold_table !! language) as [t|] eqn:E;
    [|simpl; lia].
  apply elem_of_list_to_map_2 in E. unfold threshold_table in E.
  repeat (apply elem_of_cons in E as [[= _ ->]|E]); try (simpl; lia).
  now apply elem_of_nil in E.
Qed.

End BandHelpers.

(** * Further properties: technical debt *)

Module DebtBoundsFacts.
Import CodeScanner.

Lemma sum_Z_nonneg (l : list Z) : Forall (fun x => 0 <= x) l -> 0 <= sum_Z l.
Proof.
  induction 1 as [|x l Hx _ IH]; [unfold sum_Z; simpl; lia|].
  rewrite sum_Z_cons. lia.
Qed.

Lemma sum_Z_map_nonneg {A} (g : A -> Z) (l : list A) :
  (forall x, 0 <= g x) -> 0 <= sum_Z (List.map g l).
Proof.
  intros H. apply sum_Z_nonneg, Forall_forall. intros y Hy.
  apply list_elem_of_In, in_map_iff in Hy as (x & <- & _). apply H.
Qed.

Lemma total_lines_of_nonneg files : 0 <= total_lines_of files.
Proof. unfold total_lines_of. apply sum_Z_map_nonneg. intros t. apply len_nonneg. Qed.

Lemma long_function_debt_nonneg files : 0 <= long_function_debt_of files.
Proof.
  unfold long_function_debt_of. apply sum_Z_map_nonneg. intros f.
  destruct (file_text f); [|lia]. destruct (file_ast f); [|lia].
  apply sum_Z_map_nonneg. intros fn. unfold function_debt. simpl.
  destruct (50 <? _); lia.
Qed.

Lemma documentation_debt_nonneg files : 0 <= documentation_debt_of files.
Proof.
  unfold documentation_debt_of. apply sum_Z_map_nonneg. intros f.
  destruct (file_text f); [|lia]. destruct (file_ast f); [|lia].
  apply sum_Z_map_nonneg. intros fn. unfold function_debt. simpl.
  destruct (fn_has_docstring fn); lia.
Qed.

Lemma line_quality_debt_range line : 0 <= line_quality_debt line <= 6.
Proof.
  unfold line_quality_debt.
  destruct (_ <? _)%nat; destruct (_ <? _)%nat; destruct (_ || _); lia.
Qed.

Lemma quality_debt_nonneg files : 0 <= quality_debt_of files.
Proof.
  unfold quality_debt_of. apply sum_Z_map_nonneg. intros f.
  destruct (file_text f); [|lia].
  apply sum_Z_map_nonneg. intros line. apply line_quality_debt_range.
Qed.

(** [int(x)] of a non-negative number is its floor. *)
Lemma Qtrunc_nonneg (q : Q) :
  (0 <= q)%Q -> 0 <= Qtrunc q /\ (inject_Z (Qtrunc q) <= q)%Q.
Proof.
  unfold Qle, Qtrunc. destruct q as [n d]. simpl. intros H.
  assert (0 <= n) as Hn by lia.
  rewrite Z.quot_div_nonneg by lia.
  pose proof (Z.div_pos n (Zpos d) Hn ltac:(lia)).
  pose proof (Z.mul_div_le n (Zpos d) ltac:(lia)).
  split; lia.
Qed.

Lemma duplication_percentage_range hash c found :
  (0 <= duplication_percentage (_enhanced_duplication_analysis hash c found)
   <= 100)%Q.
Proof.
  unfold _enhanced_duplication_analysis.
  destruct (source_files_of c found) as [|f fs]; [split; discriminate|].
  cbn [duplication_percentage].
  destruct (DuplicationFacts.duplication_run_counts hash (f :: fs))
    as (Ht & Hd & _).
  pose proof (DuplicationFacts.distinct_range (repo_hashes hash (f :: fs))).
  apply round1_range, percentage_range. lia.
Qed.

Lemma half_share (p : Q) (n : Z) :
  (0 <= p <= 100)%Q -> 0 <= n ->
  let d := Qtrunc (p / 100 * inject_Z n * (1 # 2)) in
  0 <= d /\ 2 * d <= n.
Proof.
  intros [Hp0 Hp1] Hn. cbv zeta.
  assert (0 <= inject_Z n)%Q as Hn'.
  { change 0%Q with (inject_Z 0). now rewrite <- Zle_Qle. }
  set (x := inject_Z n) in *.
  assert (0 <= p / 100 * x * (1 # 2) /\ p / 100 * x * (1 # 2) <= x * (1 # 2))%Q
    as [Hlo Hhi].
  { assert (0 <= p / 100 <= 1)%Q as [Ha Hb].
    { split; [apply Qle_shift_div_l|apply Qle_shift_div_r];
        try reflexivity; lra. }
    set (y := (p / 100)%Q) in *.
    assert (0 <= y * x)%Q by (apply Qmult_le_0_compat; assumption).
    assert (y * x <= 1 * x)%Q by (apply Qmult_le_compat_r; assumption).
    split; lra. }
  destruct (Qtrunc_nonneg _ Hlo) as [H0 Hle].
  split; [exact H0|].
  rewrite Zle_Qle, inject_Z_mult. change (inject_Z 2) with 2%Q.
  fold x. lra.
Qed.

End DebtBoundsFacts.

Section DebtBounds.
Import CodeScanner DebtFacts DebtBoundsFacts.

(** X15: in the pipeline no category of technical debt is negative; the
    duplication debt is at most half a minute per line of the repository,
    the complexity debt at most 150 minutes, and the total is the sum of the
    five categories. *)
Theorem technical_debt_bounds (hash : string -> Z)
    (classified found : list source_file) :
  let r := analyze_repository hash classified found in
  let d := debt r in
  0 <= duplication_debt_minutes d /\
  2 * duplication_debt_minutes d <= total_lines r /\
  0 <= complexity_debt_minutes d <= 150 /\
  0 <= documentation_debt_minutes d /\
  0 <= long_function_debt_minutes d /\
  0 <= quality_debt_minutes d /\
  technical_debt_minutes d
  = duplication_debt_minutes d + complexity_debt_minutes d
    + documentation_debt_minutes d + long_function_debt_minutes d
    + quality_debt_minutes d.
Proof.
  cbv zeta.
  pose proof (complexity_debt_capped hash classified found) as Hc.
  cbv zeta in Hc.
  assert (0 <= complex_functions
                 (complexity (analyze_repository hash classified found))) as Hcf.
  { pose proof (high_complexity_functions_capped
                  {| _cached_source_files := Some classified;
                     _cached_total_lines :=
                       Some (total_lines_of
                               (source_files_of
                                  {| _cached_source_files := Some classified;
                                     _cached_total_lines := None;
                                     _cached_complex_functions := None;
                                     _cached_duplication_pct := None |} found));
                     _cached_complex_functions := None;
                     _cached_duplication_pct := None |} found) as Hh.
    cbv zeta in Hh. simpl.
    pose proof (len_nonneg (high_complexity_functions
      (_enhanced_complexity_analysis
         {| _cached_source_files := Some classified;
            _cached_total_lines :=
              Some (total_lines_of
                      (source_files_of
                         {| _cached_source_files := Some classified;
                            _cached_total_lines := None;
                            _cached_complex_functions := None;
                            _cached_duplication_pct := None |} found));
            _cached_complex_functions := None;
            _cached_duplication_pct := None |} found))).
    lia. }
  split; [|split; [|split; [lia|]]].
  - simpl. apply half_share;
      [apply duplication_percentage_range|apply total_lines_of_nonneg].
  - simpl. apply half_share;
      [apply duplication_percentage_range|apply total_lines_of_nonneg].
  - simpl. repeat apply conj.
    + apply documentation_debt_nonneg.
    + apply long_function_debt_nonneg.
    + apply quality_debt_nonneg.
    + reflexivity.
Qed.

(** X16: when the repository holds no Python file, the complexity,
    documentation, long-function and quality debts are all zero and the
    technical debt is the duplication debt alone. *)
Theorem no_python_only_duplication_debt (hash : string -> Z)
    (classified found : list source_file) :
  python_files_of classified = [] ->
  python_files_of found = [] ->
  let d := debt (analyze_repository hash classified found) in
  complexity_debt_minutes d = 0 /\
  documentation_debt_minutes d = 0 /\
  long_function_debt_minutes d = 0 /\
  quality_debt_minutes d = 0 /\
  technical_debt_minutes d = duplication_debt_minutes d.
Proof.
  intros Hc Hf.
  assert (forall c, _cached_source_files c = Some classified ->
                    python_files_of (source_files_of c found) = []) as Hpy.
  { intros c E. unfold source_files_of. rewrite E.
    destruct classified; assumption. }
  cbv zeta. unfold analyze_repository.
  cbn [debt _enhanced_technical_debt_analysis complexity_debt_minutes
       documentation_debt_minutes long_function_debt_minutes
       quality_debt_minutes technical_debt_minutes duplication_debt_minutes
       _cached_source_files _cached_complex_functions].
  unfold _enhanced_complexity_analysis.
  rewrite !Hpy by reflexivity.
  repeat apply conj; try reflexivity.
  match goal with |- ?d + _ + _ + _ + _ = _ => generalize d end.
  intros d. cbn. unfold len. simpl. lia.
Qed.

Lemma no_python_only_duplication_debt_witness :
  technical_debt_minutes
    (debt (analyze_repository ideal_hash
             [text_file "src/total.js" sample_js]
             [text_file "src/total.js" sample_js]))
  = duplication_debt_minutes
      (debt (analyze_repository ideal_hash
               [text_file "src/total.js" sample_js]
               [text_file "src/total.js" sample_js])).
Proof.
  apply no_python_only_duplication_debt; reflexivity.
Defined.

End DebtBounds.

(** * Further properties of the language analyzers *)

Module MetricsFacts.
Import MultiLanguageAnalyzer.

Lemma occurrences_nonneg kws body : 0 <= keyword_occurrences kws body.
Proof.
  unfold keyword_occurrences. apply DebtBoundsFacts.sum_Z_map_nonneg.
  intros k. lia.
Qed.

Lemma min_list_spec (l : list Z) (x : Z) :
  (min_list x l = x \/ min_list x l ∈ l) /\
  min_list x l <= x /\ Forall (fun y => min_list x l <= y) l.
Proof.
  unfold min_list. revert x. induction l as [|y l IH]; intros x; simpl.
  - repeat split; [now left|lia|constructor].
  - destruct (IH (Z.min x y)) as (Hin & Hle & Hall). repeat split.
    + destruct Hin as [->|Hin]; [|right; now right].
      destruct (Z.min_spec x y) as [[_ ->]|[_ ->]]; [now left|right; now left].
    + lia.
    + constructor; [lia|exact Hall].
Qed.

Lemma max_list_spec (l : list Z) (x : Z) :
  (max_list x l = x \/ max_list x l ∈ l) /\
  x <= max_list x l /\ Forall (fun y => y <= max_list x l) l.
Proof.
  unfold max_list. revert x. induction l as [|y l IH]; intros x; simpl.
  - repeat split; [now left|lia|constructor].
  - destruct (IH (Z.max x y)) as (Hin & Hle & Hall). repeat split.
    + destruct Hin as [->|Hin]; [|right; now right].
      destruct (Z.max_spec x y) as [[_ ->]|[_ ->]]; [right; now left|now left].
    + lia.
    + constructor; [lia|exact Hall].
Qed.

Lemma sum_Z_between (l : list Z) (lo hi : Z) :
  Forall (fun y => lo <= y <= hi) l ->
  lo * len l <= sum_Z l <= hi * len l.
Proof.
  induction 1 as [|y l Hy _ IH].
  - rewrite len_nil. unfold sum_Z. simpl. lia.
  - rewrite sum_Z_cons, len_cons. lia.
Qed.

End MetricsFacts.

Section Metrics.
Import Re MultiLanguageAnalyzer HeuristicFacts MetricsFacts.

(** X17: every complexity the heuristic tier reports is at least 1. *)
Theorem heuristic_scores_at_least_one (files : list source_file)
    (kws pats : list regex) :
  Forall (fun s => 1 <= s) (_analyze_files_with_patterns files kws pats).
Proof.
  unfold _analyze_files_with_patterns. apply Forall_forall. intros s Hs.
  apply list_elem_of_In, in_flat_map in Hs as (f & _ & Hs).
  destruct (file_text f) as [content|]; [|destruct Hs].
  unfold analyze_content in Hs. apply in_map_iff in Hs as (m & <- & _).
  rewrite function_complexity_formula.
  pose proof (occurrences_nonneg kws
                (_extract_function_content content (fst m))).
  lia.
Qed.

(** X18: for a list of scores that is not empty, the reported minimum and
    maximum are scores of the list that bound every score, and the average
    lies between them. *)
Theorem complexity_metrics_min_avg_max (scores : list Z) (method : string) :
  scores <> [] ->
  let r := _calculate_complexity_metrics scores method in
  r_complexity_min r ∈ scores /\ r_complexity_max r ∈ scores /\
  Forall (fun s => r_complexity_min r <= s <= r_complexity_max r) scores /\
  (inject_Z (r_complexity_min r) <= r_average_complexity r
   <= inject_Z (r_complexity_max r))%Q.
Proof.
  destruct scores as [|x l]; [congruence|]. intros _. cbv zeta.
  cbn [_calculate_complexity_metrics r_complexity_min r_complexity_max
       r_average_complexity].
  destruct (min_list_spec l x) as (Hmin_in & Hmin_x & Hmin_all).
  destruct (max_list_spec l x) as (Hmax_in & Hmax_x & Hmax_all).
  assert (Forall (fun s => min_list x l <= s <= max_list x l) (x :: l)) as Hall.
  { constructor; [lia|]. apply Forall_forall. intros y Hy.
    rewrite Forall_forall in Hmin_all, Hmax_all.
    split; [now apply Hmin_all|now apply Hmax_all]. }
  repeat apply conj.
  - destruct Hmin_in as [->|H]; [now left|now right].
  - destruct Hmax_in as [->|H]; [now left|now right].
  - exact Hall.
  - apply Qle_shift_div_l.
    + change 0%Q with (inject_Z 0). rewrite <- Zlt_Qlt, len_cons.
      pose proof (len_nonneg l). lia.
    + rewrite <- inject_Z_mult, <- Zle_Qle.
      apply (sum_Z_between (x :: l) _ _ Hall).
  - apply Qle_shift_div_r.
    + change 0%Q with (inject_Z 0). rewrite <- Zlt_Qlt, len_cons.
      pose proof (len_nonneg l). lia.
    + rewrite <- inject_Z_mult, <- Zle_Qle.
      apply (sum_Z_between (x :: l) _ _ Hall).
Qed.

Lemma complexity_metrics_min_avg_max_witness :
  let r := _calculate_complexity_metrics [3; 12; 7] "sample" in
  (inject_Z (r_complexity_min r) <= r_average_complexity r
   <= inject_Z (r_complexity_max r))%Q.
Proof.
  destruct (complexity_metrics_min_avg_max [3; 12; 7] "sample")
    as (_ & _ & _ & H); [discriminate|exact H].
Defined.

End Metrics.

Module IndexFacts.
Import MultiLanguageAnalyzer.

Lemma Qclamp_range (x : Q) : (0 <= Qclamp 0 100 x <= 100)%Q.
Proof. unfold Qclamp. qcases; split; try lra; discriminate. Qed.

Lemma linear_maintainability_range kc offset ks files scores :
  (0 <= linear_maintainability kc offset ks files scores <= 100)%Q.
Proof.
  unfold linear_maintainability.
  destruct files; [split; discriminate|].
  destruct scores; [split; discriminate|].
  apply Qclamp_range.
Qed.

Lemma regex_analysis_index files kws pats kc offset ks method :
  index_in_range
    (regex_analysis files kws pats (linear_maintainability kc offset ks) method).
Proof.
  unfold regex_analysis, index_in_range. simpl.
  apply linear_maintainability_range.
Qed.

Lemma eslint_index (t : tools) (r : raw_result) :
  _try_eslint_analysis t = Some r -> index_in_range r.
Proof.
  unfold _try_eslint_analysis, _parse_eslint_complexity.
  destruct (eslint_scores t) as [[|s l]|]; try discriminate.
  intros [= <-]. exact I.
Qed.

Lemma analyzers_index (name : string) (analyze : analyzer) :
  (name, analyze) ∈ complexity_analyzers ->
  forall t repo r, analyze t repo = Some r -> index_in_range r.
Proof.
  unfold complexity_analyzers. intros Hin t repo r.
  repeat (apply elem_of_cons in Hin as [[= -> ->]|Hin]);
    try (now apply elem_of_nil in Hin);
    try (intros [= <-]; apply regex_analysis_index).
  - unfold analyze_python_complexity.
    destruct (radon_installed t); [|discriminate].
    intros [= <-]. unfold index_in_range. simpl. split; discriminate.
  - unfold analyze_javascript_complexity.
    destruct (_try_eslint_analysis t) eqn:E; intros [= <-].
    + eapply eslint_index; eassumption.
    + apply regex_analysis_index.
  - unfold analyze_typescript_complexity, analyze_javascript_complexity.
    destruct (_try_eslint_analysis t) eqn:E; intros [= <-].
    + eapply eslint_index; eassumption.
    + apply regex_analysis_index.
Qed.

Lemma run_analyzer_index t repo language r :
  run_analyzer t repo language = Some r -> index_in_range r.
Proof.
  unfold run_analyzer.
  destruct (list_to_map complexity_analyzers !! language) as [analyze|] eqn:E.
  - apply elem_of_list_to_map_2 in E.
    eapply analyzers_index; eassumption.
  - intros [= <-]. apply regex_analysis_index.
Qed.

End IndexFacts.

Section AnalyzerResults.
Import Re MultiLanguageAnalyzer IndexFacts.

(** X19: whatever the language and the tier that answers, the
    maintainability index of the language analysis lies in [0,100]. *)
Theorem language_maintainability_in_range (t : tools)
    (repo : list source_file) (language : string) :
  (0 <= maintainability_index (analyze_complexity_for_language t repo language)
   <= 100)%Q.
Proof.
  unfold analyze_complexity_for_language.
  destruct (run_analyzer t repo language) as [r|] eqn:E;
    [|simpl; split; discriminate].
  apply run_analyzer_index in E. unfold index_in_range in E. simpl.
  destruct (r_maintainability_index r); [exact E|simpl; split; discriminate].
Qed.

(** X20: a language without an analyzer of its own is analyzed with the
    generic keyword table over the files ending in [.txt] only; when the
    tree holds no such file the analysis finds no function. *)
Theorem unlisted_language_reads_txt_files (t : tools)
    (repo : list source_file) (language : string) :
  language ∉ analyzer_languages ->
  analyze_complexity_for_language t repo language
  = _standardize_result
      (regex_analysis (_get_files_by_extension repo [".txt"])
         [Word "if"; Word "else"; Word "while"; Word "for"]
         [seqs [Plus w; Star ws; Chr "("]]
         _calculate_universal_maintainability
         ("Universal " ++ language ++ " analysis")) language /\
  ((forall f, f ∈ repo -> Py.endswith (file_path f) ".txt" = false) ->
   total_functions (analyze_complexity_for_language t repo language) = 0).
Proof.
  intros Hnot.
  assert (LANGUAGE_CONFIG !! language = None) as Hc.
  { apply not_elem_of_list_to_map_1. intros Hin. apply Hnot.
    unfold analyzer_languages, complexity_analyzers. simpl in *. set_solver. }
  assert (analyze_complexity_for_language t repo language
          = _standardize_result
              (regex_analysis (_get_files_by_extension repo [".txt"])
                 [Word "if"; Word "else"; Word "while"; Word "for"]
                 [seqs [Plus w; Star ws; Chr "("]]
                 _calculate_universal_maintainability
                 ("Universal " ++ language ++ " analysis")) language) as E.
  { unfold analyze_complexity_for_language, run_analyzer.
    destruct (list_to_map complexity_analyzers !! language) as [analyze|] eqn:Ha.
    - exfalso. apply Hnot. apply elem_of_list_to_map_2 in Ha.
      unfold analyzer_languages. apply list_elem_of_fmap.
      exists (language, analyze). split; [reflexivity|exact Ha].
    - unfold analyze_universal_complexity. rewrite Hc. reflexivity. }
  split; [exact E|].
  intros Hno. rewrite E.
  assert (_get_files_by_extension repo [".txt"] = []) as ->.
  { unfold _get_files_by_extension. simpl. rewrite app_nil_r.
    assert (List.filter (fun f => Py.endswith (file_path f) ".txt") repo = [])
      as ->; [|reflexivity].
    clear E. induction repo as [|f repo IH]; [reflexivity|]. simpl.
    rewrite (Hno f) by (apply elem_of_cons; now left).
    apply IH. intros g Hg. apply Hno. apply elem_of_cons. now right. }
  reflexivity.
Qed.

Lemma unlisted_language_reads_txt_files_witness :
  total_functions
    (analyze_complexity_for_language no_tools
       [text_file "app/Main.kt" "fun main() { if (a) { b() } }"] "Kotlin") = 0.
Proof.
  destruct (unlisted_language_reads_txt_files no_tools
              [text_file "app/Main.kt" "fun main() { if (a) { b() } }"]
              "Kotlin") as (_ & H).
  - unfold analyzer_languages. simpl. set_solver.
  - apply H. intros f Hf. apply list_elem_of_singleton in Hf as ->. reflexivity.
Defined.

End AnalyzerResults.

Module IgnoreFacts.
Import MultiLanguageAnalyzer.

Lemma filter_ext_without_ignored (ext : string) (repo : list source_file) :
  List.filter (fun f => negb (_should_ignore_file (file_path f)))
    (List.filter (fun f => Py.endswith (file_path f) ext)
       (without_ignored repo))
  = List.filter (fun f => negb (_should_ignore_file (file_path f)))
      (List.filter (fun f => Py.endswith (file_path f) ext) repo).
Proof.
  unfold without_ignored.
  induction repo as [|f repo IH]; [reflexivity|]. cbn [List.filter].
  destruct (negb (_should_ignore_file (file_path f))) eqn:Ek;
    destruct (Py.endswith (file_path f) ext) eqn:Ee;
    cbn [List.filter]; rewrite ?Ek, ?Ee; cbn [List.filter]; rewrite ?Ek;
    first [exact IH | f_equal; exact IH].
Qed.

Lemma get_files_without_ignored (repo : list source_file)
    (extensions : list string) :
  _get_files_by_extension (without_ignored repo) extensions
  = _get_files_by_extension repo extensions.
Proof.
  unfold _get_files_by_extension.
  induction extensions as [|ext exts IH]; [reflexivity|].
  cbn [flat_map]. rewrite !List.filter_app, IH.
  now rewrite filter_ext_without_ignored.
Qed.

Lemma analyzers_without_ignored (name : string) (analyze : analyzer) :
  (name, analyze) ∈ complexity_analyzers ->
  forall t repo,
    eslint_scores t = None ->
    analyze t (without_ignored repo) = analyze t repo.
Proof.
  unfold complexity_analyzers. intros Hin t repo He.
  repeat (apply elem_of_cons in Hin as [[= -> ->]|Hin]);
    try (now apply elem_of_nil in Hin);
    unfold analyze_python_complexity, analyze_typescript_complexity,
      analyze_javascript_complexity, analyze_java_complexity,
      analyze_cpp_complexity, analyze_csharp_complexity, analyze_go_complexity,
      analyze_rust_complexity, analyze_php_complexity, analyze_ruby_complexity,
      analyze_javascript_regex_complexity, analyze_java_regex_complexity,
      analyze_cpp_regex_complexity, analyze_go_regex_complexity,
      analyze_rust_regex_complexity, _try_eslint_analysis;
    rewrite ?He; cbn [mbind option_bind];
    rewrite ?get_files_without_ignored; reflexivity.
Qed.

End IgnoreFacts.

Section Ignored.
Import MultiLanguageAnalyzer IgnoreFacts.

(** X21: a file whose path holds one of the ignored names never counts:
    for every language, and every tier that reads the files itself (radon,
    the regex tiers, the universal analyzer), the result of the language
    analysis is the result on the tree without those files. *)
Theorem ignored_files_never_counted (t : tools) (repo : list source_file)
    (language : string) :
  eslint_scores t = None ->
  analyze_complexity_for_language t (without_ignored repo) language
  = analyze_complexity_for_language t repo language.
Proof.
  intros He. unfold analyze_complexity_for_language, run_analyzer.
  destruct (list_to_map complexity_analyzers !! language) as [analyze|] eqn:E.
  - apply elem_of_list_to_map_2 in E.
    now rewrite (analyzers_without_ignored _ _ E t repo He).
  - unfold analyze_universal_complexity.
    now rewrite get_files_without_ignored.
Qed.

Lemma ignored_files_never_counted_witness :
  analyze_complexity_for_language no_tools
    [text_file "src/app.js" sample_js] "JavaScript"
  = analyze_complexity_for_language no_tools
      [text_file "src/app.js" sample_js;
       text_file "node_modules/lib/index.js" sample_js;
       text_file "src/distance.js" sample_js] "JavaScript".
Proof.
  apply (ignored_files_never_counted no_tools
           [text_file "src/app.js" sample_js;
            text_file "node_modules/lib/index.js" sample_js;
            text_file "src/distance.js" sample_js] "JavaScript").
  reflexivity.
Defined.

End Ignored.

Module ExtractFacts.
Import MultiLanguageAnalyzer.

Lemma extract_loop_prefix (s : string) :
  forall b inf n, String.prefix (extract_loop s b inf n) s = true.
Proof.
  induction s as [|c s IH]; intros b inf n; [reflexivity|].
  cbn [extract_loop].
  repeat match goal with
         | |- context [if ?x then _ else _] => destruct x
         end;
    cbn [String.prefix]; destruct (ascii_dec c c); try congruence;
    try apply IH; destruct s; reflexivity.
Qed.

Lemma extract_loop_empty (s : string) b inf n :
  extract_loop s b inf n = EmptyString -> s = EmptyString.
Proof.
  destruct s as [|c s]; [reflexivity|]. cbn [extract_loop].
  repeat match goal with
         | |- context [if ?x then _ else _] => destruct x
         end; discriminate.
Qed.

Lemma last_char_cons (c : ascii) (s : string) :
  s <> EmptyString -> last_char (String c s) = last_char s.
Proof. destruct s; [congruence|reflexivity]. Qed.

Lemma extract_loop_stops (s : string) :
  forall b inf n,
    extract_loop s b inf n <> s ->
    last_char (extract_loop s b inf n) = Some "}"%char
    \/ (last_char (extract_loop s b inf n) = Some Py.newline
        /\ (200 < n + String.length (extract_loop s b inf n))%nat).
Proof.
  induction s as [|c s IH]; intros b inf n; [cbn; congruence|].
  cbn [extract_loop].
  assert (forall b' inf',
            String c (extract_loop s b' inf' (S n)) <> String c s ->
            last_char (String c (extract_loop s b' inf' (S n))) = Some "}"%char
            \/ (last_char (String c (extract_loop s b' inf' (S n)))
                = Some Py.newline
                /\ (200 < n + String.length
                              (String c (extract_loop s b' inf' (S n))))%nat))
    as Hrec.
  { intros b' inf' Hne.
    assert (extract_loop s b' inf' (S n) <> s) as Hne' by congruence.
    assert (extract_loop s b' inf' (S n) <> EmptyString) as Hnz.
    { intros Hz. apply Hne'. rewrite Hz. symmetry.
      eapply extract_loop_empty. exact Hz. }
    rewrite (last_char_cons c _ Hnz). cbn [String.length].
    destruct (IH b' inf' (S n) Hne') as [H|[H1 H2]]; [now left|].
    right. split; [exact H1|lia]. }
  destruct (Ascii.eqb c "{") eqn:E1; [apply Hrec|].
  destruct (Ascii.eqb c "}" && inf) eqn:E2.
  - apply andb_true_iff in E2 as [E2 _]. apply Ascii.eqb_eq in E2 as ->.
    destruct (b - 1 =? 0); [intros _; now left|apply Hrec].
  - destruct (negb inf && (Ascii.eqb c Py.newline && (200 <? S n)%nat)) eqn:E3;
      [|apply Hrec].
    apply andb_true_iff in E3 as [_ E3]. apply andb_true_iff in E3 as [E3 E4].
    apply Ascii.eqb_eq in E3 as ->. apply Nat.ltb_lt in E4.
    intros _. right. split; [reflexivity|]. cbn [String.length]. lia.
Qed.

Lemma contains_brace_cons (c : ascii) (s : string) :
  Py.contains "{" (String c s) = false ->
  Ascii.eqb c "{" = false /\ Py.contains "{" s = false.
Proof.
  cbn [Py.contains String.prefix].
  destruct (ascii_dec "{" c) as [<-|Hne].
  - destruct s; discriminate.
  - intros H. apply orb_false_iff in H as [_ H]. split; [|exact H].
    apply Ascii.eqb_neq. congruence.
Qed.

Lemma extract_loop_whole (s : string) :
  forall b n,
    Py.contains "{" s = false -> (n + String.length s <= 200)%nat ->
    extract_loop s b false n = s.
Proof.
  induction s as [|c s IH]; intros b n Hc Hn; [reflexivity|].
  apply contains_brace_cons in Hc as [Hb Hc]. cbn [String.length] in Hn.
  cbn [extract_loop]. rewrite Hb, andb_false_r.
  assert ((200 <? S n)%nat = false) as -> by (apply Nat.ltb_ge; lia).
  rewrite andb_false_r. cbn [negb andb]. f_equal. apply IH; [exact Hc|lia].
Qed.

End ExtractFacts.

Section Extract.
Import MultiLanguageAnalyzer ExtractFacts.

(** X22: the text taken for a function starts where its match starts and is
    a prefix of the rest of the file.  When it stops before the end of the
    file it ends with a closing brace, or with a newline after more than 200
    characters; a rest of at most 200 characters without an opening brace is
    taken whole, whatever follows the function in it. *)
Theorem extract_function_content_prefix (content : string) (start_pos : nat) :
  let rest :=
    String.substring start_pos (String.length content - start_pos) content in
  let func_content := _extract_function_content content start_pos in
  String.prefix func_content rest = true /\
  (func_content <> rest ->
   last_char func_content = Some "}"%char
   \/ (last_char func_content = Some Py.newline
       /\ (200 < String.length func_content)%nat)) /\
  (Py.contains "{" rest = false -> (String.length rest <= 200)%nat ->
   func_content = rest).
Proof.
  unfold _extract_function_content. cbv zeta.
  split; [apply extract_loop_prefix|]. split.
  - intros H. apply extract_loop_stops in H. exact H.
  - intros Hc Hn. apply extract_loop_whole; [exact Hc|lia].
Qed.

Lemma extract_function_content_prefix_witness :
  _extract_function_content
    ("def f(x):" ++ lf ++ "    return x" ++ lf ++ "def g(y):" ++ lf
     ++ "    return y" ++ lf)%string 0
  = ("def f(x):" ++ lf ++ "    return x" ++ lf ++ "def g(y):" ++ lf
     ++ "    return y" ++ lf)%string.
Proof.
  destruct (extract_function_content_prefix
              ("def f(x):" ++ lf ++ "    return x" ++ lf ++ "def g(y):" ++ lf
               ++ "    return y" ++ lf)%string 0) as (_ & _ & H).
  apply H; [reflexivity|]. vm_compute. lia.
Defined.

End Extract.

(** * Further properties: the stored rows and their advice *)

Module RowFacts.
Import CodeScanner.

Lemma analyze_files_elem hash c found a :
  a ∈ _analyze_files hash c found ->
  fa_priority_score a = _calculate_file_priority_score (fa_metrics a)
  /\ fa_improvement_priority a = _get_priority_level (fa_priority_score a).
Proof.
  unfold _analyze_files. intros Ha.
  apply elem_of_take_list, sorted_by_desc_elem in Ha.
  apply list_elem_of_omap in Ha as (f & _ & Hfa).
  unfold analyze_file in Hfa. destruct (file_text f); [|discriminate].
  injection Hfa as <-. split; reflexivity.
Qed.

Lemma analyze_functions_elem c found a :
  a ∈ _analyze_functions c found ->
  needs_attention a = true
  /\ needs_refactoring a
     = (10 <? fna_complexity_score a) || (50 <? fna_lines_of_code a).
Proof.
  unfold _analyze_functions. intros Ha.
  apply elem_of_take_list, sorted_by_desc_elem in Ha.
  apply list_elem_of_In, in_flat_map in Ha as (f & _ & Ha).
  unfold functions_of_file in Ha.
  destruct (file_text f); [|destruct Ha].
  destruct (file_ast f) as [nodes|]; [|destruct Ha].
  destruct (file_cc f) as [data|]; [|destruct Ha].
  apply filter_In in Ha as [Ha Hatt]. split; [exact Hatt|].
  apply in_map_iff in Ha as (node & <- & _).
  unfold analyze_function. simpl. zcases; try reflexivity; lia.
Qed.

End RowFacts.

Section Rows.
Import CodeScanner RowFacts.

(** X23: a file stored with priority High or Critical always comes with
    at least one recommendation: a stored file without any recommendation
    has a priority score of at most 40, so its priority is Low or Medium. *)
Theorem urgent_files_have_recommendations (hash : string -> Z) (c : cache)
    (found : list source_file) :
  Forall
    (fun row =>
       (Models.FileAnalysis._generate_recommendations row = [] ->
        (Models.FileAnalysis.priority_score row <= 40)%Q
        /\ (Models.FileAnalysis.improvement_priority row = Low
            \/ Models.FileAnalysis.improvement_priority row = Medium))
       /\ (Models.FileAnalysis.improvement_priority row = High
           \/ Models.FileAnalysis.improvement_priority row = Critical ->
           Models.FileAnalysis._generate_recommendations row <> []))
    (App.file_rows (_analyze_files hash c found)).
Proof.
  unfold App.file_rows. apply Forall_forall. intros row Hrow.
  apply list_elem_of_In, in_map_iff in Hrow as (a & <- & Ha).
  apply list_elem_of_In, analyze_files_elem in Ha as [Hs Hp].
  assert (Models.FileAnalysis._generate_recommendations (App.file_row a) = [] ->
          fa_priority_score a <= 40) as Hscore.
  { rewrite Hs.
    unfold Models.FileAnalysis._generate_recommendations,
      _calculate_file_priority_score, App.file_row. cbn.
    qcases; zcases; cbn; intros Hnil; try discriminate Hnil; try lia;
      exfalso; lra. }
  split.
  - intros Hnil. apply Hscore in Hnil. split.
    + cbn. change 40%Q with (inject_Z 40). now rewrite <- Zle_Qle.
    + cbn. rewrite Hp. unfold _get_priority_level. zcases; auto; lia.
  - intros Hurgent Hnil. apply Hscore in Hnil. cbn in Hurgent.
    rewrite Hp in Hurgent. unfold _get_priority_level in Hurgent.
    revert Hurgent. zcases; intros [Hu|Hu]; try discriminate Hu; lia.
Qed.

(** X24: a stored function gets no improvement suggestion exactly when it
    is documented, takes at most 5 parameters, has a complexity of at most 10
    and at most 50 lines; such a function was stored for a complexity of 9 or
    10 or for a length between 31 and 50 lines. *)
Theorem stored_functions_without_suggestions (hash : string -> Z) (c : cache)
    (found : list source_file) :
  Forall
    (fun row =>
       (Models.FunctionAnalysis._generate_improvement_suggestions row = [] <->
        Models.FunctionAnalysis.has_documentation row = true
        /\ Models.FunctionAnalysis.parameter_count row <= 5
        /\ (Models.FunctionAnalysis.complexity_score row <= 10)%Q
        /\ Models.FunctionAnalysis.lines_of_code row <= 50)
       /\ (Models.FunctionAnalysis._generate_improvement_suggestions row = [] ->
           (8 < Models.FunctionAnalysis.complexity_score row)%Q
           \/ 30 < Models.FunctionAnalysis.lines_of_code row))
    (App.function_rows (_analyze_files hash c found) (_analyze_functions c found)).
Proof.
  unfold App.function_rows. apply Forall_forall. intros row Hrow.
  apply list_elem_of_In, in_map_iff in Hrow as (a & <- & Ha).
  apply filter_In in Ha as [Ha _].
  apply list_elem_of_In, analyze_functions_elem in Ha as [Hatt Href].
  unfold needs_attention in Hatt. rewrite Href in Hatt.
  unfold Models.FunctionAnalysis._generate_improvement_suggestions.
  cbn. rewrite Href.
  change 10%Q with (inject_Z 10). change 8%Q with (inject_Z 8).
  rewrite <- Zle_Qle, <- Zlt_Qlt.
  unfold Qgtb, Qltb. change 15%Q with (inject_Z 15).
  destruct (Qcompare_spec (inject_Z 15) (inject_Z (fna_complexity_score a)))
    as [Hc|Hc|Hc];
    [apply inject_Z_injective in Hc
    |rewrite <- Zlt_Qlt in Hc|rewrite <- Zlt_Qlt in Hc];
    revert Hatt; destruct (has_documentation a); zcases; cbn;
    intros Hatt; (split; [split|]); intros Hs;
    try discriminate Hs; try discriminate Hatt; try reflexivity;
    try (destruct Hs as (Hs1 & Hs2 & Hs3 & Hs4)); try discriminate Hs1;
    try lia; repeat split; try lia.
Qed.

End Rows.

(** * Further properties: the languages of a tree *)

Module LanguageFacts.
Import CodeScanner.

Lemma counter_add_count (key : string) (n : Z) (counter : list (string * Z))
    (k : string) :
  count_of (counter_add key n counter) k
  = count_of counter k + (if String.eqb key k then n else 0).
Proof.
  induction counter as [|[k' v] rest IH]; simpl.
  - destruct (String.eqb key k); lia.
  - destruct (String.eqb k' key) eqn:E; simpl.
    + apply String.eqb_eq in E as ->.
      destruct (String.eqb key k); lia.
    + destruct (String.eqb k' k) eqn:E'; [|exact IH].
      apply String.eqb_eq in E' as ->.
      rewrite String.eqb_sym, E. lia.
Qed.

Lemma counter_add_keys (key : string) (n : Z) (counter : list (string * Z))
    (k : string) :
  k ∈ (counter_add key n counter).*1 <-> k = key \/ k ∈ counter.*1.
Proof.
  induction counter as [|[k' v] rest IH]; simpl.
  - rewrite list_elem_of_singleton. set_solver.
  - destruct (String.eqb k' key) eqn:E; simpl.
    + apply String.eqb_eq in E as ->. set_solver.
    + rewrite !elem_of_cons, IH. tauto.
Qed.

Lemma counter_add_NoDup (key : string) (n : Z) (counter : list (string * Z)) :
  NoDup counter.*1 -> NoDup (counter_add key n counter).*1.
Proof.
  induction counter as [|[k' v] rest IH]; simpl; intros H.
  - apply NoDup_singleton.
  - apply NoDup_cons in H as [Hk Hrest].
    destruct (String.eqb k' key) eqn:E; simpl.
    + apply NoDup_cons. split; assumption.
    + apply NoDup_cons. split; [|now apply IH].
      rewrite counter_add_keys. intros [->|Hin]; [|contradiction].
      rewrite String.eqb_refl in E. discriminate.
Qed.

Lemma counter_add_nonneg (key : string) (n : Z) (counter : list (string * Z)) :
  0 <= n -> Forall (fun e => 0 <= e.2) counter ->
  Forall (fun e => 0 <= e.2) (counter_add key n counter).
Proof.
  intros Hn. induction 1 as [|[k' v] rest Hv Hrest IH]; simpl.
  - repeat constructor. exact Hn.
  - destruct (String.eqb k' key); constructor; simpl in *;
      try lia; assumption.
Qed.

Lemma count_of_elem (counter : list (string * Z)) (k : string) (v : Z) :
  NoDup counter.*1 -> (k, v) ∈ counter -> count_of counter k = v.
Proof.
  induction counter as [|[k' v'] rest IH]; simpl; intros Hnd Hin.
  - now apply elem_of_nil in Hin.
  - apply NoDup_cons in Hnd as [Hk Hrest].
    apply elem_of_cons in Hin as [[= -> ->]|Hin].
    + now rewrite String.eqb_refl.
    + destruct (String.eqb k' k) eqn:E; [|now apply IH].
      apply String.eqb_eq in E as ->. exfalso. apply Hk.
      apply list_elem_of_fmap. exists (k, v). split; [reflexivity|exact Hin].
Qed.

Lemma count_of_cases (counter : list (string * Z)) (k : string) :
  count_of counter k = 0 \/ (k, count_of counter k) ∈ counter.
Proof.
  induction counter as [|[k' v'] rest IH]; simpl; [now left|].
  destruct (String.eqb k' k) eqn:E.
  - apply String.eqb_eq in E as ->. right. apply elem_of_cons. now left.
  - destruct IH as [IH|IH]; [now left|right].
    apply elem_of_cons. now right.
Qed.

Lemma most_common_spec (counter : list (string * Z)) :
  counter <> [] ->
  exists best, most_common counter = Some best /\ best ∈ counter
               /\ Forall (fun e => e.2 <= best.2) counter.
Proof.
  induction counter as [|entry rest IH]; [congruence|]. intros _. simpl.
  destruct rest as [|e2 rest'].
  - exists entry. simpl. repeat split; [apply elem_of_cons; now left|].
    repeat constructor. lia.
  - destruct IH as (best & -> & Hin & Hall); [discriminate|].
    destruct (entry.2 <? best.2) eqn:E.
    + apply Z.ltb_lt in E. exists best. repeat split.
      * apply elem_of_cons. now right.
      * constructor; [lia|exact Hall].
    + apply Z.ltb_ge in E. exists entry. repeat split.
      * apply elem_of_cons. now left.
      * constructor; [lia|]. eapply Forall_impl; [exact Hall|].
        simpl. intros e He. lia.
Qed.

Lemma sum_values_ge (counter : list (string * Z)) (e : string * Z) :
  Forall (fun e => 0 <= e.2) counter -> e ∈ counter ->
  e.2 <= sum_Z (List.map snd counter).
Proof.
  induction 1 as [|e' rest He' Hrest IH]; intros Hin.
  - now apply elem_of_nil in Hin.
  - simpl. rewrite sum_Z_cons.
    assert (0 <= sum_Z (List.map snd rest)) as Hs.
    { apply DebtBoundsFacts.sum_Z_nonneg, Forall_forall. intros y Hy.
      apply list_elem_of_In, in_map_iff in Hy as (x & <- & Hx).
      rewrite Forall_forall in Hrest. apply Hrest, list_elem_of_In, Hx. }
    apply elem_of_cons in Hin as [->|Hin]; [lia|].
    specialize (IH Hin). lia.
Qed.

Lemma sum_values_zero (counter : list (string * Z)) :
  Forall (fun e => e.2 = 0) counter -> sum_Z (List.map snd counter) = 0.
Proof.
  induction 1 as [|e rest He _ IH]; [reflexivity|].
  simpl. rewrite sum_Z_cons. lia.
Qed.

(** No extension of the language map is an excluded one. *)
Lemma language_map_not_excluded (ext language : string) :
  language_map !! ext = Some language -> mem ext exclude_extensions = false.
Proof.
  intros H. apply elem_of_list_to_map_2 in H.
  repeat (apply elem_of_cons in H as [[= -> ->]|H]; [reflexivity|]).
  now apply elem_of_nil in H.
Qed.

Lemma language_map_source (ext language : string) :
  language_map !! ext = Some language -> mem ext source_extensions = true.
Proof.
  intros H. apply elem_of_list_to_map_2 in H.
  repeat (apply elem_of_cons in H as [[= -> ->]|H]; [reflexivity|]).
  now apply elem_of_nil in H.
Qed.

Lemma nonblank_lines_nonneg (f : source_file) : 0 <= nonblank_lines f.
Proof. unfold nonblank_lines. destruct (file_text f); [apply len_nonneg|lia]. Qed.

(** One step of the loop, by the language of the file. *)
Lemma language_file_step (st : language_state) (f : source_file) :
  match language_of f with
  | Some language =>
      language_file st f
      = {| language_lines :=
             counter_add language (nonblank_lines f) (language_lines st);
           total_files := total_files st + 1;
           walked_source_files := walked_source_files st ++ [f] |}
  | None => language_file st f = st
  end.
Proof.
  unfold language_of, language_file, nonblank_lines.
  destruct (file_text f) as [t|].
  - destruct (language_map !! Py.lower (Py.splitext_ext (file_path f)))
      as [language|] eqn:E; [|reflexivity].
    rewrite (language_map_not_excluded _ _ E). reflexivity.
  - destruct (language_map !! Py.lower (Py.splitext_ext (file_path f)))
      as [language|]; [|reflexivity].
    destruct (negb _); reflexivity.
Qed.

Lemma language_run (files : list source_file) :
  forall st,
    NoDup (language_lines st).*1 ->
    Forall (fun e => 0 <= e.2) (language_lines st) ->
    let st' := fold_left language_file files st in
    NoDup (language_lines st').*1
    /\ Forall (fun e => 0 <= e.2) (language_lines st')
    /\ (forall k, count_of (language_lines st') k
                  = count_of (language_lines st) k
                    + sum_Z (List.map nonblank_lines (files_of_language files k)))
    /\ total_files st'
       = total_files st
         + len (List.filter (fun f => bool_decide (is_Some (language_of f))) files)
    /\ walked_source_files st'
       = walked_source_files st
         ++ List.filter (fun f => bool_decide (is_Some (language_of f))) files.
Proof.
  induction files as [|f files IH]; intros st Hnd Hpos; cbn zeta.
  - simpl. repeat split; try assumption.
    + intros k. unfold sum_Z. simpl. lia.
    + rewrite len_nil. lia.
    + now rewrite app_nil_r.
  - simpl fold_left. pose proof (language_file_step st f) as Hstep.
    destruct (language_of f) as [language|] eqn:E.
    + specialize (IH (language_file st f)). rewrite Hstep in IH |- *.
      simpl in IH. destruct IH as (H1 & H2 & H3 & H4 & H5).
      * now apply counter_add_NoDup.
      * apply counter_add_nonneg; [apply nonblank_lines_nonneg|exact Hpos].
      * repeat split; try assumption.
        -- intros k. rewrite H3, counter_add_count.
           unfold files_of_language. simpl. rewrite E.
           destruct (String.eqb language k) eqn:Ek.
           ++ apply String.eqb_eq in Ek as ->.
              rewrite bool_decide_eq_true_2 by reflexivity.
              simpl. rewrite sum_Z_cons. lia.
           ++ rewrite bool_decide_eq_false_2.
              ** lia.
              ** intros [= ->]. rewrite String.eqb_refl in Ek. discriminate.
        -- rewrite H4. simpl. rewrite E.
           rewrite bool_decide_eq_true_2 by eauto. rewrite len_cons. lia.
        -- rewrite H5. simpl. rewrite E.
           rewrite bool_decide_eq_true_2 by eauto. now rewrite <- app_assoc.
    + rewrite Hstep. specialize (IH st Hnd Hpos). simpl in IH.
      destruct IH as (H1 & H2 & H3 & H4 & H5).
      repeat split; try assumption.
      * intros k. rewrite H3. unfold files_of_language. simpl. rewrite E.
        rewrite bool_decide_eq_false_2 by discriminate. reflexivity.
      * rewrite H4. simpl. rewrite E.
        rewrite bool_decide_eq_false_2 by (intros [? ?]; discriminate).
        reflexivity.
      * rewrite H5. simpl. rewrite E.
        rewrite bool_decide_eq_false_2 by (intros [? ?]; discriminate).
        reflexivity.
Qed.

End LanguageFacts.

Section Languages.
Import CodeScanner LanguageFacts.

(** X25: when the files the walk meets hold no non-blank line in any
    language, the primary language is Unknown, no file is reported as
    analyzed and no list of source files is handed on.  Otherwise the primary
    language holds at least as many non-blank lines as any other language
    (and at least one), and the distribution lists for each language its
    non-blank lines with a percentage between 0 and 100. *)
Theorem primary_language_has_most_lines (tree : list source_file) :
  let r := _analyze_language_distribution tree in
  ((forall language, lines_of_language tree language = 0) ->
   primary_language r = "Unknown" /\ files_analyzed r = 0
   /\ source_files r = None) /\
  (forall language,
     lines_of_language tree language <> 0 ->
     0 < lines_of_language tree (primary_language r)
     /\ (forall other,
           lines_of_language tree other
           <= lines_of_language tree (primary_language r))
     /\ Forall (fun e => e.2.1 = lines_of_language tree e.1
                         /\ (0 <= e.2.2 <= 100)%Q)
          (language_distribution r)).
Proof.
  unfold _analyze_language_distribution.
  destruct (language_run (walk language_skipped tree) initial_language_state)
    as (Hnd & Hpos & Hcount & _ & _); [apply NoDup_nil_2|constructor|].
  set (st := fold_left language_file (walk language_skipped tree)
               initial_language_state) in *.
  assert (forall k, count_of (language_lines st) k = lines_of_language tree k)
    as Hlines.
  { intros k. rewrite Hcount. simpl. unfold lines_of_language. lia. }
  assert (forall e, e ∈ language_lines st -> e.2 = lines_of_language tree e.1)
    as Hentry.
  { intros [k v] He. simpl. rewrite <- Hlines. symmetry.
    now apply count_of_elem. }
  cbv zeta. split.
  - intros Hzero.
    assert (sum_Z (List.map snd (language_lines st)) = 0) as ->.
    { apply sum_values_zero, Forall_forall. intros e He.
      rewrite (Hentry e He). apply Hzero. }
    repeat split.
  - intros language Hlang.
    assert ((language, lines_of_language tree language) ∈ language_lines st)
      as Hin.
    { rewrite <- Hlines in Hlang |- *.
      destruct (count_of_cases (language_lines st) language); [lia|assumption]. }
    pose proof (sum_values_ge _ _ Hpos Hin) as Hsum. simpl in Hsum.
    assert (0 <= lines_of_language tree language) as Hnn.
    { rewrite Forall_forall in Hpos. apply (Hpos _ Hin). }
    destruct (sum_Z (List.map snd (language_lines st)) =? 0) eqn:Et;
      [apply Z.eqb_eq in Et; lia|]. clear Et.
    destruct (most_common_spec (language_lines st)) as (best & -> & Hb & Hall).
    { intros Hnil. rewrite Hnil in Hin. now apply elem_of_nil in Hin. }
    cbn [primary_language language_distribution].
    rewrite Forall_forall in Hall.
    pose proof (Hentry best Hb) as Hbest.
    pose proof (Hall _ Hin) as Hle. simpl in Hle.
    repeat apply conj.
    + lia.
    + intros other. rewrite <- Hbest, <- (Hlines other).
      destruct (count_of_cases (language_lines st) other) as [->|Ho]; [lia|].
      apply (Hall _ Ho).
    + apply Forall_forall. intros e He.
      apply list_elem_of_In, in_map_iff in He as (e0 & <- & He0).
      apply list_elem_of_In in He0. cbn [fst snd]. split; [now apply Hentry|].
      apply round1_range.
      pose proof (sum_values_ge _ _ Hpos He0) as H1.
      assert (0 <= e0.2) as H0.
      { rewrite Forall_forall in Hpos. apply (Hpos _ He0). }
      pose proof (percentage_range e0.2
                    (sum_Z (List.map snd (language_lines st)))
                    (conj H0 H1)) as Hp.
      rewrite Z.max_l in Hp by lia. exact Hp.
Qed.

Lemma primary_language_has_most_lines_witness :
  lines_of_language mixed_tree "C/C++"
  <= lines_of_language mixed_tree
       (primary_language (_analyze_language_distribution mixed_tree)).
Proof.
  destruct (primary_language_has_most_lines mixed_tree) as (_ & H).
  destruct (H "Python") as (_ & Hmax & _); [vm_compute; discriminate|].
  exact (Hmax "C/C++").
Defined.

(** X26: the source files that the language step hands on to the later
    stages are, in the same order, files that [_find_source_files] lists; so
    every stage reads only files of that list, whether it uses the cache or
    falls back on the search. *)
Theorem language_files_are_source_files (tree : list source_file) :
  (forall files,
     source_files (_analyze_language_distribution tree) = Some files ->
     sublist files (_find_source_files tree)) /\
  sublist (source_files_of (language_cache tree) (_find_source_files tree))
    (_find_source_files tree).
Proof.
  assert (forall files,
            source_files (_analyze_language_distribution tree) = Some files ->
            sublist files (_find_source_files tree)) as Hsub.
  { unfold _analyze_language_distribution.
    destruct (language_run (walk language_skipped tree) initial_language_state)
      as (_ & _ & _ & _ & Hwalked); [apply NoDup_nil_2|constructor|].
    intros files. destruct (_ =? 0); [discriminate|].
    cbn [source_files]. intros [= <-]. rewrite Hwalked. simpl.
    unfold _find_source_files, walk. clear Hwalked.
    induction tree as [|f tree IH]; [constructor|]. cbn [List.filter].
    destruct (forallb (keeps_directory language_skipped)
                (directories_of (file_path f))) eqn:Ek.
    - assert (forallb (keeps_directory source_skipped)
                (directories_of (file_path f)) = true) as ->.
      { rewrite forallb_forall in Ek |- *. intros d Hd.
        specialize (Ek d Hd). unfold keeps_directory in *.
        apply andb_true_iff in Ek as [E1 E2]. rewrite E1. simpl.
        apply negb_true_iff in E2. apply negb_true_iff.
        unfold mem, language_skipped, source_skipped in *. simpl in *.
        repeat (apply orb_false_iff in E2 as [? E2]).
        repeat (apply orb_false_iff; split; [assumption|]). reflexivity. }
      cbn [List.filter].
      destruct (bool_decide (is_Some (language_of f))) eqn:El.
      + apply bool_decide_eq_true_1 in El as [language El].
        unfold language_of in El. destruct (file_text f); [|discriminate].
        rewrite (language_map_source _ _ El). now constructor.
      + destruct (mem _ source_extensions); [constructor|]; exact IH.
    - destruct (forallb (keeps_directory source_skipped)
                  (directories_of (file_path f))); cbn [List.filter];
        [|exact IH].
      destruct (mem _ source_extensions); [constructor|]; exact IH. }
  split; [exact Hsub|].
  unfold source_files_of, language_cache. cbn [_cached_source_files].
  destruct (source_files (_analyze_language_distribution tree)) as [files|] eqn:E;
    simpl; [|reflexivity].
  destruct files as [|f files]; [reflexivity|]. now apply Hsub.
Qed.

End Languages.

(** * Further properties: the address of the repository *)

Module UrlFacts.

Lemma prefix_empty (s : string) : String.prefix EmptyString s = true.
Proof. destruct s; reflexivity. Qed.

Lemma append_assoc (a b c : string) :
  ((a ++ b) ++ c)%string = (a ++ (b ++ c))%string.
Proof.
  induction a as [|x a IH]; [reflexivity|].
  change (String x ((a ++ b) ++ c) = String x (a ++ (b ++ c))).
  now rewrite IH.
Qed.

Lemma contains_char_cons (ch c : ascii) (s : string) :
  Py.contains (String ch EmptyString) (String c s) = false <->
  Ascii.eqb c ch = false /\ Py.contains (String ch EmptyString) s = false.
Proof.
  cbn [Py.contains String.prefix].
  destruct (ascii_dec ch c) as [<-|Hne].
  - rewrite prefix_empty, Ascii.eqb_refl. simpl. split; [|intros [? _]]; discriminate.
  - simpl. assert (Ascii.eqb c ch = false) as ->
      by (apply Ascii.eqb_neq; congruence).
    tauto.
Qed.

Lemma contains_cons (sub : string) (c : ascii) (s : string) :
  Py.contains sub (String c s) = false ->
  String.prefix sub (String c s) = false /\ Py.contains sub s = false.
Proof. cbn [Py.contains]. intros H. now apply orb_false_iff in H. Qed.

Lemma rstrip_chars_free (s : string) :
  Py.contains "/" s = false -> Py.rstrip_chars s "/" = s.
Proof.
  induction s as [|c s IH]; [reflexivity|]. intros H.
  apply contains_char_cons in H as [Hc Hs]. cbn [Py.rstrip_chars].
  rewrite (IH Hs). cbn. rewrite Hc. reflexivity.
Qed.

Lemma rstrip_chars_app (a b : string) :
  b <> EmptyString -> Py.contains "/" b = false ->
  Py.rstrip_chars (a ++ b) "/" = (a ++ b)%string.
Proof.
  intros Hb Hfree. induction a as [|c a IH]; [now apply rstrip_chars_free|].
  change (String c a ++ b)%string with (String c (a ++ b)).
  cbn [Py.rstrip_chars]. rewrite IH.
  destruct (a ++ b)%string eqn:E.
  - exfalso. destruct a as [|c' a'].
    + apply Hb. exact E.
    + change (String c' (a' ++ b) = EmptyString) in E. discriminate E.
  - cbn [String.eqb]. now rewrite andb_false_r.
Qed.

Lemma rstrip_chars_slash (s : string) :
  Py.rstrip_chars (s ++ "/") "/" = Py.rstrip_chars s "/".
Proof.
  induction s as [|c s IH]; [reflexivity|].
  change (String c s ++ "/")%string with (String c (s ++ "/")).
  cbn [Py.rstrip_chars]. now rewrite IH.
Qed.

Lemma replace_git_free (s : string) :
  Py.contains ".git" s = false -> Py.replace_from ".git" "" s 0 = s.
Proof.
  induction s as [|c s IH]; [reflexivity|]. intros H.
  apply contains_cons in H as [Hp Hs]. cbn [Py.replace_from].
  rewrite Hp, (IH Hs). reflexivity.
Qed.

Lemma prefix_git_app (s : string) :
  s <> EmptyString -> String.prefix ".git" s = false ->
  String.prefix ".git" (s ++ ".git") = false.
Proof.
  intros Hs.
  destruct s as [|c1 [|c2 [|c3 [|c4 s]]]]; [congruence|..];
    cbv [String.append]; cbn [String.prefix];
    repeat match goal with
           | |- context [ascii_dec ?a ?b] => destruct (ascii_dec a b)
           end; try reflexivity; try discriminate; try congruence;
    rewrite prefix_empty; discriminate.
Qed.

Lemma replace_git_suffix (s : string) :
  Py.contains ".git" s = false ->
  Py.replace_from ".git" "" (s ++ ".git") 0 = s.
Proof.
  induction s as [|c s IH]; [reflexivity|]. intros H.
  apply contains_cons in H as [Hp Hs].
  change (String c s ++ ".git")%string with (String c (s ++ ".git")).
  cbn [Py.replace_from].
  change (String c (s ++ ".git")) with (String c s ++ ".git")%string.
  rewrite (prefix_git_app (String c s)) by (congruence || exact Hp).
  rewrite (IH Hs). reflexivity.
Qed.

Lemma replace_git_keeps_free (ch : ascii) (s : string) :
  forall skip,
    Py.contains (String ch EmptyString) s = false ->
    Py.contains (String ch EmptyString) (Py.replace_from ".git" "" s skip)
    = false.
Proof.
  induction s as [|c s IH]; intros skip H; [exact H|].
  apply contains_char_cons in H as [Hc Hs]. cbn [Py.replace_from].
  destruct skip as [|k]; [|now apply IH].
  destruct (String.prefix ".git" (String c s)).
  - change ("" ++ ?x)%string with x. now apply IH.
  - apply contains_char_cons. split; [exact Hc|now apply IH].
Qed.

Lemma split_nonempty (sep : ascii) (s : string) : Py.split sep s <> [].
Proof.
  destruct s as [|c s]; [discriminate|]. cbn [Py.split].
  destruct (Ascii.eqb c sep); [discriminate|].
  destruct (Py.split sep s); discriminate.
Qed.

Lemma split_free (sep : ascii) (s : string) :
  Py.contains (String sep EmptyString) s = false -> Py.split sep s = [s].
Proof.
  induction s as [|c s IH]; [reflexivity|]. intros H.
  apply contains_char_cons in H as [Hc Hs]. cbn [Py.split].
  rewrite Hc, (IH Hs). reflexivity.
Qed.

Lemma split_app (sep : ascii) (a b : string) :
  Py.split sep (a ++ String sep b) = Py.split sep a ++ Py.split sep b.
Proof.
  induction a as [|c a IH].
  - change ("" ++ String sep b)%string with (String sep b).
    cbn [Py.split]. now rewrite Ascii.eqb_refl.
  - change (String c a ++ String sep b)%string
      with (String c (a ++ String sep b)).
    cbn [Py.split]. rewrite IH.
    destruct (Ascii.eqb c sep); [reflexivity|].
    pose proof (split_nonempty sep a) as Hne.
    destruct (Py.split sep a); [congruence|reflexivity].
Qed.

Lemma parse_parts (l : list string) (owner repo : string) :
  (if 2 <=? len (l ++ [owner; repo]) then
     Some (nth (List.length (l ++ [owner; repo]) - 2) (l ++ [owner; repo])
             EmptyString,
           nth (List.length (l ++ [owner; repo]) - 1) (l ++ [owner; repo])
             EmptyString)
   else None) = Some (owner, repo).
Proof.
  assert ((2 <=? len (l ++ [owner; repo])) = true) as ->.
  { apply Z.leb_le. rewrite len_app. pose proof (len_nonneg l).
    unfold len at 2. simpl. lia. }
  rewrite length_app. simpl List.length.
  replace (List.length l + 2 - 2)%nat with (List.length l + 0)%nat by lia.
  replace (List.length l + 2 - 1)%nat with (List.length l + 1)%nat by lia.
  rewrite !app_nth2_plus. reflexivity.
Qed.

End UrlFacts.

Section Address.
Import CodeScanner UrlFacts.

(** X27: an address [base/owner/repo] whose owner and repository names
    hold no slash, whose repository name is not empty and which holds no
    [.git] is parsed into that owner and that repository name; so is the same
    address followed by [.git] or by a slash. *)
Theorem parse_github_url_round_trip (base owner repo : string) :
  Py.contains "/" owner = false ->
  Py.contains "/" repo = false ->
  repo <> EmptyString ->
  Py.contains ".git" (base ++ "/" ++ owner ++ "/" ++ repo) = false ->
  _parse_github_url (base ++ "/" ++ owner ++ "/" ++ repo) = Some (owner, repo)
  /\ _parse_github_url ((base ++ "/" ++ owner ++ "/" ++ repo) ++ ".git")
     = Some (owner, repo)
  /\ _parse_github_url ((base ++ "/" ++ owner ++ "/" ++ repo) ++ "/")
     = Some (owner, repo).
Proof.
  intros Ho Hr Hne Hgit.
  assert (Py.rstrip_chars (base ++ "/" ++ owner ++ "/" ++ repo) "/"
          = (base ++ "/" ++ owner ++ "/" ++ repo)%string) as Hstrip.
  { replace (base ++ "/" ++ owner ++ "/" ++ repo)%string
      with ((base ++ "/" ++ owner ++ "/") ++ repo)%string.
    - now apply rstrip_chars_app.
    - rewrite !append_assoc. reflexivity. }
  assert (Py.split "/" (base ++ "/" ++ owner ++ "/" ++ repo)
          = Py.split "/" base ++ [owner; repo]) as Hsplit.
  { change (base ++ "/" ++ owner ++ "/" ++ repo)%string
      with (base ++ String "/" (owner ++ String "/" repo))%string.
    rewrite !split_app, (split_free _ _ Ho), (split_free _ _ Hr). reflexivity. }
  assert (_parse_github_url (base ++ "/" ++ owner ++ "/" ++ repo)
          = Some (owner, repo)) as Hplain.
  { unfold _parse_github_url. rewrite Hstrip. unfold Py.replace.
    rewrite (replace_git_free _ Hgit), Hsplit. apply parse_parts. }
  split; [exact Hplain|]. split.
  - unfold _parse_github_url.
    rewrite rstrip_chars_app by (discriminate || reflexivity).
    unfold Py.replace. rewrite (replace_git_suffix _ Hgit), Hsplit.
    apply parse_parts.
  - unfold _parse_github_url in *. rewrite rstrip_chars_slash. exact Hplain.
Qed.

Lemma parse_github_url_round_trip_witness :
  _parse_github_url "https://github.com/lalitaditya04/CodeAnalysis.git"
  = Some ("lalitaditya04", "CodeAnalysis").
Proof.
  destruct (parse_github_url_round_trip "https://github.com" "lalitaditya04"
              "CodeAnalysis") as (_ & H & _);
    [reflexivity|reflexivity|discriminate|reflexivity|exact H].
Defined.

(** X28: an address without any slash is refused (the [ValueError]). *)
Theorem parse_github_url_without_slash (github_url : string) :
  Py.contains "/" github_url = false -> _parse_github_url github_url = None.
Proof.
  intros H. unfold _parse_github_url.
  rewrite (rstrip_chars_free _ H). unfold Py.replace.
  rewrite (split_free "/" _ (replace_git_keeps_free "/" _ 0 H)). reflexivity.
Qed.

Lemma parse_github_url_without_slash_witness :
  _parse_github_url "CodeAnalysis.git" = None.
Proof. apply parse_github_url_without_slash. reflexivity. Defined.

End Address.

(** * Further properties: the language analysis in the stored scan *)

Module StoredScanFacts.
Import MultiLanguageAnalyzer.

Lemma run_analyzer_python t repo :
  run_analyzer t repo "Python" = analyze_python_complexity t repo.
Proof.
  unfold run_analyzer, complexity_analyzers.
  rewrite list_to_map_cons, lookup_insert_eq. reflexivity.
Qed.

Lemma run_analyzer_javascript t repo :
  run_analyzer t repo "JavaScript" = analyze_javascript_complexity t repo.
Proof.
  unfold run_analyzer, complexity_analyzers.
  rewrite !list_to_map_cons. cbn [fst snd].
  rewrite lookup_insert_ne by discriminate.
  rewrite lookup_insert_eq. reflexivity.
Qed.

Lemma run_analyzer_typescript t repo :
  run_analyzer t repo "TypeScript" = analyze_typescript_complexity t repo.
Proof.
  unfold run_analyzer, complexity_analyzers.
  rewrite !list_to_map_cons. cbn [fst snd].
  rewrite !lookup_insert_ne by discriminate.
  rewrite lookup_insert_eq. reflexivity.
Qed.

End StoredScanFacts.

Section StoredScan.
Import MultiLanguageAnalyzer StoredScanFacts.

(** X29: for a Python repository whose tree is cloned, the stored
    maintainability index is 0 whatever the scanner's own maintainability
    analysis found, with or without radon; so it is for JavaScript and
    TypeScript when ESLint answers.  The scanner's value is kept only when the
    language is Unknown or cloning fails. *)
Theorem enhanced_maintainability_zero (t : tools) (repo : list source_file)
    (analysis_result : App.scan_metrics) :
  App.maintainability_index
    (App.enhanced_metrics t "Python" (Some repo) analysis_result) = 0%Q /\
  (forall language scores,
     language = "JavaScript" \/ language = "TypeScript" ->
     eslint_scores t = Some scores -> scores <> [] ->
     App.maintainability_index
       (App.enhanced_metrics t language (Some repo) analysis_result) = 0%Q) /\
  (forall language,
     App.enhanced_metrics t language None analysis_result = analysis_result) /\
  App.enhanced_metrics t "Unknown" (Some repo) analysis_result
  = analysis_result.
Proof.
  repeat apply conj.
  - unfold App.enhanced_metrics, CodeScanner.analyze_complexity_for_language,
      analyze_complexity_for_language.
    rewrite run_analyzer_python. unfold analyze_python_complexity.
    destruct (radon_installed t); reflexivity.
  - intros language scores Hl He Hne.
    unfold App.enhanced_metrics, CodeScanner.analyze_complexity_for_language,
      analyze_complexity_for_language.
    destruct scores as [|s l]; [congruence|].
    destruct Hl as [-> | ->];
      [rewrite run_analyzer_javascript|rewrite run_analyzer_typescript];
      unfold analyze_typescript_complexity, analyze_javascript_complexity,
        _try_eslint_analysis; rewrite He; reflexivity.
  - intros language. unfold App.enhanced_metrics.
    destruct (negb _); reflexivity.
  - reflexivity.
Qed.

Lemma enhanced_maintainability_zero_witness :
  App.maintainability_index
    (App.enhanced_metrics {| radon_installed := false; eslint_scores := Some [3; 12] |}
       "JavaScript" (Some [text_file "src/app.js" sample_js])
       {| App.complexity_score := 2; App.maintainability_index := 80;
          App.complexity_min := 1; App.complexity_max := 4;
          App.simple_functions := 3; App.moderate_functions := 0;
          App.complex_functions := 0; App.total_functions := 3 |}) = 0%Q.
Proof.
  destruct (enhanced_maintainability_zero
              {| radon_installed := false; eslint_scores := Some [3; 12] |}
              [text_file "src/app.js" sample_js]
              {| App.complexity_score := 2; App.maintainability_index := 80;
                 App.complexity_min := 1; App.complexity_max := 4;
                 App.simple_functions := 3; App.moderate_functions := 0;
                 App.complex_functions := 0; App.total_functions := 3 |})
    as (_ & H & _).
  apply (H "JavaScript" [3; 12]); [now left|reflexivity|discriminate].
Defined.

End StoredScan.
